(** * presto: template mapping, design extraction and slide assembly

    A shallow embedding of the parts of the presto scripts that carry logic
    of their own:

    - [template_config.py]: dotted-path lookup in a content record and the
      advisory validation of a record against the slide configuration;
    - [template_analyzer.py]: reading the slide size out of presentation.xml;
    - [design_properties_extractor.py]: unit normalisation of the slide
      size, hex / RGB / HSL conversion and the colour categories;
    - [enhanced_presentation_generator.py]: styled slide creation, layout
      lookup with its fallback, bullet binding and the assembly loop.

    Python values are embedded as follows.  A JSON document is a [json]
    tree whose mappings are [gmap string json]; Python's [None] is [JNull].
    A call that may raise returns an [outcome]; [try ... except] is
    [try_except].  Python floats are the kernel's binary64 floats, so the
    arithmetic below rounds exactly as CPython's does. *)

From Stdlib Require Import ZArith Floats String Ascii List Lia.
From stdpp Require Import gmap strings list.

Set Warnings "-inexact-float,-register-all".
Open Scope Z_scope.

(** ** Python runtime: exceptions and results *)

(** The exception classes the modelled code can meet.  All of them derive
    from [Exception]; [TemplateError] is Jinja's base class. *)
Inductive exn : Set :=
  | KeyError
  | TypeError
  | ValueError
  | IndexError
  | AttributeError
  | OverflowError
  | ZeroDivisionError
  | TemplateError.

Inductive outcome (A : Type) : Type :=
  | Return (a : A)
  | Raise (e : exn).
Arguments Return {A} a.
Arguments Raise {A} e.

#[global] Instance exn_eq_dec : EqDecision exn.
Proof. solve_decision. Defined.

#[global] Instance outcome_ret : MRet outcome := fun _ a => Return a.
#[global] Instance outcome_bind : MBind outcome := fun _ _ f m =>
  match m with
  | Return a => f a
  | Raise e => Raise e
  end.

Definition caught (classes : list exn) (e : exn) : bool :=
  existsb (fun c => bool_decide (c = e)) classes.

(** [try: body except classes: handler] *)
Definition try_except {A} (body : outcome A) (classes : list exn) (handler : exn -> outcome A) : outcome A :=
  match body with
  | Return a => Return a
  | Raise e => if caught classes e then handler e else Raise e
  end.

(** [except Exception]: every class of [exn] derives from [Exception]. *)
Definition Exception : list exn :=
  [KeyError; TypeError; ValueError; IndexError; AttributeError; OverflowError; ZeroDivisionError; TemplateError].

Definition returns {A} (m : outcome A) : Prop := exists a, m = Return a.

(** A [for] loop whose body updates the loop state and may raise. *)
Fixpoint for_each {A S : Type} (items : list A) (body : S -> A -> outcome S) (s : S) : outcome S :=
  match items with
  | [] => Return s
  | x :: rest => s' ← body s x; for_each rest body s'
  end.

(** ** JSON values *)

Inductive json : Type :=
  | JNull
  | JBool (b : bool)
  | JInt (z : Z)
  | JFloat (f : float)
  | JStr (s : string)
  | JList (l : list json)
  | JDict (m : gmap string json).

Definition is_None (v : json) : bool :=
  match v with JNull => true | _ => false end.

(** [isinstance(v, list)] *)
Definition is_list (v : json) : bool :=
  match v with JList _ => true | _ => false end.

(** [value[key]] for a string key: only a mapping can be indexed by a
    string; a missing key is a [KeyError], any other receiver a [TypeError]
    (list and str indices must be integers, numbers, booleans and None are
    not subscriptable). *)
Definition getitem (value : json) (key : string) : outcome json :=
  match value with
  | JDict m =>
      match m !! key with
      | Some v => Return v
      | None => Raise KeyError
      end
  | _ => Raise TypeError
  end.

(** [s.split(sep)] for a one-character separator: never empty, and an empty
    piece for every leading, trailing or doubled separator. *)
Fixpoint split (sep : ascii) (s : string) : list string :=
  match s with
  | EmptyString => [EmptyString]
  | String c rest =>
      if Ascii.eqb c sep then EmptyString :: split sep rest
      else match split sep rest with
           | piece :: pieces => String c piece :: pieces
           | [] => [String c EmptyString]
           end
  end.

(** ** template_config.py *)

Inductive ContentType : Set :=
  | TEXT
  | BULLET_LIST
  | TABLE
  | IMAGE
  | TITLE
  | SUBTITLE.

#[global] Instance ContentType_eq_dec : EqDecision ContentType.
Proof. solve_decision. Defined.

Record PlaceholderMapping : Type := {
  placeholder_index : Z;
  content_type : ContentType;
  json_path : string;
  jinja_enabled : bool;
  formatting_options : option (gmap string json)
}.

Record SlideConfig : Type := {
  slide_key : string;
  layout_index : Z;
  placeholders : list PlaceholderMapping;
  slide_title_path : option string
}.

(** The dataclass defaults: [jinja_enabled = True], no formatting options. *)
Definition mapping (index : Z) (ty : ContentType) (path : string) : PlaceholderMapping :=
  {| placeholder_index := index; content_type := ty; json_path := path;
     jinja_enabled := true; formatting_options := None |}.

(** [TemplateConfig._create_default_config] *)
Definition _create_default_config : list SlideConfig :=
  [ {| slide_key := "title_slide";
       layout_index := 0;
       placeholders :=
         [ mapping 0 TITLE "presentation_data.title_slide.title";
           mapping 1 SUBTITLE "presentation_data.title_slide.subtitle" ];
       slide_title_path := Some "presentation_data.title_slide.title" |};
    {| slide_key := "benefits_slide";
       layout_index := 1;
       placeholders :=
         [ mapping 0 TITLE "presentation_data.benefits_slide.slide_title";
           mapping 1 BULLET_LIST "presentation_data.benefits_slide.text_body";
           mapping 2 IMAGE "presentation_data.benefits_slide.image_description" ];
       slide_title_path := Some "presentation_data.benefits_slide.slide_title" |};
    {| slide_key := "impact_slide";
       layout_index := 1;
       placeholders :=
         [ mapping 0 TITLE "presentation_data.impact_slide.slide_title";
           mapping 1 TABLE "presentation_data.impact_slide.table_data" ];
       slide_title_path := Some "presentation_data.impact_slide.slide_title" |} ].

(** [TemplateConfig.add_slide_config] *)
Definition add_slide_config (slides_config : list SlideConfig) (config : SlideConfig) : list SlideConfig :=
  slides_config ++ [config].

(** The loop [for key in keys: value = value[key]]. *)
Fixpoint walk (value : json) (keys : list string) : outcome json :=
  match keys with
  | [] => Return value
  | key :: rest => v ← getitem value key; walk v rest
  end.

(** [TemplateConfig.get_json_value_by_path] *)
Definition get_json_value_by_path (data : json) (json_path : string) : outcome json :=
  try_except
    (let keys := split "." json_path in walk data keys)
    [KeyError; TypeError]
    (fun _ => Return JNull).

(** The body of the placeholder loop of [validate_data_structure]. *)
Definition validate_placeholder (data : json) (errors : list string) (placeholder : PlaceholderMapping)
    : outcome (list string) :=
  value ← get_json_value_by_path data (json_path placeholder);
  if is_None value then
    Return (errors ++ ["Missing data for path: " +:+ json_path placeholder])
  else if bool_decide (content_type placeholder = TABLE) && negb (is_list value) then
    Return (errors ++ ["Table data must be a list: " +:+ json_path placeholder])
  else if bool_decide (content_type placeholder = BULLET_LIST) && negb (is_list value) then
    Return (errors ++ ["Bullet list data must be a list: " +:+ json_path placeholder])
  else Return errors.

(** The body of the slide loop: a missing block appends one message and
    [continue]s past the placeholder checks. *)
Definition validate_slide (data : json) (errors : list string) (slide_config : SlideConfig)
    : outcome (list string) :=
  slide_data ← get_json_value_by_path data ("presentation_data." +:+ slide_key slide_config);
  if is_None slide_data then
    Return (errors ++ ["Missing slide data for: " +:+ slide_key slide_config])
  else for_each (placeholders slide_config) (validate_placeholder data) errors.

(** [TemplateConfig.validate_data_structure], for the configuration held in
    [self.slides_config]. *)
Definition validate_data_structure (slides_config : list SlideConfig) (data : json) : outcome (list string) :=
  for_each slides_config (validate_slide data) [].


(** ** template_analyzer.py *)

(** An element of a parsed XML tree: qualified tag, attributes, children. *)
Inductive element : Type :=
  | Element (tag : string) (attrib : gmap string string) (children : list element).

Definition tag (e : element) : string := match e with Element t _ _ => t end.
Definition attrib (e : element) : gmap string string := match e with Element _ a _ => a end.
Definition children (e : element) : list element := match e with Element _ _ c => c end.

(** The tag ElementTree gives an element [name] of [namespace]. *)
Definition qualified (namespace name : string) : string :=
  "{" +:+ namespace +:+ "}" +:+ name.

(** [e.find('p:name', namespaces)]: the first child of [e] with the
    qualified tag, [None] without one. *)
Definition find (e : element) (namespace name : string) : option element :=
  List.find (fun child => String.eqb (tag child) (qualified namespace name)) (children e).

Definition presentationml : string :=
  "http://schemas.openxmlformats.org/presentationml/2006/main".

(** [get_slide_dimensions], on the root of the parsed presentation.xml.
    The result is a Python dict whose values are attribute values or
    [None]. *)
Definition get_slide_dimensions (root : element) : gmap string (option string) :=
  match find root presentationml "sldSz" with
  | Some sld_sz =>
      <["width" := attrib sld_sz !! "cx"]> (<["height" := attrib sld_sz !! "cy"]> ∅)
  | None => ∅
  end.

(** ** Python numbers *)

(** [float(z)] for an int below 2^63 in size: exact below 2^53, rounded to
    the nearest float from there on. *)
Definition float_of_int (z : Z) : float :=
  if z <? 0 then PrimFloat.opp (PrimFloat.of_uint63 (Uint63.of_Z (- z)))
  else PrimFloat.of_uint63 (Uint63.of_Z z).

(** The integer part of a finite float, towards zero. *)
Definition truncate (f : float) : Z :=
  match Prim2SF f with
  | S754_finite negative m e =>
      let magnitude := if 0 <=? e then Z.shiftl (Z.pos m) e else Z.shiftr (Z.pos m) (- e) in
      if negative then - magnitude else magnitude
  | _ => 0
  end.

Definition finite (f : float) : bool :=
  match PrimFloat.classify f with
  | PInf | NInf | NaN => false
  | _ => true
  end.

(** [int(f)] for a float: ValueError on NaN, OverflowError on an infinity. *)
Definition py_int (f : float) : outcome Z :=
  match PrimFloat.classify f with
  | NaN => Raise ValueError
  | PInf | NInf => Raise OverflowError
  | _ => Return (truncate f)
  end.

(** [a / b] on floats: Python raises where IEEE would give an infinity. *)
Definition py_div (a b : float) : outcome float :=
  if PrimFloat.eqb b 0 then Raise ZeroDivisionError else Return (a / b)%float.

(** [max(a, b)] and [min(a, b)]: the first argument stays unless the second
    is strictly beyond it. *)
Definition py_max (a b : float) : float := if PrimFloat.ltb a b then b else a.
Definition py_min (a b : float) : float := if PrimFloat.ltb b a then b else a.

(** [x % 1.0]: the remainder of C's fmod, moved into [0, 1) and with the
    sign of the divisor when it is zero.  From 2^53 on every float is an
    integer and the remainder is zero. *)
Definition py_mod_one (x : float) : float :=
  let m :=
    if PrimFloat.ltb (PrimFloat.abs x) 1 then x
    else if negb (finite x) then PrimFloat.nan
    else if PrimFloat.leb 9007199254740992 (PrimFloat.abs x) then 0%float
    else (x - float_of_int (truncate x))%float in
  if PrimFloat.eqb m 0 then 0%float
  else if PrimFloat.ltb m 0 then (m + 1)%float
  else m.

(** ** design_properties_extractor.py *)

Record slide_dimensions : Type := {
  width_inches : float;
  width_emu : Z;
  height_inches : float;
  height_emu : Z;
  aspect_ratio : float;
  format : string
}.

(** [extract_slide_dimensions], from [width_val] and [height_val], the two
    dimensions after [float(...)]. *)
Definition extract_slide_dimensions (width_val height_val : float) : outcome slide_dimensions :=
  '(w_inches, h_inches, w_emu, h_emu) ←
    (if PrimFloat.ltb 1000 width_val then
       w_emu ← py_int width_val;
       h_emu ← py_int height_val;
       Return ((width_val / 914400)%float, (height_val / 914400)%float, w_emu, h_emu)
     else
       w_emu ← py_int (width_val * 914400)%float;
       h_emu ← py_int (height_val * 914400)%float;
       Return (width_val, height_val, w_emu, h_emu));
  ratio ← py_div w_inches h_inches;
  Return {| width_inches := w_inches;
            width_emu := w_emu;
            height_inches := h_inches;
            height_emu := h_emu;
            aspect_ratio := ratio;
            format := if PrimFloat.ltb (PrimFloat.abs (ratio - 16 / 9)) 0.1
                      then "Widescreen (16:9)" else "Custom" |}.

(** [s.lstrip('#')] *)
Fixpoint lstrip_hash (s : string) : string :=
  match s with
  | String "#" rest => lstrip_hash rest
  | _ => s
  end.

Definition hex_digit (c : ascii) : option Z :=
  let n := Z.of_N (N_of_ascii c) in
  if (48 <=? n) && (n <=? 57) then Some (n - 48)
  else if (97 <=? n) && (n <=? 102) then Some (n - 87)
  else if (65 <=? n) && (n <=? 70) then Some (n - 55)
  else None.

Fixpoint hex_digits (acc : Z) (s : string) : option Z :=
  match s with
  | EmptyString => Some acc
  | String c rest =>
      match hex_digit c with
      | Some d => hex_digits (16 * acc + d) rest
      | None => None
      end
  end.

(** [int(s, 16)] for a slice of a colour: one or more hex digits of either
    case; anything else is reported as a ValueError.  (Python also accepts
    a sign and blanks around the digits; a colour string has neither, and
    the model does not follow Python there.) *)
Definition int_base16 (s : string) : outcome Z :=
  match s with
  | EmptyString => Raise ValueError
  | _ => match hex_digits 0 s with
         | Some n => Return n
         | None => Raise ValueError
         end
  end.

(** [s[i:i+2]] *)
Definition slice2 (s : string) (i : nat) : string := String.substring i 2 s.

(** [hex_to_rgb], also [_hex_to_rgb] of the generator, which has the same
    body. *)
Definition hex_to_rgb (hex_color : string) : outcome (Z * Z * Z) :=
  let hex_color := lstrip_hash hex_color in
  r ← int_base16 (slice2 hex_color 0);
  g ← int_base16 (slice2 hex_color 2);
  b ← int_base16 (slice2 hex_color 4);
  Return (r, g, b).

(** The two forms of [colorsys.rgb_to_hls] in use: up to CPython 3.11 the
    saturation of a light colour divides by [2.0-sumc], from CPython 3.12
    on by [2.0-maxc-minc].  The two round differently on some colours. *)
Inductive colorsys : Set :=
  | colorsys_3_11
  | colorsys_3_12.

(** [colorsys.rgb_to_hls] of the standard library. *)
Definition rgb_to_hls (lib : colorsys) (r g b : float) : outcome (float * float * float) :=
  let maxc := py_max (py_max r g) b in
  let minc := py_min (py_min r g) b in
  let sumc := (maxc + minc)%float in
  let rangec := (maxc - minc)%float in
  let l := (sumc / 2)%float in
  if PrimFloat.eqb minc maxc then Return (0%float, l, 0%float)
  else
    s ← (if PrimFloat.leb l 0.5 then py_div rangec sumc
         else py_div rangec match lib with
                            | colorsys_3_11 => (2 - sumc)%float
                            | colorsys_3_12 => (2 - maxc - minc)%float
                            end);
    rc ← py_div (maxc - r)%float rangec;
    gc ← py_div (maxc - g)%float rangec;
    bc ← py_div (maxc - b)%float rangec;
    let h :=
      if PrimFloat.eqb r maxc then (bc - gc)%float
      else if PrimFloat.eqb g maxc then (2 + rc - bc)%float
      else (4 + gc - rc)%float in
    Return (py_mod_one (h / 6)%float, l, s).

(** One channel: [x / 255.0]. *)
Definition channel (x : Z) : float := (float_of_int x / 255)%float.

(** [rgb_to_hsl]: hue in degrees, saturation and lightness in percent. *)
Definition rgb_to_hsl (lib : colorsys) (rgb : Z * Z * Z) : outcome (Z * Z * Z) :=
  let '(r, g, b) := rgb in
  '(h, l, s) ← rgb_to_hls lib (channel r) (channel g) (channel b);
  h' ← py_int (h * 360)%float;
  s' ← py_int (s * 100)%float;
  l' ← py_int (l * 100)%float;
  Return (h', s', l').

Record color_analysis : Type := {
  category : string;
  hue : Z;
  saturation : Z;
  lightness : Z;
  is_green_family : bool
}.

(** [categorize_color] *)
Definition categorize_color (lib : colorsys) (hex_color : string) : outcome color_analysis :=
  rgb ← hex_to_rgb hex_color;
  '(h, s, l) ← rgb_to_hsl lib rgb;
  let category :=
    if 90 <? l then "light"
    else if l <? 20 then "dark"
    else if s <? 20 then "neutral"
    else if (80 <=? h) && (h <=? 140) then "primary_green"
    else if (140 <=? h) && (h <=? 200) then "secondary_green"
    else "accent" in
  Return {| category := category;
            hue := h;
            saturation := s;
            lightness := l;
            is_green_family := (80 <=? h) && (h <=? 200) |}.

(** [create_brand_guidelines]: the [color_palette] it writes, from the
    brand colours of the extracted colour scheme. *)
Definition create_brand_guidelines (brand_colors : gmap string string) : gmap string string :=
  list_to_map
    [ ("primary", default "#456446" (brand_colors !! "primary"));
      ("secondary", default "#e7f3ec" (brand_colors !! "secondary"));
      ("accent", default "#6f8770" (brand_colors !! "accent"));
      ("text_dark", "#2d4a2e");
      ("text_light", "#ffffff");
      ("background", "#ffffff") ].

(** ** Mutable objects: state and exceptions together *)

(** python-pptx objects are updated in place, and an update made before an
    exception stays made.  An [action S A] runs on a store [S]; both of its
    results carry the store as the run left it. *)
Inductive result (S A : Type) : Type :=
  | Ok (s : S) (a : A)
  | Err (s : S) (e : exn).
Arguments Ok {S A} s a.
Arguments Err {S A} s e.

Record action (S A : Type) : Type := Action { perform : S -> result S A }.
Arguments Action {S A} perform.
Arguments perform {S A} a s.

#[global] Instance action_ret {S} : MRet (action S) := fun _ a => Action (fun s => Ok s a).
#[global] Instance action_bind {S} : MBind (action S) := fun _ _ f m =>
  Action (fun s =>
    match perform m s with
    | Ok s' a => perform (f a) s'
    | Err s' e => Err s' e
    end).

(** A computation that touches no object. *)
Definition lift {S A} (m : outcome A) : action S A :=
  Action (fun s =>
    match m with
    | Return a => Ok s a
    | Raise e => Err s e
    end).

Definition read {S} : action S S := Action (fun s => Ok s s).
Definition update {S} (f : S -> S) : action S unit := Action (fun s => Ok (f s) tt).

(** [try: body except classes: handler], the handler running on the store
    as the body left it. *)
Definition try_action {S A} (body : action S A) (classes : list exn) (handler : exn -> action S A)
    : action S A :=
  Action (fun s =>
    match perform body s with
    | Ok s' a => Ok s' a
    | Err s' e => if caught classes e then perform (handler e) s' else Err s' e
    end).

(** Running an action on a part of the store. *)
Definition within {S T A} (part : S -> option T) (put : T -> S -> S) (missing : exn)
    (act : action T A) : action S A :=
  Action (fun s =>
    match part s with
    | None => Err s missing
    | Some t =>
        match perform act t with
        | Ok t' a => Ok (put t' s) a
        | Err t' e => Err (put t' s) e
        end
    end).

Fixpoint for_each_do {S A} (items : list A) (body : A -> action S unit) : action S unit :=
  match items with
  | [] => mret tt
  | x :: rest => body x;; for_each_do rest body
  end.

(** ** python-pptx: text, shapes, slides *)

Record font : Type := {
  font_name : option string;
  font_size : option Z;             (* points *)
  font_color : option (Z * Z * Z)
}.

Record run : Type := { run_text : string; run_font : font }.

Record paragraph : Type := { runs : list run; level : Z }.

(** A text frame is its paragraphs. *)
Definition text_frame : Type := list paragraph.

Definition unstyled : font := {| font_name := None; font_size := None; font_color := None |}.

(** [p.text = text] on a paragraph: the text becomes the paragraph's one
    run, no run for an empty text.  (python-pptx starts a new run after
    every line break inside the text; the model keeps the text of a
    paragraph in one run.) *)
Definition with_text (text : string) (p : paragraph) : paragraph :=
  {| runs := if bool_decide (text = "") then [] else [ {| run_text := text; run_font := unstyled |} ];
     level := level p |}.

Definition empty_paragraph : paragraph := {| runs := []; level := 0 |}.

Definition paragraph_text (p : paragraph) : string :=
  foldr (fun r rest => run_text r +:+ rest) "" (runs p).

(** [text_frame.clear()]: all paragraphs but the first go, the first keeps
    its properties and loses its runs. *)
Definition clear (tf : text_frame) : text_frame :=
  match tf with
  | [] => [empty_paragraph]
  | p :: _ => [ {| runs := []; level := level p |} ]
  end.

(** [text_frame.text = text]: the frame's content is replaced by one new
    paragraph for every line of the text. *)
Definition set_text (text : string) : text_frame :=
  map (fun line => with_text line empty_paragraph) (split "010" text).

(** [p = text_frame.add_paragraph()], then updates of [p]. *)
Definition add_paragraph (tf : text_frame) : text_frame := tf ++ [empty_paragraph].

Definition update_last (f : paragraph -> paragraph) (tf : text_frame) : text_frame :=
  match reverse tf with
  | [] => []
  | p :: before => reverse before ++ [f p]
  end.

Definition set_level (n : Z) (p : paragraph) : paragraph := {| runs := runs p; level := n |}.

(** A placeholder shape; a picture placeholder has no text frame. *)
Record shape : Type := { shape_text_frame : option text_frame }.

Inductive fill : Type :=
  | Inherited
  | Solid (fore_color : option (Z * Z * Z)).

Record layout : Type := {
  layout_name : string;
  layout_shapes : gmap Z shape        (* the placeholders a slide clones, by idx *)
}.

Record slide : Type := {
  slide_layout : layout;
  shapes : gmap Z shape;              (* [slide.placeholders], by idx *)
  background : fill
}.

Record presentation : Type := {
  slide_layouts : list layout;
  slides : list slide
}.

(** [prs.slides.add_slide(layout)]: the new slide is the last one; the
    result is its position, which stands for the Python reference. *)
Definition add_slide (slide_layout : layout) : action presentation nat :=
  Action (fun prs =>
    Ok {| slide_layouts := slide_layouts prs;
          slides := slides prs ++
            [ {| slide_layout := slide_layout; shapes := layout_shapes slide_layout;
                 background := Inherited |} ] |}
       (length (slides prs))).

(** The slide behind a reference, as a part of the presentation. *)
Definition on_slide {A} (ref : nat) (act : action slide A) : action presentation A :=
  within (fun prs => slides prs !! ref)
         (fun s prs => {| slide_layouts := slide_layouts prs; slides := <[ref := s]> (slides prs) |})
         IndexError act.

(** [slide.placeholders[idx]], a KeyError without such a placeholder; the
    title shape is the placeholder of idx 0. *)
Definition on_placeholder {A} (idx : Z) (act : action shape A) : action slide A :=
  within (fun s => shapes s !! idx)
         (fun sh s => {| slide_layout := slide_layout s; shapes := <[idx := sh]> (shapes s);
                         background := background s |})
         KeyError act.

(** [shape.text_frame], an AttributeError on a shape without one. *)
Definition on_text_frame {A} (act : action text_frame A) : action shape A :=
  within shape_text_frame (fun tf _ => {| shape_text_frame := Some tf |}) AttributeError act.

(** ** enhanced_presentation_generator.py *)

(** The design configuration the generator loads, with the types its JSON
    file has when it is well formed. *)
Record design_config : Type := {
  color_scheme : gmap string string;
  fonts_primary : option string;
  fonts_sizes : gmap string Z
}.

(** What the generator calls and does not implement.  A template is
    known by its source text. *)
Class Collaborators : Type := {
  (** [jinja_env.from_string(text)] *)
  from_string : string -> outcome string;
  (** [jinja_env.get_template(name)] *)
  get_template : string -> outcome string;
  (** [template.render(context)] *)
  render : string -> json -> outcome string;
  (** the [shape] elements lxml finds in a rendered slide, in document
      order: for each its [type] attribute and its text *)
  xml_shapes : string -> outcome (list (option string * option string));
  (** [str(item)] *)
  py_str : json -> string
}.

(** [_apply_font_styling]: every run of every paragraph, in order; the
    first failure ends the pass and is swallowed. *)
Definition style_run (family : string) (size : Z) (text_color : string) : action run unit :=
  update (fun r => {| run_text := run_text r;
                      run_font := {| font_name := Some family; font_size := font_size (run_font r);
                                     font_color := font_color (run_font r) |} |});;
  update (fun r => {| run_text := run_text r;
                      run_font := {| font_name := font_name (run_font r); font_size := Some size;
                                     font_color := font_color (run_font r) |} |});;
  rgb ← lift (hex_to_rgb text_color);
  update (fun r => {| run_text := run_text r;
                      run_font := {| font_name := font_name (run_font r);
                                     font_size := font_size (run_font r);
                                     font_color := Some rgb |} |}).

(** A loop over the positions of a list held in the store. *)
Definition for_each_index {S T} (items : S -> list T) (put : list T -> S -> S)
    (body : action T unit) : action S unit :=
  Action (fun s =>
    perform
      (for_each_do (seq 0 (length (items s)))
         (fun i => within (fun s => items s !! i) (fun t s => put (<[i := t]> (items s)) s)
                     IndexError body))
      s).

Definition _apply_font_styling (config : design_config) (font_type : string) : action text_frame unit :=
  try_action
    (let font_family := default "Calibri" (fonts_primary config) in
     let size_map : gmap string Z :=
       list_to_map
         [ ("title", default 44 (fonts_sizes config !! "title_size"));
           ("heading", default 32 (fonts_sizes config !! "heading_size"));
           ("subheading", default 24 (fonts_sizes config !! "subheading_size"));
           ("body", default 18 (fonts_sizes config !! "body_size"));
           ("caption", default 14 (fonts_sizes config !! "caption_size")) ] in
     let font_size := default 18 (size_map !! font_type) in
     let text_color := default "#000000" (color_scheme config !! "text_dark") in
     for_each_index (fun tf => tf) (fun tf _ => tf)
       (for_each_index runs (fun rs p => {| runs := rs; level := level p |})
          (style_run font_family font_size text_color)))
    Exception
    (fun _ => mret tt).

(** [_create_styled_slide] *)
Definition _create_styled_slide (config : design_config) (layout_index : nat) : action presentation nat :=
  prs ← read;
  slide_layout' ← lift (match slide_layouts prs !! layout_index with
                        | Some l => Return l
                        | None => Raise IndexError
                        end);
  slide ← add_slide slide_layout';
  try_action
    (let bg_color := color_scheme config !! "background" in
     match bg_color with
     | Some bg_color =>
         if negb (bool_decide (bg_color = "")) && negb (bool_decide (bg_color = "#FFFFFF")) then
           on_slide slide
             (update (fun s => {| slide_layout := slide_layout s; shapes := shapes s;
                                  background := Solid None |});;
              rgb ← lift (hex_to_rgb bg_color);
              update (fun s => {| slide_layout := slide_layout s; shapes := shapes s;
                                  background := Solid (Some rgb) |}))
         else mret tt
     | None => mret tt
     end)
    Exception
    (fun _ => mret tt);;
  mret slide.

(** [process_text_with_jinja] *)
Definition process_text_with_jinja `{Collaborators} (text : string) (data : json) : outcome string :=
  template ← from_string text;
  render template data.

(** [shape.text = text]: the setter of the shape's text frame; text that
    is None is a TypeError. *)
Definition set_shape_text (text : option string) : action shape unit :=
  on_text_frame
    (text ← lift (match text with Some t => Return t | None => Raise TypeError end);
     update (fun _ => set_text text)).

(** [slide.shapes.title] is there: the slide has a placeholder of idx 0. *)
Definition has_title (ref : nat) : action presentation bool :=
  on_slide ref (s ← read; mret (bool_decide (is_Some (shapes s !! 0)))).

(** A text handed to Jinja must be a str. *)
Definition as_str (v : json) : outcome string :=
  match v with
  | JStr s => Return s
  | _ => Raise TypeError
  end.

(** The bullet loop of [create_enhanced_content_slide], on the content
    placeholder's text frame. *)
Definition bind_bullets `{Collaborators} (content : list json) (data : json) : action text_frame unit :=
  for_each_do (zip (seq 0 (length content)) content)
    (fun '(i, item) =>
       processed_item ← lift (process_text_with_jinja (py_str item) data);
       if bool_decide (i = 0%nat) then update (fun _ => set_text processed_item)
       else
         update add_paragraph;;
         update (update_last (with_text processed_item));;
         update (update_last (set_level 0))).

(** The content update of [create_enhanced_content_slide], on the content
    placeholder [slide.placeholders[1]]. *)
Definition bind_content `{Collaborators} (config : design_config)
    (slide_data : gmap string json) (data : json) : action shape unit :=
  let content := default (JList []) (slide_data !! "content") in
  content_placeholder ← read;
  if bool_decide (is_Some (shape_text_frame content_placeholder)) then
    on_text_frame
      (update clear;;
       match content with
       | JList items => bind_bullets items data
       | _ =>
           processed_content ← lift (process_text_with_jinja (py_str content) data);
           update (fun _ => set_text processed_content)
       end;;
       _apply_font_styling config "body")
  else mret tt.

(** The title update of [create_enhanced_content_slide]. *)
Definition bind_title `{Collaborators} (config : design_config)
    (slide_data : gmap string json) (data : json) (slide : nat) : action presentation unit :=
  titled ← has_title slide;
  if titled : bool then
    let title_text := default (JStr "Slide Title") (slide_data !! "title") in
    processed_title ← lift (text ← as_str title_text; process_text_with_jinja text data);
    on_slide slide (on_placeholder 0
      (set_shape_text (Some processed_title);;
       on_text_frame (_apply_font_styling config "heading")))
  else mret tt.

(** [create_enhanced_content_slide] *)
Definition create_enhanced_content_slide `{Collaborators} (config : design_config)
    (slide_data : gmap string json) (data : json) : action presentation nat :=
  slide ← _create_styled_slide config 1;
  bind_title config slide_data data slide;;
  try_action
    (on_slide slide (on_placeholder 1 (bind_content config slide_data data)))
    [KeyError; IndexError]
    (fun _ => mret tt);;
  mret slide.

(** The body of the element loop of [create_slide_from_xml]. *)
Definition bind_xml_shape (config : design_config) (slide : nat)
    (element : option string * option string) : action presentation unit :=
  let '(shape_type, text) := element in
  if bool_decide (shape_type = Some "title") then
    titled ← has_title slide;
    if titled : bool then
      on_slide slide (on_placeholder 0
        (set_shape_text text;; on_text_frame (_apply_font_styling config "title")))
    else mret tt
  else if bool_decide (shape_type = Some "body") then
    try_action
      (on_slide slide (on_placeholder 1
         (set_shape_text text;; on_text_frame (_apply_font_styling config "body"))))
      [KeyError; IndexError]
      (fun _ => mret tt)
  else mret tt.

(** [create_slide_from_xml] *)
Definition create_slide_from_xml `{Collaborators} (config : design_config)
    (slide_xml : string) (layout_name' : string) : action presentation unit :=
  try_action
    (prs ← read;
     layout' ← lift
       (match List.find (fun l => String.eqb (layout_name l) layout_name') (slide_layouts prs) with
        | Some l => Return l
        | None =>
            match slide_layouts prs !! 0%nat with
            | Some l => Return l
            | None => Raise IndexError
            end
        end);
     slide ← add_slide layout';
     elements ← lift (xml_shapes slide_xml);
     for_each_do elements (bind_xml_shape config slide))
    Exception
    (fun _ => mret tt).

(** [d.get(key, default)]; an AttributeError on what is not a mapping. *)
Definition py_get (d : json) (key : string) (default_value : json) : outcome json :=
  match d with
  | JDict m => Return (default default_value (m !! key))
  | _ => Raise AttributeError
  end.

Fixpoint starts_with (prefix text : string) : bool :=
  match prefix, text with
  | EmptyString, _ => true
  | String a prefix', String b text' => Ascii.eqb a b && starts_with prefix' text'
  | String _ _, EmptyString => false
  end.

Fixpoint substring_of (needle text : string) : bool :=
  starts_with needle text ||
  match text with
  | EmptyString => false
  | String _ rest => substring_of needle rest
  end.

(** [key in container] for a str key: a key of a mapping, an item of a
    list, a substring of a str; a TypeError on anything else. *)
Definition py_in (key : string) (container : json) : outcome bool :=
  match container with
  | JDict m => Return (bool_decide (is_Some (m !! key)))
  | JList l => Return (existsb (fun v => match v with JStr s => String.eqb s key | _ => false end) l)
  | JStr s => Return (substring_of key s)
  | _ => Raise TypeError
  end.

(** The items a [for] loop takes from a value: the items of a list, the
    keys of a mapping, the characters of a str. *)
Definition py_iter (v : json) : outcome (list json) :=
  match v with
  | JList l => Return l
  | JDict m => Return (map (fun kv => JStr kv.1) (map_to_list m))
  | JStr s => Return (map (fun c => JStr (String c EmptyString)) (list_ascii_of_string s))
  | _ => Raise TypeError
  end.

(** The layout and the template of a slide type, both empty for a type
    the chain of comparisons does not know. *)
Definition slide_kind (slide_type : json) : string * string :=
  match slide_type with
  | JStr t =>
      if String.eqb t "title_and_content" then ("Title and Content", "title_and_content_slide.xml")
      else if String.eqb t "section_header" then ("Section Header", "section_header_slide.xml")
      else if String.eqb t "two_content" then ("Two Content", "two_content_slide.xml")
      else if String.eqb t "comparison" then ("Comparison", "comparison_slide.xml")
      else if String.eqb t "title_only" then ("Title Only", "title_only_slide.xml")
      else if String.eqb t "blank" then ("Blank", "blank_slide.xml")
      else if String.eqb t "content_with_caption"
           then ("Content with Caption", "content_with_caption_slide.xml")
      else if String.eqb t "picture_with_caption"
           then ("Picture with Caption", "picture_with_caption_slide.xml")
      else ("", "")
  | _ => ("", "")
  end.

(** The body of the content-slide loop of [generate_enhanced_presentation],
    with the running [slide_count]. *)
Definition content_slide `{Collaborators} (config : design_config) (slide_count : Z)
    (slide_info : json) : action presentation Z :=
  slide_type ← lift (py_get slide_info "type" (JStr "content"));
  let '(layout_name', template_name) := slide_kind slide_type in
  if negb (bool_decide (layout_name' = "")) && negb (bool_decide (template_name = "")) then
    template ← lift (get_template template_name);
    slide_content ← lift (context ← getitem slide_info "data"; render template context);
    create_slide_from_xml config slide_content layout_name';;
    mret (slide_count + 1)
  else mret slide_count.

Fixpoint for_each_from {S A B} (items : list A) (body : B -> A -> action S B) (b : B) : action S B :=
  match items with
  | [] => mret b
  | x :: rest => b' ← body b x; for_each_from rest body b'
  end.

(** The title-slide step of [generate_enhanced_presentation]. *)
Definition title_slide_step `{Collaborators} (config : design_config) (presentation_data : json)
    : action presentation unit :=
  titled ← lift (py_in "title_slide" presentation_data);
  if titled : bool then
    template ← lift (get_template "title_slide.xml");
    slide_content ← lift (context ← getitem presentation_data "title_slide"; render template context);
    create_slide_from_xml config slide_content "Title Slide"
  else mret tt.

(** [generate_enhanced_presentation], on the presentation opened from the
    template; the result is the [slide_count] it prints before saving.
    The assignment of the slide size, in a try/except of its own, changes
    only the width and height of the deck, which [presentation] does not
    carry. *)
Definition generate_enhanced_presentation `{Collaborators} (config : design_config) (data : json)
    : action presentation Z :=
  presentation_data ← lift (py_get data "presentation_data" (JDict ∅));
  title_slide_step config presentation_data;;
  slide_infos ← lift (slides' ← py_get presentation_data "slides" (JList []); py_iter slides');
  for_each_from slide_infos (content_slide config) 0.

(** A template engine for the examples: a template renders to its own
    source, unless the context defines [fail]; the rendered text is the
    text of one title shape. *)
Definition example_engine : Collaborators :=
  {| from_string := fun text => Return text;
     get_template := fun name => Return name;
     render := fun template context =>
       match context with
       | JDict m => if bool_decide (is_Some (m !! "fail")) then Raise TemplateError else Return template
       | _ => Raise TypeError
       end;
     xml_shapes := fun xml => Return [ (Some "title", Some xml) ];
     py_str := fun v => match v with JStr s => s | _ => "" end |}.
(** ** Vocabulary of the statements *)

(** A path is present in a record when every segment names a key of the
    mapping reached so far; [present data keys v] says so and names the
    value at the end of the path. *)
Inductive present : json -> list string -> json -> Prop :=
  | present_here v : present v [] v
  | present_step m key v keys w :
      m !! key = Some v -> present v keys w -> present (JDict m) (key :: keys) w.

(** [mentions needle text]: [needle] occurs in [text]. *)
Definition mentions (needle text : string) : Prop :=
  exists before after, text = before +:+ needle +:+ after.

(** The messages one placeholder, and one slide, contribute to the list:
    the loop bodies run on an empty list. *)
Definition placeholder_errors (data : json) (placeholder : PlaceholderMapping) : list string :=
  match validate_placeholder data [] placeholder with
  | Return errors => errors
  | Raise _ => []
  end.

Definition slide_errors (data : json) (slide_config : SlideConfig) : list string :=
  match validate_slide data [] slide_config with
  | Return errors => errors
  | Raise _ => []
  end.

(** The path of a slide's own data block. *)
Definition block_path (slide_config : SlideConfig) : string :=
  "presentation_data." +:+ slide_key slide_config.

(** A placeholder path lies under its slide's block when it continues the
    block's path with further segments. *)
Definition under_block (slide_config : SlideConfig) (placeholder : PlaceholderMapping) : Prop :=
  exists rest, json_path placeholder = block_path slide_config +:+ String "." rest.

(** A JSON object written as its key/value pairs. *)
Definition obj (fields : list (string * json)) : json := JDict (list_to_map fields).

(** The second part of the validation property the way the specification
    words it: every TABLE or BULLET_LIST placeholder whose path resolves to
    something that is not a list has its "must be a list" message in the
    result. *)
Definition reports_every_non_list (slides_config : list SlideConfig) (data : json) : Prop :=
  forall errors slide_config placeholder value,
    validate_data_structure slides_config data = Return errors ->
    In slide_config slides_config -> In placeholder (placeholders slide_config) ->
    content_type placeholder = TABLE \/ content_type placeholder = BULLET_LIST ->
    get_json_value_by_path data (json_path placeholder) = Return value ->
    is_list value = false ->
    In ("Table data must be a list: " +:+ json_path placeholder) errors \/
    In ("Bullet list data must be a list: " +:+ json_path placeholder) errors.

(** A slide that takes its table from a section shared between slides. *)
Definition summary_slide : SlideConfig :=
  {| slide_key := "summary"; layout_index := 1;
     placeholders := [ mapping 1 TABLE "shared.rows" ];
     slide_title_path := None |}.

Definition shared_rows_record : json :=
  obj [ ("shared", obj [ ("rows", JStr "n/a") ]) ].

Definition null_table_record : json :=
  obj [ ("presentation_data",
         obj [ ("impact_slide", obj [ ("slide_title", JStr "Impact"); ("table_data", JNull) ]) ]) ].

(** A six-digit hex colour, digits of either case. *)
Fixpoint all_hex (s : string) : bool :=
  match s with
  | EmptyString => true
  | String c rest => match hex_digit c with Some _ => all_hex rest | None => false end
  end.

Definition is_hex6 (s : string) : bool :=
  all_hex s && (String.length s =? 6)%nat.

(** The category the specification assigns to an HSL triple: the
    thresholds in the order it lists them, the first that applies. *)
Definition category_of_hsl (h s l : Z) : string :=
  if bool_decide (l > 90) then "light"
  else if bool_decide (l < 20) then "dark"
  else if bool_decide (s < 20) then "neutral"
  else if bool_decide (80 <= h <= 140) then "primary_green"
  else if bool_decide (140 <= h <= 200) then "secondary_green"
  else "accent".

(** The 256 channel values [x / 255.0]. *)
Definition channel_table : list float :=
  Eval vm_compute in map (fun k => channel (Z.of_nat k)) (seq 0 256).

(** [rgb_to_hls] returns on the three channels, and the three products
    [rgb_to_hsl] passes to [int] are finite. *)
Definition hls_defined (lib : colorsys) (r g b : float) : bool :=
  match rgb_to_hls lib r g b with
  | Return (h, l, s) => finite (h * 360)%float && finite (s * 100)%float && finite (l * 100)%float
  | Raise _ => false
  end.

(** The same test written out on the floats, for both forms of the
    library at once; this is the form that is evaluated on every triple of
    channels: no divisor is zero and the products are finite. *)
Definition hls_check (r g b : float) : bool :=
  let maxc := py_max (py_max r g) b in
  let minc := py_min (py_min r g) b in
  let sumc := (maxc + minc)%float in
  let rangec := (maxc - minc)%float in
  let l := (sumc / 2)%float in
  if PrimFloat.eqb minc maxc then
    finite (0 * 360)%float && finite (0 * 100)%float && finite (l * 100)%float
  else if PrimFloat.eqb rangec 0 then false
  else
    let rc := ((maxc - r) / rangec)%float in
    let gc := ((maxc - g) / rangec)%float in
    let bc := ((maxc - b) / rangec)%float in
    let h :=
      if PrimFloat.eqb r maxc then (bc - gc)%float
      else if PrimFloat.eqb g maxc then (2 + rc - bc)%float
      else (4 + gc - rc)%float in
    finite (py_mod_one (h / 6) * 360)%float && finite (l * 100)%float &&
    (if PrimFloat.leb l 0.5 then
       negb (PrimFloat.eqb sumc 0) && finite (rangec / sumc * 100)%float
     else
       negb (PrimFloat.eqb (2 - sumc) 0) && finite (rangec / (2 - sumc) * 100)%float &&
       negb (PrimFloat.eqb (2 - maxc - minc) 0) &&
       finite (rangec / (2 - maxc - minc) * 100)%float).

(** The store an action leaves, whichever way it ends. *)
Definition final {S A} (r : result S A) : S :=
  match r with
  | Ok s _ => s
  | Err s _ => s
  end.

(** An action is stable for a relation on stores when every run, also one
    that raises, leaves a store related to the one it began on. *)
Definition stable {S A} (R : relation S) (act : action S A) : Prop :=
  forall s, R s (final (perform act s)).

(** What styling leaves alone: the text and the level of every paragraph. *)
Definition same_text (tf tf' : text_frame) : Prop :=
  map paragraph_text tf' = map paragraph_text tf /\ map level tf' = map level tf.

(** A deck with the two layouts the generator uses by position: a title
    layout (title and subtitle) and a content layout (title and body). *)
Definition text_placeholder : shape := {| shape_text_frame := Some [empty_paragraph] |}.

Definition two_layout_deck : presentation :=
  {| slide_layouts :=
       [ {| layout_name := "Title Slide";
            layout_shapes := <[0 := text_placeholder]> (<[1 := text_placeholder]> ∅) |};
         {| layout_name := "Title and Content";
            layout_shapes := <[0 := text_placeholder]> (<[1 := text_placeholder]> ∅) |} ];
     slides := [] |}.

Definition plain_design : design_config :=
  {| color_scheme := ∅; fonts_primary := None; fonts_sizes := ∅ |}.

(** The run goes through to the end, where the deck is saved. *)
Definition run_completes `{Collaborators} (config : design_config) (data : json) (prs : presentation)
    : Prop :=
  exists prs' slide_count, perform (generate_enhanced_presentation config data) prs = Ok prs' slide_count.

(** Content for three slides; the context of the second makes the example
    engine fail. *)
Definition slide_of (slide_type : string) (context : list (string * json)) : json :=
  obj [ ("type", JStr slide_type); ("data", obj context) ].

Definition three_slides : json :=
  obj [ ("presentation_data",
         obj [ ("slides",
                JList [ slide_of "title_only" [ ("title", JStr "Soil") ];
                        slide_of "title_only" [ ("fail", JBool true) ];
                        slide_of "title_only" [ ("title", JStr "Water") ] ]) ]) ].

(** What styling leaves alone in a run and in a paragraph. *)
Definition same_run_text (r r' : run) : Prop := run_text r' = run_text r.

Definition same_paragraph_text (p p' : paragraph) : Prop :=
  paragraph_text p' = paragraph_text p /\ level p' = level p.

(** The paragraph the bullet loop appends for an item after the first. *)
Definition bullet (text : string) : paragraph := set_level 0 (with_text text empty_paragraph).

(** * More of the code *)

(** ** template_config.py: the configuration list *)

(** [TemplateConfig.get_slide_config] *)
Definition get_slide_config (slides_config : list SlideConfig) (key : string) : option SlideConfig :=
  List.find (fun config => String.eqb (slide_key config) key) slides_config.


(** [TemplateConfig.update_slide_config]: the first entry with the key is
    overwritten in place; without one the configuration is added. *)
Definition update_slide_config (slides_config : list SlideConfig) (key : string)
    (config : SlideConfig) : list SlideConfig :=
  match list_find (fun existing_config => slide_key existing_config = key) slides_config with
  | Some (i, _) => <[i := config]> slides_config
  | None => add_slide_config slides_config config
  end.

(** A record passes validation when every configured slide has its block
    and every placeholder a value, a list where the content type asks for
    one. *)
Definition placeholder_valid (data : json) (placeholder : PlaceholderMapping) : Prop :=
  exists value,
    get_json_value_by_path data (json_path placeholder) = Return value /\ value <> JNull /\
    (content_type placeholder = TABLE \/ content_type placeholder = BULLET_LIST ->
     is_list value = true).

Definition slide_valid (data : json) (slide_config : SlideConfig) : Prop :=
  (exists block, get_json_value_by_path data (block_path slide_config) = Return block /\
                 block <> JNull) /\
  Forall (placeholder_valid data) (placeholders slide_config).

(** ** template_analyzer.py: the theme *)

Definition drawingml : string :=
  "http://schemas.openxmlformats.org/drawingml/2006/main".

(** [e.find('a:first/a:second', namespaces)]: the first [second] child of
    a [first] child of [e], in document order. *)
Definition find_path (e : element) (namespace first second : string) : option element :=
  head (flat_map
          (fun child => List.filter (fun c => String.eqb (tag c) (qualified namespace second))
                                    (children child))
          (List.filter (fun c => String.eqb (tag c) (qualified namespace first)) (children e))).

(** [color_element.tag.split('}')[1]] *)
Definition tag_local_name (color_element : element) : outcome string :=
  match split "}" (tag color_element) with
  | _ :: name :: _ => Return name
  | _ => Raise IndexError
  end.

(** The body of the colour loop of [analyze_theme]. *)
Definition theme_color (color_scheme : gmap string (option string)) (color_element : element)
    : outcome (gmap string (option string)) :=
  color_name ← tag_local_name color_element;
  let color_scheme :=
    match find color_element drawingml "srgbClr" with
    | Some srgb_clr => <[color_name := attrib srgb_clr !! "val"]> color_scheme
    | None => color_scheme
    end in
  let color_scheme :=
    match find color_element drawingml "sysClr" with
    | Some sys_clr => <[color_name := attrib sys_clr !! "lastClr"]> color_scheme
    | None => color_scheme
    end in
  Return color_scheme.

(** The [color_scheme] of [analyze_theme], on the root of the parsed
    theme: colour values are attribute values or [None]. *)
Definition theme_color_scheme (root : element) : outcome (gmap string (option string)) :=
  match find_path root drawingml "themeElements" "clrScheme" with
  | Some clr_scheme_element => for_each (children clr_scheme_element) theme_color ∅
  | None => Return ∅
  end.

(** A Python dict of strings whose order matters: every key once, the
    keys in the order of their first assignment. *)
Definition odict : Type := list (string * string).

(** [d[key] = value] *)
Fixpoint odict_set (key value : string) (d : odict) : odict :=
  match d with
  | [] => [ (key, value) ]
  | (k, v) :: rest =>
      if String.eqb k key then (k, value) :: rest else (k, v) :: odict_set key value rest
  end.

(** [d.get(key)] *)
Definition odict_get (key : string) (d : odict) : option string :=
  snd <$> List.find (fun kv => String.eqb kv.1 key) d.

(** [text.endswith(suffix)] *)
Fixpoint ends_with (suffix text : string) : bool :=
  String.eqb text suffix ||
  match text with
  | EmptyString => false
  | String _ rest => ends_with suffix rest
  end.

(** The body of the two font loops of [analyze_theme]. *)
Definition theme_font (fonts : odict) (font : element) : odict :=
  match attrib font !! "typeface" with
  | Some typeface =>
      match attrib font !! "script" with
      | Some script => odict_set script typeface fonts
      | None =>
          if ends_with "latin" (tag font) then odict_set "latin" typeface fonts else fonts
      end
  | None => fonts
  end.

Definition theme_fonts (font_scheme_element : option element) (role : string) : odict :=
  match font_scheme_element with
  | Some font_scheme_element =>
      match find font_scheme_element drawingml role with
      | Some font_element => fold_left theme_font (children font_element) []
      | None => []
      end
  | None => []
  end.

(** The font scheme of a template analysis; a role that is missing reads
    as the empty dict, as [font_scheme.get(role, {})] has it. *)
Record font_scheme : Type := { majorFont : odict; minorFont : odict }.

Definition theme_font_scheme (root : element) : font_scheme :=
  let font_scheme_element := find_path root drawingml "themeElements" "fontScheme" in
  {| majorFont := theme_fonts font_scheme_element "majorFont";
     minorFont := theme_fonts font_scheme_element "minorFont" |}.

Record theme_analysis : Type := {
  analysis_color_scheme : gmap string (option string);
  analysis_font_scheme : font_scheme;
  analysis_slide_dimensions : gmap string (option string)
}.

(** [analyze_theme], on the roots of the parsed theme and presentation.xml;
    the result is the analysis it writes to the output file, and nothing
    is written when it raises. *)
Definition analyze_theme (theme_root presentation_root : element) : outcome theme_analysis :=
  color_scheme ← theme_color_scheme theme_root;
  Return {| analysis_color_scheme := color_scheme;
            analysis_font_scheme := theme_font_scheme theme_root;
            analysis_slide_dimensions := get_slide_dimensions presentation_root |}.

(** ** design_properties_extractor.py: colours *)

(** The colour palette of the image analysis: the most common colours as
    pairs of a hex string and a count, and two figures that are passed
    through. *)
Record color_palette : Type := {
  most_common_colors : list (string * Z);
  total_unique_colors : Z;
  color_consistency : float
}.

(** A colour of the palette after the loop of [extract_color_scheme]: its
    analysis with the keys [hex], [frequency] and [rgb] added. *)
Record palette_color : Type := {
  analysis : color_analysis;
  hex : string;
  frequency : Z;
  rgb : Z * Z * Z
}.

(** The body of the palette loop; [colors_by_category] is a
    [defaultdict(list)]. *)
Definition categorize_palette_color (lib : colorsys)
    (colors_by_category : gmap string (list palette_color)) (color_info : string * Z)
    : outcome (gmap string (list palette_color)) :=
  let '(hex_color, frequency) := color_info in
  color_analysis ← categorize_color lib hex_color;
  rgb ← hex_to_rgb hex_color;
  let color := {| analysis := color_analysis; hex := hex_color; frequency := frequency;
                  rgb := rgb |} in
  Return (<[category color_analysis :=
              default [] (colors_by_category !! category color_analysis) ++ [color]]>
            colors_by_category).

(** [colors_by_category.get(category, [{}])[0].get('hex', fallback)] *)
Definition first_hex (colors_by_category : gmap string (list palette_color))
    (category : string) (fallback : string) : outcome string :=
  match colors_by_category !! category with
  | None => Return fallback
  | Some (color :: _) => Return (hex color)
  | Some [] => Raise IndexError
  end.

Record extracted_colors : Type := {
  primary_colors : list palette_color;
  secondary_colors : list palette_color;
  neutral_colors : list palette_color;
  light_colors : list palette_color;
  dark_colors : list palette_color;
  accent_colors : list palette_color;
  scheme_total_unique_colors : Z;
  scheme_color_consistency : float;
  dominant_color_family : string;
  brand_colors : gmap string string
}.

(** [extract_color_scheme], for image data with a colour palette. *)
Definition extract_color_scheme (lib : colorsys) (palette : color_palette)
    : outcome extracted_colors :=
  colors_by_category ← for_each (most_common_colors palette) (categorize_palette_color lib) ∅;
  let bucket (category : string) (n : nat) :=
    take n (default [] (colors_by_category !! category)) in
  primary ← first_hex colors_by_category "primary_green" "#456446";
  secondary ← first_hex colors_by_category "light" "#e7f3ec";
  accent ← first_hex colors_by_category "secondary_green" "#6f8770";
  Return {| primary_colors := bucket "primary_green" 3%nat;
            secondary_colors := bucket "secondary_green" 3%nat;
            neutral_colors := bucket "neutral" 3%nat;
            light_colors := bucket "light" 3%nat;
            dark_colors := bucket "dark" 3%nat;
            accent_colors := bucket "accent" 2%nat;
            scheme_total_unique_colors := total_unique_colors palette;
            scheme_color_consistency := color_consistency palette;
            dominant_color_family := "green";
            brand_colors := list_to_map [ ("primary", primary); ("secondary", secondary);
                                          ("accent", accent) ] |}.

(** ** design_properties_extractor.py: typography *)

(** Truth of a value that is a str or None. *)
Definition truthy (value : option string) : bool :=
  match value with
  | Some (String _ _) => true
  | _ => false
  end.

(** [a or b] *)
Definition py_or (a b : option string) : option string := if truthy a then a else b.

(** The fallback loops of [extract_typography]: the first value of the
    dict that is not empty, [current] without one. *)
Fixpoint first_available (fonts : odict) (current : option string) : option string :=
  match fonts with
  | [] => current
  | (key, value) :: rest =>
      if truthy (Some value) then Some value else first_available rest current
  end.

Record font_entry : Type := { entry_name : option string; entry_size : Z; entry_size_pt : Z }.

Record typography : Type := {
  primary_font_family : option string;
  font_families : list (option string);
  font_hierarchy : gmap string (list font_entry);
  total_font_variations : nat;
  size_range : Z * Z;
  recommended_sizes : list (string * Z)
}.

(** [extract_typography], for template data with a font scheme. *)
Definition extract_typography (font_scheme : font_scheme) : typography :=
  let major_font :=
    py_or (odict_get "latin" (majorFont font_scheme)) (odict_get "Jpan" (majorFont font_scheme)) in
  let minor_font :=
    py_or (odict_get "latin" (minorFont font_scheme)) (odict_get "Jpan" (minorFont font_scheme)) in
  let major_font :=
    if negb (truthy major_font) then first_available (majorFont font_scheme) major_font
    else major_font in
  let minor_font :=
    if negb (truthy minor_font) then first_available (minorFont font_scheme) minor_font
    else minor_font in
  let '(primary_font, font_families) :=
    if negb (truthy major_font) && negb (truthy minor_font) then
      (Some "Gothic A1", [ Some "Gothic A1" ])
    else if truthy major_font && truthy minor_font && negb (bool_decide (major_font = minor_font))
    then (major_font, [ major_font; minor_font ])
    else let primary_font := py_or major_font minor_font in (primary_font, [ primary_font ]) in
  let recommended_sizes :=
    [ ("title", 44); ("heading", 32); ("subheading", 24); ("body", 18); ("caption", 14) ] in
  let '(font_hierarchy, all_font_entries) :=
    fold_left
      (fun '(font_hierarchy, all_font_entries) '(category, size) =>
         let font_entry :=
           {| entry_name := primary_font; entry_size := size; entry_size_pt := size |} in
         (<[category := default [] (font_hierarchy !! category) ++ [font_entry]]> font_hierarchy,
          all_font_entries ++ [font_entry]))
      recommended_sizes (∅, []) in
  let all_sizes := map entry_size all_font_entries in
  {| primary_font_family := primary_font;
     font_families := font_families;
     font_hierarchy := font_hierarchy;
     total_font_variations := length all_font_entries;
     size_range :=
       (match all_sizes with [] => 12 | x :: rest => fold_left Z.min rest x end,
        match all_sizes with [] => 44 | x :: rest => fold_left Z.max rest x end);
     recommended_sizes := recommended_sizes |}.

(** ** design_properties_extractor.py: layouts *)

(** [determine_usage_pattern] *)
Definition determine_usage_pattern (placeholder_types : gmap string Z) : string :=
  if bool_decide (is_Some (placeholder_types !! "TITLE")) &&
     bool_decide (is_Some (placeholder_types !! "SUBTITLE")) then "title_slide"
  else if bool_decide (is_Some (placeholder_types !! "TITLE")) &&
          bool_decide (is_Some (placeholder_types !! "BODY")) then "content_slide"
  else if bool_decide (is_Some (placeholder_types !! "TITLE")) &&
          bool_decide (is_Some (placeholder_types !! "PICTURE")) then "image_slide"
  else if 1 <? default 0 (placeholder_types !! "BODY") then "multi_content"
  else "custom".

(** A layout of the template analysis; of a placeholder the code reads
    its [type] alone, and a placeholder is held as its type.  A layout
    without a [placeholders] key has none, as
    [layout.get('placeholders', [])] has it. *)
Record layout_analysis : Type := {
  analysed_name : string;
  analysed_placeholders : list string
}.

Record layout_template : Type := {
  template_name : string;
  placeholder_count : nat;
  placeholder_types : gmap string Z;
  template_placeholders : list string;
  usage_pattern : string
}.

(** The counting loop of [extract_layout_templates], on a
    [defaultdict(int)]. *)
Definition count_placeholder_types (placeholders : list string) : gmap string Z :=
  fold_left (fun placeholder_types type => <[type := default 0 (placeholder_types !! type) + 1]>
                                             placeholder_types)
            placeholders ∅.

(** [extract_layout_templates], for template data with layouts. *)
Definition extract_layout_templates (layouts : list layout_analysis) : gmap string layout_template :=
  fold_left
    (fun layout_templates layout =>
       let placeholder_types := count_placeholder_types (analysed_placeholders layout) in
       <[analysed_name layout :=
           {| template_name := analysed_name layout;
              placeholder_count := length (analysed_placeholders layout);
              placeholder_types := placeholder_types;
              template_placeholders := analysed_placeholders layout;
              usage_pattern := determine_usage_pattern placeholder_types |}]> layout_templates)
    layouts ∅.

(** ** design_properties_extractor.py: the whole extraction *)

Record brand_guidelines : Type := {
  guide_theme : string;
  guide_color_palette : gmap string string;
  guide_typography_scale : list (string * Z);
  guide_font_family : option string;
  guide_design_principles : list string;
  guide_usage_guidelines : gmap string string
}.

(** [create_brand_guidelines] as a whole: the colour palette of
    [create_brand_guidelines] above, what it takes from the typography,
    and the texts it adds.  A colour scheme or a typography that was not
    extracted is the empty dict the properties began with. *)
Definition brand_guidelines_of (color_scheme : option extracted_colors)
    (typography : option typography) : brand_guidelines :=
  {| guide_theme := "Scientific Conference - Green Nature Theme";
     guide_color_palette := create_brand_guidelines (default ∅ (brand_colors <$> color_scheme));
     guide_typography_scale := default [] (recommended_sizes <$> typography);
     guide_font_family := default (Some "Gothic A1") (primary_font_family <$> typography);
     guide_design_principles :=
       [ "Clean and minimal layout"; "Nature-inspired green color scheme";
         "Professional academic presentation style"; "Consistent typography hierarchy";
         "Balanced white space usage" ];
     guide_usage_guidelines :=
       list_to_map
         [ ("primary_color_usage", "Headers, important text, accent elements");
           ("secondary_color_usage", "Backgrounds, subtle highlights");
           ("font_pairing", "Use Gothic A1 family for consistency");
           ("layout_spacing", "Maintain generous white space");
           ("image_treatment", "Clean, professional imagery with green tints") ] |}.

(** What the extractor reads of the template analysis: the two slide
    dimensions after [float(...)], the font scheme and the layouts, each
    None when the analysis has no such key. *)
Record template_data : Type := {
  td_slide_dimensions : option (float * float);
  td_font_scheme : option font_scheme;
  td_layouts : option (list layout_analysis)
}.

(** [self.design_properties]; an entry that is still the empty dict it
    began as is None.  The design elements, which nothing reads, are left
    out. *)
Record design_properties : Type := {
  dp_slide_dimensions : option slide_dimensions;
  dp_color_scheme : option extracted_colors;
  dp_typography : option typography;
  dp_layout_templates : gmap string layout_template;
  dp_brand_guidelines : option brand_guidelines
}.

(** [run_extraction], after the two files are loaded; [palette] is the
    colour palette of the image analysis, None without one. *)
Definition run_extraction (lib : colorsys) (template_data : template_data)
    (palette : option color_palette) : outcome design_properties :=
  slide_dimensions ←
    match td_slide_dimensions template_data with
    | Some (width_val, height_val) =>
        dimensions ← extract_slide_dimensions width_val height_val; Return (Some dimensions)
    | None => Return None
    end;
  color_scheme ←
    match palette with
    | Some palette => scheme ← extract_color_scheme lib palette; Return (Some scheme)
    | None => Return None
    end;
  let typography := extract_typography <$> td_font_scheme template_data in
  Return {| dp_slide_dimensions := slide_dimensions;
            dp_color_scheme := color_scheme;
            dp_typography := typography;
            dp_layout_templates :=
              default ∅ (extract_layout_templates <$> td_layouts template_data);
            dp_brand_guidelines := Some (brand_guidelines_of color_scheme typography) |}.

(** [d[key]] on a dict of the properties. *)
Definition entry {A} (d : option A) : outcome A :=
  match d with
  | Some a => Return a
  | None => Raise KeyError
  end.

(** A layout template as the JSON it is saved as; of a placeholder its
    type. *)
Definition layout_template_json (template : layout_template) : json :=
  obj [ ("name", JStr (template_name template));
        ("placeholder_count", JInt (Z.of_nat (placeholder_count template)));
        ("placeholder_types", JDict (JInt <$> placeholder_types template));
        ("placeholders",
         JList (map (fun type => obj [ ("type", JStr type) ]) (template_placeholders template)));
        ("usage_pattern", JStr (usage_pattern template)) ].

(** [generate_python_pptx_config]: the configuration as
    [save_python_pptx_config] writes it to the file the generator
    loads. *)
Definition generate_python_pptx_config (design_properties : design_properties) : outcome json :=
  slide_dimensions ← entry (dp_slide_dimensions design_properties);
  brand_guidelines ← entry (dp_brand_guidelines design_properties);
  let color_palette := guide_color_palette brand_guidelines in
  primary ← entry (color_palette !! "primary");
  secondary ← entry (color_palette !! "secondary");
  accent ← entry (color_palette !! "accent");
  text_dark ← entry (color_palette !! "text_dark");
  text_light ← entry (color_palette !! "text_light");
  typography ← entry (dp_typography design_properties);
  Return
    (obj [ ("slide_dimensions",
            obj [ ("width", JInt (width_emu slide_dimensions));
                  ("height", JInt (height_emu slide_dimensions)) ]);
           ("colors",
            obj [ ("primary", JStr primary); ("secondary", JStr secondary);
                  ("accent", JStr accent); ("text_dark", JStr text_dark);
                  ("text_light", JStr text_light) ]);
           ("fonts",
            obj [ ("primary",
                   match primary_font_family typography with
                   | Some family => JStr family
                   | None => JNull
                   end);
                  ("sizes",
                   obj (map (fun '(category, size) => (category, JInt size))
                            (recommended_sizes typography))) ]);
           ("layouts", JDict (layout_template_json <$> dp_layout_templates design_properties)) ]).

(** ** enhanced_presentation_generator.py: the design file *)

(** The entries of a JSON object. *)
Definition entries (v : json) : gmap string json :=
  match v with
  | JDict m => m
  | _ => ∅
  end.

(** The design the generator has from the file it loads.  It reads
    [config.get("color_scheme", {})] and [config.get("fonts", {})], and
    of these the colours by name, the family under [primary] and the
    sizes under [title_size] and the like: [design_config] holds what
    these reads find, the colours that are strings and the sizes that are
    ints. *)
Definition design_config_of (config : json) : design_config :=
  let color_scheme := default (JDict ∅) (entries config !! "color_scheme") in
  let fonts := default (JDict ∅) (entries config !! "fonts") in
  {| color_scheme :=
       omap (fun v => match v with JStr s => Some s | _ => None end) (entries color_scheme);
     fonts_primary :=
       match entries fonts !! "primary" with
       | Some (JStr family) => Some family
       | _ => None
       end;
     fonts_sizes :=
       omap (fun v => match v with JInt size => Some size | _ => None end) (entries fonts) |}.

(** ** Vocabulary of the further statements *)

(** A palette entry and the colour the loop makes of it. *)
Definition analysed_as (lib : colorsys) (color_info : string * Z) (color : palette_color) : Prop :=
  hex color = color_info.1 /\ frequency color = color_info.2 /\
  categorize_color lib color_info.1 = Return (analysis color) /\
  hex_to_rgb color_info.1 = Return (rgb color).

(** The colours of one category, in the order they have. *)
Definition of_category (name : string) (colors : list palette_color) : list palette_color :=
  List.filter (fun color => String.eqb (category (analysis color)) name) colors.

(** The fonts [extract_typography] chooses from, in its order of
    preference: for the major font and then for the minor font the
    [latin] entry, the [Jpan] entry and every entry in the order of the
    dict; last the font it falls back on. *)
Definition role_candidates (fonts : odict) : list (option string) :=
  [ odict_get "latin" fonts; odict_get "Jpan" fonts ] ++ map (fun kv => Some kv.2) fonts.

Definition font_candidates (font_scheme : font_scheme) : list (option string) :=
  role_candidates (majorFont font_scheme) ++ role_candidates (minorFont font_scheme) ++
  [ Some "Gothic A1" ].

(** How often a placeholder type occurs in a layout. *)
Definition occurrences (type : string) (placeholders : list string) : nat :=
  length (List.filter (String.eqb type) placeholders).

(** What a loop over the items of a list makes of the list: the body on
    each item in turn, up to the first that raises. *)
Fixpoint loop_over {T} (body : action T unit) (items : list T) : list T * option exn :=
  match items with
  | [] => ([], None)
  | item :: rest =>
      match perform body item with
      | Ok item' _ => let '(rest', raised) := loop_over body rest in (item' :: rest', raised)
      | Err item' e => (item' :: rest, Some e)
      end
  end.

(** A run in a given font: the text stays. *)
Definition styled (font : font) (r : run) : run := {| run_text := run_text r; run_font := font |}.

(** The slide types [generate_enhanced_presentation] has a layout for. *)
Definition known_types : list string :=
  [ "title_and_content"; "section_header"; "two_content"; "comparison"; "title_only"; "blank";
    "content_with_caption"; "picture_with_caption" ].

(** A slide description the assembly loop has a layout for: a mapping
    whose [type], 'content' when it has none, is one of the known types. *)
Definition has_layout (slide_info : json) : bool :=
  match slide_info with
  | JDict m =>
      match default (JStr "content") (m !! "type") with
      | JStr slide_type => bool_decide (slide_type ∈ known_types)
      | _ => false
      end
  | _ => false
  end.

(** A slide description that goes through the template engine: a mapping
    which, when its type is known, has its [data], and the template of
    the type is there and renders them. *)
Definition renders `{Collaborators} (slide_info : json) : Prop :=
  exists m, slide_info = JDict m /\
    forall slide_type, m !! "type" = Some (JStr slide_type) -> slide_type ∈ known_types ->
      exists context template slide_content,
        m !! "data" = Some context /\
        get_template (slide_kind (JStr slide_type)).2 = Return template /\
        render template context = Return slide_content.

(** The same for the title slide, when the data have one. *)
Definition title_renders `{Collaborators} (presentation_data : gmap string json) : Prop :=
  forall context, presentation_data !! "title_slide" = Some context ->
    exists template slide_content,
      get_template "title_slide.xml" = Return template /\
      render template context = Return slide_content.

(** ** enhanced_presentation_generator.py: the title slide and the defaults *)

(** [_get_default_design_config], the colours, the font and the sizes of
    it. *)
Definition _get_default_design_config : design_config :=
  {| color_scheme :=
       list_to_map [ ("primary", "#4472C4"); ("secondary", "#E7E6E6"); ("accent", "#70AD47");
                     ("text_dark", "#000000"); ("text_light", "#FFFFFF") ];
     fonts_primary := Some "Calibri";
     fonts_sizes := list_to_map [ ("title_size", 44); ("heading_size", 32); ("body_size", 18) ] |}.

(** [data.get('presentation_data', {}).get('title_slide', {}).get(key, fallback)] *)
Definition title_slide_text (data : json) (key fallback : string) : outcome json :=
  presentation_data ← py_get data "presentation_data" (JDict ∅);
  title_slide ← py_get presentation_data "title_slide" (JDict ∅);
  py_get title_slide key (JStr fallback).

(** [create_enhanced_title_slide] *)
Definition create_enhanced_title_slide `{Collaborators} (config : design_config) (data : json)
    : action presentation nat :=
  slide ← _create_styled_slide config 0;
  titled ← has_title slide;
  (if titled : bool then
     processed_title ← lift (title_text ← title_slide_text data "title" "Presentation Title";
                             text ← as_str title_text;
                             process_text_with_jinja text data);
     on_slide slide (on_placeholder 0
       (set_shape_text (Some processed_title);;
        on_text_frame (_apply_font_styling config "title")))
   else mret tt);;
  try_action
    (on_slide slide (on_placeholder 1
       (processed_subtitle ← lift (subtitle_text ← title_slide_text data "subtitle" "Subtitle";
                                   text ← as_str subtitle_text;
                                   process_text_with_jinja text data);
        set_shape_text (Some processed_subtitle);;
        on_text_frame (_apply_font_styling config "heading"))))
    [KeyError; IndexError]
    (fun _ => mret tt);;
  mret slide.

(** ** Examples *)

(** A theme with two colours: a dark one that is a system colour, and an
    accent given as sRGB. *)
Definition small_dark : element :=
  Element (qualified drawingml "dk1") ∅
    [ Element (qualified drawingml "sysClr")
        (<["val" := "windowText"]> (<["lastClr" := "000000"]> ∅)) [] ].

Definition small_accent : element :=
  Element (qualified drawingml "accent1") ∅
    [ Element (qualified drawingml "srgbClr") (<["val" := "4472C4"]> ∅) [] ].

Definition small_colors : element :=
  Element (qualified drawingml "clrScheme") ∅ [ small_dark; small_accent ].

(** Its fonts: for the major font a Latin typeface, an East Asian one
    that is empty and a Japanese one. *)
Definition small_latin : element :=
  Element (qualified drawingml "latin") (<["typeface" := "Gothic A1"]> ∅) [].

Definition small_major : element :=
  Element (qualified drawingml "majorFont") ∅
    [ small_latin;
      Element (qualified drawingml "ea") (<["typeface" := ""]> ∅) [];
      Element (qualified drawingml "font")
        (<["script" := "Jpan"]> (<["typeface" := "MS Gothic"]> ∅)) [] ].

Definition small_fonts : element :=
  Element (qualified drawingml "fontScheme") ∅ [ small_major ].

Definition small_theme : element :=
  Element (qualified drawingml "theme") ∅
    [ Element (qualified drawingml "themeElements") ∅ [ small_colors; small_fonts ] ].

(** A palette of four colours: a pale green, two greens and a sea green. *)
Definition leaf_palette : color_palette :=
  {| most_common_colors := [ ("#e7f3ec", 120); ("#00ff00", 80); ("#2e8b57", 40); ("#008000", 20) ];
     total_unique_colors := 4;
     color_consistency := 0.5 |}.

(** A frame with one line of text. *)
Definition one_line (text : string) : text_frame :=
  [ {| runs := [ {| run_text := text; run_font := unstyled |} ]; level := 0 |} ].


(** Data for a title slide. *)
Definition title_data : json :=
  obj [ ("presentation_data",
         obj [ ("title_slide", obj [ ("title", JStr "Soil"); ("subtitle", JStr "and water") ]) ]) ].

(** Two slide descriptions, the second without a type. *)
Definition typed_and_untyped : gmap string json :=
  list_to_map
    [ ("presentation_data",
       obj [ ("slides", JList [ slide_of "title_only" [ ("title", JStr "Soil") ];
                                obj [ ("data", obj [ ("title", JStr "Water") ]) ] ]) ]) ].

(** A record whose impact table is a string. *)
Definition string_table_record : json :=
  obj [ ("presentation_data", obj [ ("impact_slide", obj [ ("table_data", JStr "n/a") ]) ]) ].

(** A template analysis with the size of a widescreen deck in EMU and the
    fonts of the small theme. *)
Definition small_template_data : template_data :=
  {| td_slide_dimensions := Some (12192000%float, 6858000%float);
     td_font_scheme := Some (theme_font_scheme small_theme);
     td_layouts := None |}.

(** * Properties *)

(** ** Results and handlers *)

Lemma caught_Exception (e : exn) : caught Exception e = true.
Proof. destruct e; reflexivity. Qed.

Lemma try_except_Exception_returns {A} (body : outcome A) (handler : exn -> outcome A) :
  (forall e, returns (handler e)) -> returns (try_except body Exception handler).
Proof.
  intros Hh. unfold try_except. destruct body as [a|e].
  - by exists a.
  - rewrite caught_Exception. apply Hh.
Qed.

Lemma bind_Return {A B} (m : outcome A) (f : A -> outcome B) (b : B) :
  m ≫= f = Return b -> exists a, m = Return a /\ f a = Return b.
Proof. destruct m as [a|e]; [ by exists a | discriminate ]. Qed.

(** ** Dotted paths (template_config.py) *)

Lemma split_not_nil (sep : ascii) (s : string) : split sep s <> [].
Proof.
  destruct s as [|c rest]; simpl; [ discriminate | ].
  destruct (Ascii.eqb c sep); [ discriminate | ].
  destruct (split sep rest); discriminate.
Qed.

(** Splitting distributes over a separator written between two strings. *)
Lemma split_join (sep : ascii) (a b : string) :
  split sep (a +:+ String sep b) = split sep a ++ split sep b.
Proof.
  induction a as [|c a IH]; simpl.
  - by rewrite Ascii.eqb_refl.
  - destruct (Ascii.eqb c sep); [ by rewrite IH | ].
    rewrite IH. pose proof (split_not_nil sep a) as Hne.
    destruct (split sep a); [ done | reflexivity ].
Qed.

Lemma walk_present (data : json) (keys : list string) (v : json) :
  present data keys v -> walk data keys = Return v.
Proof.
  induction 1 as [v|m key v keys w Hkey _ IH]; simpl; [ done | ].
  by rewrite Hkey.
Qed.

Lemma walk_Return_present (keys : list string) : forall (data v : json),
  walk data keys = Return v -> present data keys v.
Proof.
  induction keys as [|key keys IH]; intros data v; simpl.
  - intros [= ->]. constructor.
  - destruct data as [| | | | | |m]; simpl; try discriminate.
    destruct (m !! key) as [w|] eqn:Hkey; simpl; [ | discriminate ].
    intros Hw. econstructor; eauto.
Qed.

(** The loop raises nothing but the two classes the handler names. *)
Lemma walk_Raise (keys : list string) : forall (data : json) (e : exn),
  walk data keys = Raise e -> e = KeyError \/ e = TypeError.
Proof.
  induction keys as [|key keys IH]; intros data e; simpl; [ discriminate | ].
  destruct data as [| | | | | |m]; simpl; try (intros [= <-]; by right).
  destruct (m !! key) as [w|]; simpl; [ apply IH | intros [= <-]; by left ].
Qed.

Lemma walk_app (pre post : list string) : forall data : json,
  walk data (pre ++ post) = walk data pre ≫= fun v => walk v post.
Proof.
  induction pre as [|key pre IH]; intros data; simpl; [ done | ].
  destruct (getitem data key) as [v|e]; simpl; [ apply IH | done ].
Qed.

Lemma get_json_value_by_path_walk (data : json) (json_path : string) :
  get_json_value_by_path data json_path =
    match walk data (split "." json_path) with
    | Return v => Return v
    | Raise _ => Return JNull
    end.
Proof.
  unfold get_json_value_by_path, try_except.
  destruct (walk data (split "." json_path)) as [v|e] eqn:Hw; [ done | ].
  by destruct (walk_Raise _ _ _ Hw) as [-> | ->].
Qed.

Lemma get_json_value_by_path_returns (data : json) (json_path : string) :
  returns (get_json_value_by_path data json_path).
Proof.
  rewrite get_json_value_by_path_walk.
  destruct (walk data (split "." json_path)) as [v|e]; eexists; reflexivity.
Qed.

Lemma walk_stuck (pre : list string) (key : string) (post : list string) (data v : json) :
  present data pre v -> (forall w, getitem v key <> Return w) ->
  exists e, walk data (pre ++ key :: post) = Raise e.
Proof.
  intros Hpre Hstuck. rewrite walk_app, (walk_present _ _ _ Hpre). simpl.
  destruct (getitem v key) as [w|e]; [ by destruct (Hstuck w) | by exists e ].
Qed.

(** C1. For every content record and every dotted path, the lookup splits
    the path on '.' and walks the record: it always returns (it never
    raises); when every segment is present it returns exactly the nested
    value; when the path is not present it returns None, in particular when
    a segment is missing from the mapping reached so far, and when a
    segment is applied to anything that is not a mapping (a scalar, a
    sequence, None). *)
Theorem get_json_value_by_path_resolves (data : json) (json_path : string) :
  returns (get_json_value_by_path data json_path) /\
  (forall v, present data (split "." json_path) v ->
     get_json_value_by_path data json_path = Return v) /\
  ((forall v, ~ present data (split "." json_path) v) ->
     get_json_value_by_path data json_path = Return JNull) /\
  (forall pre key post m, split "." json_path = pre ++ key :: post ->
     present data pre (JDict m) -> m !! key = None ->
     get_json_value_by_path data json_path = Return JNull) /\
  (forall pre key post v, split "." json_path = pre ++ key :: post ->
     present data pre v -> (forall m, v <> JDict m) ->
     get_json_value_by_path data json_path = Return JNull).
Proof.
  repeat split.
  - apply get_json_value_by_path_returns.
  - intros v Hv. by rewrite get_json_value_by_path_walk, (walk_present _ _ _ Hv).
  - intros Habsent. rewrite get_json_value_by_path_walk.
    destruct (walk data (split "." json_path)) as [v|e] eqn:Hw; [ | done ].
    destruct (Habsent v). by apply walk_Return_present.
  - intros pre key post m Hsplit Hpre Hkey. rewrite get_json_value_by_path_walk, Hsplit.
    destruct (walk_stuck pre key post data (JDict m) Hpre) as [e ->]; [ | done ].
    intros w. simpl. by rewrite Hkey.
  - intros pre key post v Hsplit Hpre Hv. rewrite get_json_value_by_path_walk, Hsplit.
    destruct (walk_stuck pre key post data v Hpre) as [e ->]; [ | done ].
    intros w. destruct v; simpl; try discriminate. by destruct (Hv m).
Qed.

(** ** Validation (template_config.py) *)

Lemma append_empty_r (s : string) : s +:+ "" = s.
Proof. induction s as [|c s IH]; [ done | ]. unfold String.append in *. simpl. by rewrite IH. Qed.

Lemma mentions_suffix (before needle : string) : mentions needle (before +:+ needle).
Proof. exists before, "". by rewrite append_empty_r. Qed.

(** A loop whose body only appends to its list collects, in order, what
    every item contributes. *)
Lemma for_each_appends {A B} (contribution : A -> list B) (body : list B -> A -> outcome (list B))
    (items : list A) :
  (forall acc x, body acc x = Return (acc ++ contribution x)) ->
  forall acc, for_each items body acc = Return (acc ++ flat_map contribution items).
Proof.
  intros Hbody. induction items as [|x items IH]; intros acc; simpl.
  - by rewrite app_nil_r.
  - rewrite Hbody. simpl. rewrite IH. by rewrite app_assoc.
Qed.

Lemma validate_placeholder_appends (data : json) (errors : list string) (placeholder : PlaceholderMapping) :
  validate_placeholder data errors placeholder = Return (errors ++ placeholder_errors data placeholder).
Proof.
  unfold placeholder_errors, validate_placeholder.
  destruct (get_json_value_by_path_returns data (json_path placeholder)) as [value ->]. simpl.
  destruct (is_None value); [ done | ].
  destruct (bool_decide (content_type placeholder = TABLE) && negb (is_list value)); [ done | ].
  destruct (bool_decide (content_type placeholder = BULLET_LIST) && negb (is_list value)); [ done | ].
  by rewrite app_nil_r.
Qed.

Lemma validate_slide_appends (data : json) (errors : list string) (slide_config : SlideConfig) :
  validate_slide data errors slide_config = Return (errors ++ slide_errors data slide_config).
Proof.
  unfold slide_errors, validate_slide.
  destruct (get_json_value_by_path_returns data ("presentation_data." +:+ slide_key slide_config))
    as [slide_data ->]. simpl.
  destruct (is_None slide_data); [ done | ].
  rewrite !(for_each_appends (placeholder_errors data)) by apply validate_placeholder_appends.
  done.
Qed.

Lemma validate_data_structure_flat (slides_config : list SlideConfig) (data : json) :
  validate_data_structure slides_config data = Return (flat_map (slide_errors data) slides_config).
Proof.
  unfold validate_data_structure.
  by rewrite (for_each_appends (slide_errors data)) by apply validate_slide_appends.
Qed.

Lemma slide_errors_missing (data : json) (slide_config : SlideConfig) :
  get_json_value_by_path data (block_path slide_config) = Return JNull ->
  slide_errors data slide_config = ["Missing slide data for: " +:+ slide_key slide_config].
Proof. unfold slide_errors, validate_slide, block_path. by intros ->. Qed.

Lemma slide_errors_present (data : json) (slide_config : SlideConfig) (block : json) :
  get_json_value_by_path data (block_path slide_config) = Return block -> block <> JNull ->
  slide_errors data slide_config = flat_map (placeholder_errors data) (placeholders slide_config).
Proof.
  unfold slide_errors, validate_slide, block_path. intros -> Hblock. simpl.
  destruct block; [ done | .. ]; simpl;
    by rewrite (for_each_appends (placeholder_errors data)) by apply validate_placeholder_appends.
Qed.

Lemma placeholder_errors_not_list (data : json) (placeholder : PlaceholderMapping) (value : json) :
  get_json_value_by_path data (json_path placeholder) = Return value ->
  value <> JNull -> is_list value = false ->
  (content_type placeholder = TABLE ->
     placeholder_errors data placeholder = ["Table data must be a list: " +:+ json_path placeholder]) /\
  (content_type placeholder = BULLET_LIST ->
     placeholder_errors data placeholder = ["Bullet list data must be a list: " +:+ json_path placeholder]).
Proof.
  intros Hget Hvalue Hlist. unfold placeholder_errors, validate_placeholder. rewrite Hget. simpl.
  assert (is_None value = false) as -> by (by destruct value).
  rewrite Hlist. split; intros ->; reflexivity.
Qed.

(** A value found under a block means the block itself is there. *)
Lemma block_of_nested_value (data : json) (block_keys rest_keys : list string) (value : json) :
  rest_keys <> [] -> walk data (block_keys ++ rest_keys) = Return value ->
  exists block, walk data block_keys = Return block /\ block <> JNull.
Proof.
  intros Hrest. rewrite walk_app. intros (block & Hblock & Hwalk)%bind_Return.
  exists block. split; [ done | ]. intros ->.
  destruct rest_keys; [ done | discriminate ].
Qed.

Lemma under_block_present (data : json) (slide_config : SlideConfig) (placeholder : PlaceholderMapping)
    (value : json) :
  under_block slide_config placeholder ->
  get_json_value_by_path data (json_path placeholder) = Return value -> value <> JNull ->
  exists block, get_json_value_by_path data (block_path slide_config) = Return block /\ block <> JNull.
Proof.
  intros [rest Hpath]. rewrite !get_json_value_by_path_walk, Hpath, split_join.
  destruct (walk data (split "." (block_path slide_config) ++ split "." rest)) as [v|e] eqn:Hwalk;
    [ | by intros [= <-] ].
  intros [= ->] Hvalue.
  destruct (block_of_nested_value _ _ _ _ (split_not_nil _ _) Hwalk) as (block & -> & Hblock).
  by exists block.
Qed.

(** C2, as the code has it.  For every configuration and content record the
    validation returns a list that collects, slide by slide and in order,
    every message: a slide whose data block is missing yields a message
    that mentions its key; and a TABLE or BULLET_LIST placeholder whose
    path resolves to a value that is neither None nor a list has its
    "must be a list" message in the list, provided the slide's own block is
    present, which is automatic when the placeholder's path lies under the
    block, as in the default configuration. *)
Theorem validate_data_structure_collects (slides_config : list SlideConfig) (data : json) :
  exists errors,
    validate_data_structure slides_config data = Return errors /\
    errors = flat_map (slide_errors data) slides_config /\
    (forall slide_config, In slide_config slides_config ->
       get_json_value_by_path data (block_path slide_config) = Return JNull ->
       In ("Missing slide data for: " +:+ slide_key slide_config) errors /\
       mentions (slide_key slide_config) ("Missing slide data for: " +:+ slide_key slide_config)) /\
    (forall slide_config placeholder value,
       In slide_config slides_config -> In placeholder (placeholders slide_config) ->
       (exists block, get_json_value_by_path data (block_path slide_config) = Return block /\
                      block <> JNull) \/ under_block slide_config placeholder ->
       get_json_value_by_path data (json_path placeholder) = Return value ->
       value <> JNull -> is_list value = false ->
       (content_type placeholder = TABLE ->
          In ("Table data must be a list: " +:+ json_path placeholder) errors) /\
       (content_type placeholder = BULLET_LIST ->
          In ("Bullet list data must be a list: " +:+ json_path placeholder) errors)).
Proof.
  exists (flat_map (slide_errors data) slides_config).
  split; [ apply validate_data_structure_flat | ]. split; [ reflexivity | ]. split.
  - intros slide_config Hin Hmissing. split; [ | apply mentions_suffix ].
    apply in_flat_map. exists slide_config. split; [ done | ].
    rewrite (slide_errors_missing _ _ Hmissing). by left.
  - intros slide_config placeholder value Hin Hph Hblock Hget Hvalue Hlist.
    assert (exists block, get_json_value_by_path data (block_path slide_config) = Return block /\
                          block <> JNull) as (block & Hb & Hnn).
    { destruct Hblock as [Hblock | Hunder]; [ done | ]. eapply under_block_present; eauto. }
    destruct (placeholder_errors_not_list data placeholder value Hget Hvalue Hlist) as [Htable Hbullet].
    split; intros Hty; apply in_flat_map; exists slide_config; (split; [ done | ]);
      rewrite (slide_errors_present _ _ _ Hb Hnn); apply in_flat_map; exists placeholder;
      (split; [ done | ]).
    + rewrite (Htable Hty). by left.
    + rewrite (Hbullet Hty). by left.
Qed.

(** The impact slide of the default configuration, whose table path
    resolves to a string. *)
Lemma validate_data_structure_collects_witness :
  exists errors,
    validate_data_structure _create_default_config
      (obj [ ("presentation_data", obj [ ("impact_slide", obj [ ("table_data", JStr "n/a") ]) ]) ])
      = Return errors /\
    In "Missing slide data for: benefits_slide" errors /\
    In "Table data must be a list: presentation_data.impact_slide.table_data" errors.
Proof.
  set (data := obj [ ("presentation_data", obj [ ("impact_slide", obj [ ("table_data", JStr "n/a") ]) ]) ]).
  destruct (validate_data_structure_collects _create_default_config data)
    as (errors & Hrun & _ & Hmissing & Hlist).
  exists errors. split; [ exact Hrun | ]. split.
  - apply (Hmissing (nth 1 _create_default_config summary_slide)).
    + right. left. reflexivity.
    + vm_compute. reflexivity.
  - apply (Hlist (nth 2 _create_default_config summary_slide)
                 (mapping 1 TABLE "presentation_data.impact_slide.table_data") (JStr "n/a")).
    + right. right. left. reflexivity.
    + right. left. reflexivity.
    + right. exists "table_data". reflexivity.
    + vm_compute. reflexivity.
    + discriminate.
    + reflexivity.
    + reflexivity.
Defined.

(** C2 as worded fails on the code in two ways: a slide whose own block is
    missing has its placeholders skipped, also one whose table path
    resolves to a string elsewhere in the record; and a path that resolves
    to None is reported as missing data, not as "must be a list". *)
Lemma reports_every_non_list_fails :
  ~ reports_every_non_list (add_slide_config _create_default_config summary_slide) shared_rows_record /\
  ~ reports_every_non_list _create_default_config null_table_record.
Proof.
  split; intros Hclaim.
  - destruct (Hclaim
      ["Missing slide data for: title_slide"; "Missing slide data for: benefits_slide";
       "Missing slide data for: impact_slide"; "Missing slide data for: summary"]
      summary_slide (mapping 1 TABLE "shared.rows") (JStr "n/a")) as [Hin | Hin];
      try (vm_compute; reflexivity); try (by left); try (by do 3 right; left);
      cbv in Hin; intuition discriminate.
  - destruct (Hclaim
      ["Missing slide data for: title_slide"; "Missing slide data for: benefits_slide";
       "Missing data for path: presentation_data.impact_slide.table_data"]
      (nth 2 _create_default_config summary_slide)
      (mapping 1 TABLE "presentation_data.impact_slide.table_data") JNull) as [Hin | Hin];
      try (vm_compute; reflexivity); try (by left); try (by right; left);
      try (by do 2 right; left);
      cbv in Hin; intuition discriminate.
Qed.

(** Where each message of a slide comes from. *)
Lemma slide_errors_origin (data : json) (slide_config : SlideConfig) (e : string) :
  In e (slide_errors data slide_config) ->
  (get_json_value_by_path data (block_path slide_config) = Return JNull /\
   e = "Missing slide data for: " +:+ slide_key slide_config) \/
  (get_json_value_by_path data (block_path slide_config) <> Return JNull /\
   exists placeholder, In placeholder (placeholders slide_config) /\
     (e = "Missing data for path: " +:+ json_path placeholder \/
      e = "Table data must be a list: " +:+ json_path placeholder \/
      e = "Bullet list data must be a list: " +:+ json_path placeholder)).
Proof.
  destruct (get_json_value_by_path_returns data (block_path slide_config)) as [block Hblock].
  assert (block = JNull \/ block <> JNull) as [-> | Hnn]
    by (destruct block; (by left) || (by right)).
  - rewrite (slide_errors_missing _ _ Hblock). intros [<- | []]. by left.
  - rewrite (slide_errors_present _ _ _ Hblock Hnn).
    intros (placeholder & Hin & He)%in_flat_map. right.
    split; [ rewrite Hblock; by intros [= ->] | ]. exists placeholder. split; [ done | ].
    revert He. unfold placeholder_errors, validate_placeholder.
    destruct (get_json_value_by_path_returns data (json_path placeholder)) as [value ->]. simpl.
    destruct (is_None value); [ intros [<- | []]; by left | ].
    destruct (bool_decide (content_type placeholder = TABLE) && negb (is_list value));
      [ intros [<- | []]; right; by left | ].
    destruct (bool_decide (content_type placeholder = BULLET_LIST) && negb (is_list value));
      [ intros [<- | []]; right; by right | ].
    intros [].
Qed.

Lemma missing_data_message_inj (p q : string) :
  ("Missing data for path: " +:+ p = "Missing data for path: " +:+ q -> p = q) /\
  "Missing data for path: " +:+ p <> "Missing slide data for: " +:+ q /\
  "Missing data for path: " +:+ p <> "Table data must be a list: " +:+ q /\
  "Missing data for path: " +:+ p <> "Bullet list data must be a list: " +:+ q.
Proof.
  repeat split; try (intros H; cbv [String.append] in H; discriminate).
  intros H. cbv [String.append] in H. by simplify_eq.
Qed.

(** C10. When the data block of a configured slide is missing, that slide
    adds exactly one message, the missing-slide-data one, between what the
    slides before it and the slides after it add, and none of its
    placeholders is checked: a "Missing data for path" message for one of
    its placeholder paths can only come from another slide that uses the
    same path and whose block is present. *)
Theorem missing_slide_block_single_error (before_slides after_slides : list SlideConfig)
    (slide_config : SlideConfig) (data : json) :
  get_json_value_by_path data (block_path slide_config) = Return JNull ->
  exists before after,
    validate_data_structure before_slides data = Return before /\
    validate_data_structure after_slides data = Return after /\
    validate_slide data before slide_config =
      Return (before ++ ["Missing slide data for: " +:+ slide_key slide_config]) /\
    validate_data_structure (before_slides ++ slide_config :: after_slides) data =
      Return (before ++ ["Missing slide data for: " +:+ slide_key slide_config] ++ after) /\
    (forall placeholder, In placeholder (placeholders slide_config) ->
       (forall other placeholder', In other (before_slides ++ after_slides) ->
          In placeholder' (placeholders other) -> json_path placeholder' = json_path placeholder ->
          get_json_value_by_path data (block_path other) = Return JNull) ->
       ~ In ("Missing data for path: " +:+ json_path placeholder)
            (before ++ ["Missing slide data for: " +:+ slide_key slide_config] ++ after)).
Proof.
  intros Hmissing.
  exists (flat_map (slide_errors data) before_slides), (flat_map (slide_errors data) after_slides).
  split; [ apply validate_data_structure_flat | ].
  split; [ apply validate_data_structure_flat | ].
  split; [ by rewrite validate_slide_appends, (slide_errors_missing _ _ Hmissing) | ].
  split.
  { rewrite validate_data_structure_flat, flat_map_app. simpl.
    by rewrite (slide_errors_missing _ _ Hmissing). }
  intros placeholder Hph Hunshared Hin.
  destruct (missing_data_message_inj (json_path placeholder) (slide_key slide_config))
    as (_ & Hslide & _).
  assert (exists other, In other (before_slides ++ after_slides) /\
            In ("Missing data for path: " +:+ json_path placeholder) (slide_errors data other))
    as (other & Hother & He).
  { apply in_app_or in Hin as [Hin | Hin].
    - apply in_flat_map in Hin as (other & ? & ?). exists other. split; [ apply in_or_app; by left | done ].
    - apply in_app_or in Hin as [[Heq | []] | Hin]; [ by destruct Hslide | ].
      apply in_flat_map in Hin as (other & ? & ?). exists other. split; [ apply in_or_app; by right | done ]. }
  apply slide_errors_origin in He as [[_ He] | [Hpresent (placeholder' & Hph' & He)]].
  - by destruct (missing_data_message_inj (json_path placeholder) (slide_key other)) as (_ & ? & _).
  - destruct (missing_data_message_inj (json_path placeholder) (json_path placeholder'))
      as (Hinj & _ & Htable & Hbullet).
    destruct He as [He | [He | He]]; [ | by destruct Htable | by destruct Hbullet ].
    apply Hpresent, (Hunshared other placeholder'); [ done | done | ]. symmetry. by apply Hinj.
Qed.

(** The default configuration on a record without a benefits_slide block:
    one message, and nothing about the three benefits placeholders. *)
Lemma missing_slide_block_single_error_witness :
  validate_data_structure _create_default_config
    (obj [ ("presentation_data",
            obj [ ("title_slide", obj [ ("title", JStr "Urban farming"); ("subtitle", JStr "2024") ]);
                  ("impact_slide", obj [ ("slide_title", JStr "Impact"); ("table_data", JList []) ]) ]) ])
    = Return ["Missing slide data for: benefits_slide"].
Proof.
  set (data := obj _).
  destruct (missing_slide_block_single_error
              (firstn 1 _create_default_config) (skipn 2 _create_default_config)
              (nth 1 _create_default_config summary_slide) data)
    as (before & after & Hbefore & Hafter & _ & Hall & _).
  - vm_compute. reflexivity.
  - vm_compute in Hbefore. vm_compute in Hafter.
    injection Hbefore as <-. injection Hafter as <-. exact Hall.
Defined.

(** ** Slide size (template_analyzer.py) *)

Lemma find_first (e : element) (namespace name : string) (before after : list element)
    (found : element) :
  children e = before ++ found :: after ->
  tag found = qualified namespace name ->
  Forall (fun child => tag child <> qualified namespace name) before ->
  find e namespace name = Some found.
Proof.
  unfold find. intros -> Htag Hbefore.
  induction Hbefore as [|child before Hchild _ IH]; simpl.
  - by rewrite Htag, String.eqb_refl.
  - apply String.eqb_neq in Hchild. by rewrite Hchild.
Qed.

Lemma find_absent (e : element) (namespace name : string) :
  Forall (fun child => tag child <> qualified namespace name) (children e) ->
  find e namespace name = None.
Proof.
  unfold find. induction 1 as [|child rest Hchild _ IH]; simpl; [ done | ].
  apply String.eqb_neq in Hchild. by rewrite Hchild.
Qed.

(** C9. For every parsed presentation.xml: without an sldSz child of the
    root the result is the empty mapping, with neither a width nor a height
    key; otherwise it holds, under width and height, the cx and cy
    attributes of the first sldSz child (an attribute the element lacks
    reads as None).  Nothing in the function can raise. *)
Theorem get_slide_dimensions_reads_sldSz (root : element) :
  (Forall (fun child => tag child <> qualified presentationml "sldSz") (children root) ->
     get_slide_dimensions root = ∅ /\
     get_slide_dimensions root !! "width" = None /\
     get_slide_dimensions root !! "height" = None) /\
  (forall before sld_sz after,
     children root = before ++ sld_sz :: after ->
     tag sld_sz = qualified presentationml "sldSz" ->
     Forall (fun child => tag child <> qualified presentationml "sldSz") before ->
     get_slide_dimensions root !! "width" = Some (attrib sld_sz !! "cx") /\
     get_slide_dimensions root !! "height" = Some (attrib sld_sz !! "cy") /\
     dom (get_slide_dimensions root) = {[ "width"; "height" ]}).
Proof.
  split.
  - intros Habsent. unfold get_slide_dimensions. by rewrite (find_absent _ _ _ Habsent).
  - intros before sld_sz after Hchildren Htag Hbefore. unfold get_slide_dimensions.
    rewrite (find_first _ _ _ _ _ _ Hchildren Htag Hbefore).
    split; [ by rewrite lookup_insert_eq | ].
    split; [ by rewrite lookup_insert_ne, lookup_insert_eq | ].
    rewrite !dom_insert_L, dom_empty_L. set_solver.
Qed.

(** A 16:9 deck: the size element after the master list. *)
Lemma get_slide_dimensions_reads_sldSz_witness :
  get_slide_dimensions
    (Element (qualified presentationml "presentation") ∅
       [ Element (qualified presentationml "sldMasterIdLst") ∅ [];
         Element (qualified presentationml "sldSz")
           (<["cx" := "12192000"]> (<["cy" := "6858000"]> ∅)) [] ]) !! "width"
    = Some (Some "12192000") /\
  get_slide_dimensions (Element (qualified presentationml "presentation") ∅ []) = ∅.
Proof.
  split.
  - set (sld_sz := Element (qualified presentationml "sldSz")
                     (<["cx" := "12192000"]> (<["cy" := "6858000"]> ∅)) []).
    set (master := Element (qualified presentationml "sldMasterIdLst") ∅ []).
    destruct (get_slide_dimensions_reads_sldSz
                (Element (qualified presentationml "presentation") ∅ [master; sld_sz]))
      as [_ Hsize].
    destruct (Hsize [master] sld_sz []) as (Hwidth & _ & _).
    + reflexivity.
    + reflexivity.
    + constructor; [ | constructor ]. vm_compute. discriminate.
    + rewrite Hwidth. f_equal.
  - apply (get_slide_dimensions_reads_sldSz (Element (qualified presentationml "presentation") ∅ [])).
    constructor.
Defined.

(** ** Slide size normalisation (design_properties_extractor.py) *)

Lemma py_div_Return (a b q : float) : py_div a b = Return q -> q = (a / b)%float.
Proof. unfold py_div. destruct (PrimFloat.eqb b 0); [ discriminate | by intros [= <-] ]. Qed.

Lemma extract_slide_dimensions_Return (width_val height_val : float) (d : slide_dimensions) :
  extract_slide_dimensions width_val height_val = Return d ->
  (if PrimFloat.ltb 1000 width_val
   then width_inches d = (width_val / 914400)%float /\
        height_inches d = (height_val / 914400)%float /\
        py_int width_val = Return (width_emu d) /\
        py_int height_val = Return (height_emu d)
   else width_inches d = width_val /\
        height_inches d = height_val /\
        py_int (width_val * 914400)%float = Return (width_emu d) /\
        py_int (height_val * 914400)%float = Return (height_emu d)) /\
  aspect_ratio d = (width_inches d / height_inches d)%float /\
  format d = (if PrimFloat.ltb (PrimFloat.abs (aspect_ratio d - 16 / 9)) 0.1
              then "Widescreen (16:9)" else "Custom").
Proof.
  unfold extract_slide_dimensions.
  destruct (PrimFloat.ltb 1000 width_val).
  - destruct (py_int width_val) as [w_emu|]; simpl; [ | discriminate ].
    destruct (py_int height_val) as [h_emu|]; simpl; [ | discriminate ].
    destruct (py_div _ _) as [ratio|] eqn:Hratio; simpl; [ | discriminate ].
    apply py_div_Return in Hratio. intros [= <-]. simpl. by subst ratio.
  - destruct (py_int (width_val * 914400)) as [w_emu|]; simpl; [ | discriminate ].
    destruct (py_int (height_val * 914400)) as [h_emu|]; simpl; [ | discriminate ].
    destruct (py_div _ _) as [ratio|] eqn:Hratio; simpl; [ | discriminate ].
    apply py_div_Return in Hratio. intros [= <-]. simpl. by subst ratio.
Qed.

Lemma py_int_returns (f : float) : returns (py_int f) <-> finite f = true.
Proof.
  unfold returns, py_int, finite.
  destruct (PrimFloat.classify f); split; try done; try (by eexists); by intros [? ?].
Qed.

(** When the record is produced: the values handed to [int] are finite and
    the height in inches is not zero. *)
Lemma extract_slide_dimensions_returns (width_val height_val : float) :
  returns (extract_slide_dimensions width_val height_val) <->
  (if PrimFloat.ltb 1000 width_val
   then finite width_val = true /\ finite height_val = true /\
        PrimFloat.eqb (height_val / 914400) 0 = false
   else finite (width_val * 914400) = true /\ finite (height_val * 914400) = true /\
        PrimFloat.eqb height_val 0 = false).
Proof.
  unfold extract_slide_dimensions.
  destruct (PrimFloat.ltb 1000 width_val).
  - rewrite <- !py_int_returns. unfold returns, py_div.
    destruct (py_int width_val) as [w_emu|]; cbn [mbind outcome_bind];
      [ | split; [ by intros [? ?] | by intros ([? ?] & _) ] ].
    destruct (py_int height_val) as [h_emu|]; cbn [mbind outcome_bind];
      [ | split; [ by intros [? ?] | by intros (_ & [? ?] & _) ] ].
    destruct (PrimFloat.eqb (height_val / 914400) 0); cbn [mbind outcome_bind].
    + split; [ by intros [? ?] | by intros (_ & _ & ?) ].
    + split; [ intros _; repeat split; by eexists | intros _; by eexists ].
  - rewrite <- !py_int_returns. unfold returns, py_div.
    destruct (py_int (width_val * 914400)) as [w_emu|]; cbn [mbind outcome_bind];
      [ | split; [ by intros [? ?] | by intros ([? ?] & _) ] ].
    destruct (py_int (height_val * 914400)) as [h_emu|]; cbn [mbind outcome_bind];
      [ | split; [ by intros [? ?] | by intros (_ & [? ?] & _) ] ].
    destruct (PrimFloat.eqb height_val 0); cbn [mbind outcome_bind].
    + split; [ by intros [? ?] | by intros (_ & _ & ?) ].
    + split; [ intros _; repeat split; by eexists | intros _; by eexists ].
Qed.

(** C3. [extract_slide_dimensions] produces its record exactly when the
    values it hands to [int] are finite and the height in inches is not
    zero.  Whenever it does: a width above 1000 is read as EMU (inches are
    the value divided by 914400, the EMU fields its integer part), any
    other width as inches (EMU are the integer part of the value times
    914400); the format is "Widescreen (16:9)" exactly when the ratio of
    the inch values is within 0.1 of 16/9, and "Custom" otherwise.  In
    particular 12192000 x 6858000 is widescreen and 10 x 7.5 is custom. *)
Theorem extract_slide_dimensions_units_and_format :
  (forall (width_val height_val : float) (d : slide_dimensions),
     extract_slide_dimensions width_val height_val = Return d ->
     (PrimFloat.ltb 1000 width_val = true ->
        width_inches d = (width_val / 914400)%float /\
        height_inches d = (height_val / 914400)%float /\
        py_int width_val = Return (width_emu d) /\
        py_int height_val = Return (height_emu d)) /\
     (PrimFloat.ltb 1000 width_val = false ->
        width_inches d = width_val /\
        height_inches d = height_val /\
        py_int (width_val * 914400)%float = Return (width_emu d) /\
        py_int (height_val * 914400)%float = Return (height_emu d)) /\
     aspect_ratio d = (width_inches d / height_inches d)%float /\
     (format d = "Widescreen (16:9)" <->
        PrimFloat.ltb (PrimFloat.abs (width_inches d / height_inches d - 16 / 9)) 0.1 = true) /\
     (format d = "Custom" <->
        PrimFloat.ltb (PrimFloat.abs (width_inches d / height_inches d - 16 / 9)) 0.1 = false)) /\
  (forall width_val height_val : float,
     returns (extract_slide_dimensions width_val height_val) <->
     (if PrimFloat.ltb 1000 width_val
      then finite width_val = true /\ finite height_val = true /\
           PrimFloat.eqb (height_val / 914400) 0 = false
      else finite (width_val * 914400) = true /\ finite (height_val * 914400) = true /\
           PrimFloat.eqb height_val 0 = false)) /\
  (exists d, extract_slide_dimensions 12192000 6858000 = Return d /\
     format d = "Widescreen (16:9)" /\ width_emu d = 12192000 /\ height_emu d = 6858000 /\
     height_inches d = 7.5%float) /\
  (exists d, extract_slide_dimensions 10 7.5 = Return d /\
     format d = "Custom" /\ width_emu d = 9144000 /\ height_emu d = 6858000 /\
     width_inches d = 10%float).
Proof.
  split; [ | split; [ | split ] ].
  - intros width_val height_val d Hd.
    destruct (extract_slide_dimensions_Return _ _ _ Hd) as (Hunits & Hratio & Hformat).
    rewrite Hratio in Hformat.
    split; [ intros Hbig; by rewrite Hbig in Hunits | ].
    split; [ intros Hsmall; by rewrite Hsmall in Hunits | ].
    split; [ done | ].
    rewrite Hformat.
    destruct (PrimFloat.ltb _ 0.1); split; split; (done || discriminate).
  - apply extract_slide_dimensions_returns.
  - eexists. split; [ vm_compute; reflexivity | ]. simpl. repeat split.
  - eexists. split; [ vm_compute; reflexivity | ]. simpl. repeat split.
Qed.

(** The 16:9 deck of the specification, through the general statement. *)
Lemma extract_slide_dimensions_units_and_format_witness :
  exists d, extract_slide_dimensions 12192000 6858000 = Return d /\
    width_inches d = (12192000 / 914400)%float /\
    height_inches d = (6858000 / 914400)%float /\
    format d = "Widescreen (16:9)".
Proof.
  assert (exists d, extract_slide_dimensions 12192000 6858000 = Return d) as [d Hd]
    by (eexists; vm_compute; reflexivity).
  destruct (proj1 extract_slide_dimensions_units_and_format _ _ _ Hd)
    as (Hbig & _ & _ & Hwide & _).
  destruct (Hbig eq_refl) as (Hw & Hh & _).
  exists d. split; [ exact Hd | ]. split; [ exact Hw | ]. split; [ exact Hh | ].
  apply Hwide. rewrite Hw, Hh. vm_compute. reflexivity.
Defined.

(** ** Colour categories (design_properties_extractor.py) *)

Lemma py_int_finite (f : float) : finite f = true -> py_int f = Return (truncate f).
Proof. unfold finite, py_int. by destruct (PrimFloat.classify f). Qed.

Lemma hls_check_defined (lib : colorsys) (r g b : float) :
  hls_check r g b = true -> hls_defined lib r g b = true.
Proof.
  unfold hls_check, hls_defined, rgb_to_hls, py_div. cbv zeta.
  destruct (PrimFloat.eqb _ (py_max (py_max r g) b)); [ done | ].
  destruct (PrimFloat.eqb (py_max (py_max r g) b - py_min (py_min r g) b) 0); [ done | ].
  destruct (PrimFloat.leb _ 0.5).
  - destruct (PrimFloat.eqb _ 0); cbn [negb andb mbind outcome_bind].
    + by rewrite andb_false_r.
    + intros H. apply andb_prop in H as [[Hh Hl]%andb_prop Hs]. by rewrite Hh, Hs, Hl.
  - intros H. apply andb_prop in H as [[Hh Hl]%andb_prop H].
    apply andb_prop in H as [H Hs12]. apply andb_prop in H as [H Hd12].
    apply andb_prop in H as [Hd11 Hs11].
    apply negb_true_iff in Hd11, Hd12.
    destruct lib; [ rewrite Hd11 | rewrite Hd12 ]; cbn [mbind outcome_bind];
      [ by rewrite Hh, Hs11, Hl | by rewrite Hh, Hs12, Hl ].
Qed.

(** Checked on all 256 x 256 x 256 channel triples. *)
Lemma all_channels_defined :
  forallb (fun r => forallb (fun g => forallb (fun b => hls_check r g b) channel_table)
                      channel_table) channel_table = true.
Proof. vm_cast_no_check (eq_refl true). Qed.

Lemma channel_table_spec : channel_table = map (fun k => channel (Z.of_nat k)) (seq 0 256).
Proof. vm_compute. reflexivity. Qed.

Lemma channel_in_table (x : Z) : 0 <= x < 256 -> In (channel x) channel_table.
Proof.
  intros Hx. rewrite channel_table_spec. apply in_map_iff.
  exists (Z.to_nat x). split; [ f_equal; lia | ]. apply in_seq. lia.
Qed.

Lemma hls_defined_bytes (lib : colorsys) (r g b : Z) :
  0 <= r < 256 -> 0 <= g < 256 -> 0 <= b < 256 ->
  hls_defined lib (channel r) (channel g) (channel b) = true.
Proof.
  intros Hr Hg Hb.
  pose proof (proj1 (forallb_forall _ _) all_channels_defined _ (channel_in_table r Hr)) as Hall.
  pose proof (proj1 (forallb_forall _ _) Hall _ (channel_in_table g Hg)) as Hall'.
  exact (hls_check_defined lib _ _ _ (proj1 (forallb_forall _ _) Hall' _ (channel_in_table b Hb))).
Qed.

(** On byte channels [rgb_to_hsl] returns: no division by zero in
    [rgb_to_hls], and [int] never meets an infinity or a NaN. *)
Lemma rgb_to_hsl_returns (lib : colorsys) (r g b : Z) :
  0 <= r < 256 -> 0 <= g < 256 -> 0 <= b < 256 -> returns (rgb_to_hsl lib (r, g, b)).
Proof.
  intros Hr Hg Hb. pose proof (hls_defined_bytes lib r g b Hr Hg Hb) as Hdef.
  unfold hls_defined in Hdef. unfold rgb_to_hsl.
  destruct (rgb_to_hls lib (channel r) (channel g) (channel b)) as [[[h l] s]|e]; [ | discriminate ].
  apply andb_prop in Hdef as [Hdef Hl]. apply andb_prop in Hdef as [Hh Hs]. simpl.
  rewrite (py_int_finite _ Hh). simpl. rewrite (py_int_finite _ Hs). simpl.
  rewrite (py_int_finite _ Hl). simpl. by eexists.
Qed.

Lemma hex_digit_range (c : ascii) (d : Z) : hex_digit c = Some d -> 0 <= d < 16.
Proof.
  unfold hex_digit.
  repeat (match goal with |- context [if ?b then _ else _] => destruct b eqn:? end);
    intros [= <-]; lia.
Qed.

Lemma int_base16_pair (c1 c2 : ascii) (d1 d2 : Z) :
  hex_digit c1 = Some d1 -> hex_digit c2 = Some d2 ->
  int_base16 (String c1 (String c2 EmptyString)) = Return (16 * d1 + d2).
Proof.
  intros H1 H2. unfold int_base16. cbn [hex_digits]. rewrite H1, H2. f_equal; lia.
Qed.

(** A six-digit colour, with or without its '#', parses into three bytes. *)
Lemma hex_to_rgb_hex6 (c : string) :
  is_hex6 c = true ->
  exists r g b, 0 <= r < 256 /\ 0 <= g < 256 /\ 0 <= b < 256 /\
    hex_to_rgb c = Return (r, g, b) /\ hex_to_rgb (String "#" c) = Return (r, g, b).
Proof.
  unfold is_hex6. intros [Hhex Hlen%Nat.eqb_eq]%andb_prop.
  destruct c as [|c1 [|c2 [|c3 [|c4 [|c5 [|c6 [|]]]]]]]; try discriminate. simpl in Hhex.
  destruct (hex_digit c1) as [d1|] eqn:H1; [ | discriminate ].
  destruct (hex_digit c2) as [d2|] eqn:H2; [ | discriminate ].
  destruct (hex_digit c3) as [d3|] eqn:H3; [ | discriminate ].
  destruct (hex_digit c4) as [d4|] eqn:H4; [ | discriminate ].
  destruct (hex_digit c5) as [d5|] eqn:H5; [ | discriminate ].
  destruct (hex_digit c6) as [d6|] eqn:H6; [ | discriminate ].
  apply hex_digit_range in H1 as R1, H2 as R2, H3 as R3, H4 as R4, H5 as R5, H6 as R6.
  exists (16 * d1 + d2), (16 * d3 + d4), (16 * d5 + d6).
  split; [ lia | ]. split; [ lia | ]. split; [ lia | ].
  assert (lstrip_hash (String c1 (String c2 (String c3 (String c4 (String c5 (String c6 ""))))))
          = String c1 (String c2 (String c3 (String c4 (String c5 (String c6 "")))))) as Hstrip.
  { simpl. destruct c1 as [[] [] [] [] [] [] [] []]; try reflexivity. discriminate H1. }
  assert (hex_to_rgb (String c1 (String c2 (String c3 (String c4 (String c5 (String c6 ""))))))
          = Return (16 * d1 + d2, 16 * d3 + d4, 16 * d5 + d6)) as Hrgb.
  { unfold hex_to_rgb. rewrite Hstrip. unfold slice2. cbn [String.substring].
    by rewrite (int_base16_pair _ _ _ _ H1 H2), (int_base16_pair _ _ _ _ H3 H4),
      (int_base16_pair _ _ _ _ H5 H6). }
  split; [ exact Hrgb | ].
  unfold hex_to_rgb in *. change (lstrip_hash (String "#" ?s)) with (lstrip_hash s). exact Hrgb.
Qed.

(** The code's chain of tests is the specification's list of thresholds. *)
Lemma category_cascade (h s l : Z) :
  (if 90 <? l then "light"
   else if l <? 20 then "dark"
   else if s <? 20 then "neutral"
   else if (80 <=? h) && (h <=? 140) then "primary_green"
   else if (140 <=? h) && (h <=? 200) then "secondary_green"
   else "accent") = category_of_hsl h s l.
Proof.
  unfold category_of_hsl.
  repeat case_bool_decide;
    repeat (match goal with |- context [if ?b then _ else _] => destruct b eqn:? end);
    try reflexivity; exfalso; lia.
Qed.

Lemma categorize_color_of_hsl (lib : colorsys) (hex_color : string) (rgb : Z * Z * Z) (h s l : Z) :
  hex_to_rgb hex_color = Return rgb -> rgb_to_hsl lib rgb = Return (h, s, l) ->
  categorize_color lib hex_color =
    Return {| category := category_of_hsl h s l; hue := h; saturation := s; lightness := l;
              is_green_family := (80 <=? h) && (h <=? 200) |}.
Proof.
  intros Hrgb Hhsl. unfold categorize_color. rewrite Hrgb.
  change (Return rgb ≫= ?f) with (f rgb). cbv beta. rewrite Hhsl.
  change (Return (h, s, l) ≫= ?f) with (f (h, s, l)). cbv beta iota.
  by rewrite category_cascade.
Qed.

(** C4. Every six-digit hex colour, with or without its '#', is
    categorised: the colour parses into three bytes, the bytes convert to
    an HSL triple, and the category is a function of that triple and the
    fixed thresholds alone: lightness above 90 is light, below 20 dark,
    then saturation below 20 is neutral, then hue 80..140 is primary_green,
    hue above 140 up to 200 is secondary_green (140 itself has already gone
    to primary_green), and every other hue is accent.  The result carries
    the triple, so two calls on one colour agree on category and triple. *)
Theorem categorize_color_thresholds (lib : colorsys) (c hex_color : string) :
  is_hex6 c = true -> hex_color = c \/ hex_color = String "#" c ->
  exists r g b h s l a,
    hex_to_rgb hex_color = Return (r, g, b) /\
    rgb_to_hsl lib (r, g, b) = Return (h, s, l) /\
    categorize_color lib hex_color = Return a /\
    hue a = h /\ saturation a = s /\ lightness a = l /\
    category a = category_of_hsl h s l /\
    (l > 90 -> category a = "light") /\
    (l <= 90 -> l < 20 -> category a = "dark") /\
    (20 <= l <= 90 -> s < 20 -> category a = "neutral") /\
    (20 <= l <= 90 -> 20 <= s -> 80 <= h <= 140 -> category a = "primary_green") /\
    (20 <= l <= 90 -> 20 <= s -> 140 < h <= 200 -> category a = "secondary_green") /\
    (20 <= l <= 90 -> 20 <= s -> h < 80 \/ 200 < h -> category a = "accent") /\
    (forall a', categorize_color lib hex_color = Return a' ->
       category a' = category a /\
       (hue a', saturation a', lightness a') = (hue a, saturation a, lightness a)).
Proof.
  intros Hhex Hcolor.
  destruct (hex_to_rgb_hex6 c Hhex) as (r & g & b & Hr & Hg & Hb & Hplain & Hhash).
  assert (hex_to_rgb hex_color = Return (r, g, b)) as Hrgb by (by destruct Hcolor as [-> | ->]).
  destruct (rgb_to_hsl_returns lib r g b Hr Hg Hb) as [[[h s] l] Hhsl].
  exists r, g, b, h, s, l.
  pose proof (categorize_color_of_hsl _ _ _ _ _ _ Hrgb Hhsl) as Ha.
  eexists. split; [ exact Hrgb | ]. split; [ exact Hhsl | ]. split; [ exact Ha | ].
  simpl. repeat (split; [ reflexivity | ]).
  unfold category_of_hsl.
  repeat split; intros;
    try (repeat case_bool_decide; (reflexivity || (exfalso; lia))).
  - rewrite Ha in H. by injection H as <-.
  - rewrite Ha in H. by injection H as <-.
Qed.

(** The template's accent colour: grey-green, too pale in saturation to
    count as a green. *)
Lemma categorize_color_thresholds_witness :
  exists a, categorize_color colorsys_3_12 "#456446" = Return a /\
    (hue a, saturation a, lightness a) = (121, 18, 33) /\ category a = "neutral".
Proof.
  destruct (categorize_color_thresholds colorsys_3_12 "456446" "#456446" eq_refl (or_intror eq_refl))
    as (r & g & b & h & s & l & a & Hrgb & Hhsl & Ha & Hh & Hs & Hl & _ & _ & _ & Hneutral & _).
  vm_compute in Hrgb. injection Hrgb as <- <- <-.
  vm_compute in Hhsl. injection Hhsl as <- <- <-.
  exists a. split; [ exact Ha | ]. split; [ by rewrite Hh, Hs, Hl | ].
  apply Hneutral; lia.
Defined.

(** One colour on which the two forms of the library part: saturation 19
    against 20, so neutral against accent. *)
Lemma category_follows_the_library :
  (exists a, categorize_color colorsys_3_11 "#9b699b" = Return a /\
     saturation a = 19 /\ category a = "neutral") /\
  (exists a, categorize_color colorsys_3_12 "#9b699b" = Return a /\
     saturation a = 20 /\ category a = "accent").
Proof. split; (eexists; split; [ vm_compute; reflexivity | by split ]). Qed.

(** ** Actions on a store *)

Section stable.
Context {S : Type} (R : relation S) `{!Reflexive R} `{!Transitive R}.

Lemma stable_mret {A} (a : A) : stable R (mret a).
Proof. intros s. simpl. reflexivity. Qed.

Lemma stable_lift {A} (m : outcome A) : stable R (lift m).
Proof. intros s. destruct m; simpl; reflexivity. Qed.

Lemma stable_read : stable R read.
Proof. intros s. simpl. reflexivity. Qed.

Lemma stable_update (f : S -> S) : (forall s, R s (f s)) -> stable R (update f).
Proof. intros Hf s. apply Hf. Qed.

Lemma stable_bind {A B} (m : action S A) (f : A -> action S B) :
  stable R m -> (forall a, stable R (f a)) -> stable R (m ≫= f).
Proof.
  intros Hm Hf s. specialize (Hm s). simpl.
  destruct (perform m s) as [s' a|s' e]; simpl in *; [ | done ].
  etrans; [ exact Hm | apply Hf ].
Qed.

Lemma stable_try {A} (body : action S A) (classes : list exn) (handler : exn -> action S A) :
  stable R body -> (forall e, stable R (handler e)) -> stable R (try_action body classes handler).
Proof.
  intros Hbody Hhandler s. specialize (Hbody s). simpl.
  destruct (perform body s) as [s' a|s' e]; simpl in *; [ done | ].
  destruct (caught classes e); [ | done ].
  etrans; [ exact Hbody | apply Hhandler ].
Qed.

Lemma stable_for_each_do {A} (items : list A) (body : A -> action S unit) :
  (forall x, stable R (body x)) -> stable R (for_each_do items body).
Proof.
  intros Hbody. induction items as [|x items IH]; simpl.
  - apply stable_mret.
  - apply stable_bind; [ apply Hbody | intros _; apply IH ].
Qed.

Lemma stable_within {T A} (RT : relation T) (part : S -> option T) (put : T -> S -> S)
    (missing : exn) (act : action T A) :
  stable RT act ->
  (forall s t t', part s = Some t -> RT t t' -> R s (put t' s)) ->
  stable R (within part put missing act).
Proof.
  intros Hact Hput s. simpl. destruct (part s) as [t|] eqn:Hpart; simpl; [ | reflexivity ].
  specialize (Hact t). destruct (perform act t) as [t' a|t' e]; simpl in *; by eapply Hput.
Qed.

Lemma stable_for_each_index {T} (RT : relation T) (items : S -> list T)
    (put : list T -> S -> S) (body : action T unit) :
  stable RT body ->
  (forall s i t t', items s !! i = Some t -> RT t t' -> R s (put (<[i := t']> (items s)) s)) ->
  stable R (for_each_index items put body).
Proof.
  intros Hbody Hput s. unfold for_each_index. simpl.
  apply stable_for_each_do. intros i. apply (stable_within RT); [ done | ].
  intros s0 t t' Hpart Ht. by apply (Hput s0 i t t').
Qed.
End stable.

Lemma try_Exception_unit {S} (body : action S unit) (s : S) :
  perform (try_action body Exception (fun _ => mret tt)) s = Ok (final (perform body s)) tt.
Proof.
  unfold try_action. cbn [perform].
  destruct (perform body s) as [s' []|s' e]; [ done | ].
  by rewrite caught_Exception.
Qed.

(** ** Styled slides (enhanced_presentation_generator.py) *)

#[local] Arguments hex_to_rgb : simpl never.
#[local] Arguments caught : simpl never.
#[local] Arguments _apply_font_styling : simpl never.
#[local] Arguments String.eqb : simpl never.

Lemma perform_bind {S A B} (m : action S A) (f : A -> action S B) (s : S) :
  perform (m ≫= f) s =
    match perform m s with
    | Ok s' a => perform (f a) s'
    | Err s' e => Err s' e
    end.
Proof. reflexivity. Qed.

(** An action on the slide added last. *)
Lemma on_slide_last {A} (act : action slide A) (layouts : list layout) (before : list slide)
    (s : slide) :
  perform (on_slide (length before) act) {| slide_layouts := layouts; slides := before ++ [s] |} =
    match perform act s with
    | Ok s' a => Ok {| slide_layouts := layouts; slides := before ++ [s'] |} a
    | Err s' e => Err {| slide_layouts := layouts; slides := before ++ [s'] |} e
    end.
Proof.
  unfold on_slide, within. cbn [perform slides slide_layouts].
  rewrite list_lookup_middle by done.
  assert (forall s', <[length before := s']> (before ++ [s]) = before ++ [s']) as Hput.
  { intros s'. replace (length before) with (length before + 0)%nat by lia.
    by rewrite insert_app_r. }
  destruct (perform act s) as [s' a|s' e]; by rewrite Hput.
Qed.

(** The background test of [_create_styled_slide]: no colour set, an empty
    one, or exactly the string "#FFFFFF". *)
Lemma _create_styled_slide_last (config : design_config) (layout_index : nat)
    (prs : presentation) (chosen : layout) :
  slide_layouts prs !! layout_index = Some chosen ->
  exists bg,
    perform (_create_styled_slide config layout_index) prs =
      Ok {| slide_layouts := slide_layouts prs;
            slides := slides prs ++
              [ {| slide_layout := chosen; shapes := layout_shapes chosen; background := bg |} ] |}
         (length (slides prs)) /\
    (bg = Inherited <->
       match color_scheme config !! "background" with
       | None => True
       | Some bg_color => bg_color = "" \/ bg_color = "#FFFFFF"
       end).
Proof.
  intros Hlayout. unfold _create_styled_slide.
  rewrite perform_bind. cbn [perform read]. rewrite perform_bind, Hlayout. cbn [perform lift].
  rewrite perform_bind. cbn [perform add_slide]. rewrite perform_bind, try_Exception_unit.
  destruct (color_scheme config !! "background") as [bg_color|]; [ | by eexists ].
  destruct (decide (bg_color = "")) as [-> | Hempty]; [ eexists; split; [ done | ]; by intuition | ].
  destruct (decide (bg_color = "#FFFFFF")) as [-> | Hwhite]; [ eexists; split; [ done | ]; by intuition | ].
  rewrite !bool_decide_eq_false_2 by done. cbn [negb andb].
  rewrite on_slide_last, perform_bind. cbn [perform update]. rewrite perform_bind.
  destruct (hex_to_rgb bg_color) as [rgb|e]; cbn [perform lift update final];
    (eexists; split; [ reflexivity | ]; split; [ discriminate | by intros [? | ?] ]).
Qed.

(** C8, at the failing input.  The extractor writes its background as
    '#ffffff'; the generator compares with "#FFFFFF", so with the
    extractor's palette as colour scheme the white background is applied:
    the fill is made solid and set to RGB (255, 255, 255). *)
Theorem lowercase_white_background_is_filled :
  (forall brand_colors, create_brand_guidelines brand_colors !! "background" = Some "#ffffff") /\
  perform
    (_create_styled_slide
       {| color_scheme := create_brand_guidelines ∅; fonts_primary := None; fonts_sizes := ∅ |} 0)
    {| slide_layouts := [ {| layout_name := "Title Slide"; layout_shapes := ∅ |} ]; slides := [] |}
  = Ok {| slide_layouts := [ {| layout_name := "Title Slide"; layout_shapes := ∅ |} ];
          slides := [ {| slide_layout := {| layout_name := "Title Slide"; layout_shapes := ∅ |};
                         shapes := ∅;
                         background := Solid (Some (255, 255, 255)) |} ] |}
       0%nat.
Proof.
  split; [ | vm_compute; reflexivity ].
  intros brand_colors. unfold create_brand_guidelines. apply elem_of_list_to_map_1.
  - cbn [fmap list_fmap fst].
    repeat (apply NoDup_cons; split;
            [ rewrite ?elem_of_cons, elem_of_nil; intuition discriminate | ]).
    apply NoDup_nil_2.
  - rewrite !elem_of_cons. do 5 right. by left.
Qed.

(** ** Layout lookup and its fallback *)

Lemma on_placeholder_layout {A} (idx : Z) (act : action shape A) (s : slide) :
  slide_layout (final (perform (on_placeholder idx act) s)) = slide_layout s.
Proof.
  unfold on_placeholder, within. cbn [perform].
  destruct (shapes s !! idx) as [sh|]; [ | done ].
  by destruct (perform act sh).
Qed.

Lemma final_try_pass {S} (body : action S unit) (classes : list exn) (s : S) :
  final (perform (try_action body classes (fun _ => mret tt)) s) = final (perform body s).
Proof.
  unfold try_action. cbn [perform]. destruct (perform body s) as [s' a|s' e]; [ done | ].
  by destruct (caught classes e).
Qed.

Lemma has_title_last (layouts : list layout) (before : list slide) (s : slide) :
  perform (has_title (length before)) {| slide_layouts := layouts; slides := before ++ [s] |} =
    Ok {| slide_layouts := layouts; slides := before ++ [s] |}
       (bool_decide (is_Some (shapes s !! 0))).
Proof. unfold has_title. by rewrite on_slide_last. Qed.

(** One element of the rendered slide changes nothing but the slide added
    last, and leaves that slide on its layout. *)
Lemma bind_xml_shape_last (config : design_config) (layouts : list layout) (before : list slide)
    (s : slide) (element : option string * option string) :
  exists s', slide_layout s' = slide_layout s /\
    final (perform (bind_xml_shape config (length before) element)
             {| slide_layouts := layouts; slides := before ++ [s] |}) =
      {| slide_layouts := layouts; slides := before ++ [s'] |}.
Proof.
  destruct element as [shape_type text]. unfold bind_xml_shape.
  case_bool_decide; [ | case_bool_decide ].
  - rewrite perform_bind, has_title_last.
    destruct (bool_decide (is_Some (shapes s !! 0))); [ | by exists s ].
    rewrite on_slide_last.
    pose proof (on_placeholder_layout 0
      (set_shape_text text;; on_text_frame (_apply_font_styling config "title")) s) as Hlayout.
    destruct (perform (on_placeholder 0 _) s) as [s' a|s' e]; by exists s'.
  - rewrite final_try_pass, on_slide_last.
    pose proof (on_placeholder_layout 1
      (set_shape_text text;; on_text_frame (_apply_font_styling config "body")) s) as Hlayout.
    destruct (perform (on_placeholder 1 _) s) as [s' a|s' e]; by exists s'.
  - by exists s.
Qed.

Lemma bind_xml_shapes_last (config : design_config) (layouts : list layout) (before : list slide)
    (elements : list (option string * option string)) : forall s : slide,
  exists s', slide_layout s' = slide_layout s /\
    final (perform (for_each_do elements (bind_xml_shape config (length before)))
             {| slide_layouts := layouts; slides := before ++ [s] |}) =
      {| slide_layouts := layouts; slides := before ++ [s'] |}.
Proof.
  induction elements as [|element elements IH]; intros s; [ by exists s | ].
  cbn [for_each_do]. rewrite perform_bind.
  destruct (bind_xml_shape_last config layouts before s element) as (s1 & Hlayout1 & Hfinal1).
  destruct (perform (bind_xml_shape config (length before) element) _) as [st []|st e];
    cbn [final] in Hfinal1; subst st.
  - destruct (IH s1) as (s' & Hlayout & Hfinal). exists s'. split; [ congruence | done ].
  - by exists s1.
Qed.

Lemma find_layout_absent (layouts : list layout) (wanted : string) :
  Forall (fun l => layout_name l <> wanted) layouts ->
  List.find (fun l => String.eqb (layout_name l) wanted) layouts = None.
Proof.
  induction 1 as [|l layouts Hl _ IH]; [ done | ]. cbn [List.find].
  apply String.eqb_neq in Hl. by rewrite Hl.
Qed.

(** C5. [create_slide_from_xml] never raises, whatever layout is asked
    for; and when no layout of the template has the requested name, the
    presentation gains exactly one slide, on the template's first layout
    (index 0), whatever happens while the slide's XML is read and bound. *)
Theorem missing_layout_falls_back `{Collaborators} (config : design_config) (prs : presentation)
    (slide_xml requested : string) :
  (exists prs', perform (create_slide_from_xml config slide_xml requested) prs = Ok prs' tt) /\
  (forall first_layout others,
     slide_layouts prs = first_layout :: others ->
     Forall (fun l => layout_name l <> requested) (slide_layouts prs) ->
     exists new_slide,
       perform (create_slide_from_xml config slide_xml requested) prs =
         Ok {| slide_layouts := slide_layouts prs; slides := slides prs ++ [new_slide] |} tt /\
       slide_layout new_slide = first_layout).
Proof.
  unfold create_slide_from_xml. rewrite try_Exception_unit. split; [ by eexists | ].
  intros first_layout others Hlayouts Habsent.
  rewrite perform_bind. cbn [perform read]. rewrite perform_bind.
  rewrite (find_layout_absent _ _ Habsent), Hlayouts. cbn [lookup list_lookup perform lift].
  rewrite perform_bind. cbn [perform add_slide]. rewrite perform_bind, Hlayouts.
  destruct (xml_shapes slide_xml) as [elements|e]; cbn [perform lift final].
  - destruct (bind_xml_shapes_last config (first_layout :: others) (slides prs) elements
                {| slide_layout := first_layout; shapes := layout_shapes first_layout;
                   background := Inherited |}) as (s' & Hlayout & ->).
    by exists s'.
  - by eexists.
Qed.

(** The specification's example: "Nonexistent Layout". *)
Lemma missing_layout_falls_back_witness :
  exists new_slide,
    perform (create_slide_from_xml (H := example_engine) plain_design "<slide/>" "Nonexistent Layout")
      two_layout_deck =
      Ok {| slide_layouts := slide_layouts two_layout_deck; slides := [new_slide] |} tt /\
    layout_name (slide_layout new_slide) = "Title Slide".
Proof.
  destruct (proj2 (missing_layout_falls_back (H := example_engine) plain_design two_layout_deck
                     "<slide/>" "Nonexistent Layout") _ _ eq_refl) as (new_slide & Hrun & Hlayout).
  - repeat constructor; vm_compute; discriminate.
  - exists new_slide. split; [ exact Hrun | ]. by rewrite Hlayout.
Defined.

(** ** The assembly loop *)

Lemma for_each_from_app {S A B} (before after : list A) (body : B -> A -> action S B) :
  forall (b : B) (s : S),
    perform (for_each_from (before ++ after) body b) s =
      match perform (for_each_from before body b) s with
      | Ok s' b' => perform (for_each_from after body b') s'
      | Err s' e => Err s' e
      end.
Proof.
  induction before as [|x before IH]; intros b s; [ done | ].
  cbn [app for_each_from]. rewrite !perform_bind.
  destruct (perform (body b x) s) as [s' b'|s' e]; [ apply IH | done ].
Qed.

(** A slide whose template fails to render ends its loop body there. *)
Lemma content_slide_render_failure `{Collaborators} (config : design_config) (slide_count : Z)
    (slide_info slide_type context : json) (layout_name' template_name template : string)
    (e : exn) (prs : presentation) :
  py_get slide_info "type" (JStr "content") = Return slide_type ->
  slide_kind slide_type = (layout_name', template_name) ->
  layout_name' <> "" -> template_name <> "" ->
  get_template template_name = Return template ->
  getitem slide_info "data" = Return context ->
  render template context = Raise e ->
  perform (content_slide config slide_count slide_info) prs = Err prs e.
Proof.
  intros Htype Hkind Hlayout Htemplate Hget Hdata Hrender. unfold content_slide.
  rewrite perform_bind, Htype. cbn [perform lift]. rewrite Hkind.
  rewrite !bool_decide_eq_false_2 by done. cbn [negb andb].
  rewrite perform_bind, Hget. cbn [perform lift].
  rewrite perform_bind, Hdata. cbn [mbind outcome_bind]. by rewrite Hrender.
Qed.

(** C6, as the code has it.  Nothing in the assembly loop catches a
    failure of the template engine: when the slides before have been
    produced and the next slide's template fails to render, the run ends
    with that exception, on the deck as the earlier slides left it; no
    later slide is produced and the end of the run, where the deck is
    saved, is not reached.  What is caught slide by slide is a failure
    inside [create_slide_from_xml], which always returns. *)
Theorem render_failure_ends_the_run `{Collaborators} (config : design_config)
    (data presentation_data slide_info slide_type context : json) (before after : list json)
    (layout_name' template_name template : string) (e : exn)
    (prs prs1 prs2 : presentation) (slide_count : Z) :
  py_get data "presentation_data" (JDict ∅) = Return presentation_data ->
  perform (title_slide_step config presentation_data) prs = Ok prs1 tt ->
  (slides' ← py_get presentation_data "slides" (JList []); py_iter slides')
    = Return (before ++ slide_info :: after) ->
  perform (for_each_from before (content_slide config) 0) prs1 = Ok prs2 slide_count ->
  py_get slide_info "type" (JStr "content") = Return slide_type ->
  slide_kind slide_type = (layout_name', template_name) ->
  layout_name' <> "" -> template_name <> "" ->
  get_template template_name = Return template ->
  getitem slide_info "data" = Return context ->
  render template context = Raise e ->
  perform (generate_enhanced_presentation config data) prs = Err prs2 e /\
  ~ run_completes config data prs /\
  (forall slide_xml requested deck,
     exists deck', perform (create_slide_from_xml config slide_xml requested) deck = Ok deck' tt).
Proof.
  intros Hdata Htitle Hslides Hbefore Htype Hkind Hlayout Htemplate Hget Hcontext Hrender.
  assert (perform (generate_enhanced_presentation config data) prs = Err prs2 e) as Hrun.
  { unfold generate_enhanced_presentation.
    rewrite perform_bind, Hdata. cbn [perform lift].
    rewrite perform_bind, Htitle, perform_bind, Hslides. cbn [perform lift].
    rewrite for_each_from_app, Hbefore. cbn [for_each_from]. rewrite perform_bind.
    by rewrite (content_slide_render_failure _ _ _ _ _ _ _ _ _ _
                  Htype Hkind Hlayout Htemplate Hget Hcontext Hrender). }
  split; [ exact Hrun | ]. split.
  - intros (prs' & n & Hok). congruence.
  - intros slide_xml requested deck. unfold create_slide_from_xml.
    rewrite try_Exception_unit. by eexists.
Qed.

(** The second of three slides fails: one slide is in the deck when the
    run ends. *)
Lemma render_failure_ends_the_run_witness :
  exists prs2,
    perform (generate_enhanced_presentation (H := example_engine) plain_design three_slides)
      two_layout_deck = Err prs2 TemplateError /\
    length (slides prs2) = 1%nat.
Proof.
  eexists. split.
  - eapply proj1.
    eapply (render_failure_ends_the_run (H := example_engine) plain_design three_slides)
      with (before := [ slide_of "title_only" [ ("title", JStr "Soil") ] ])
           (slide_info := slide_of "title_only" [ ("fail", JBool true) ])
           (after := [ slide_of "title_only" [ ("title", JStr "Water") ] ]).
    + reflexivity.
    + reflexivity.
    + reflexivity.
    + reflexivity.
    + reflexivity.
    + reflexivity.
    + discriminate.
    + discriminate.
    + reflexivity.
    + reflexivity.
    + reflexivity.
  - reflexivity.
Defined.

(** C6 as worded fails on the code: with a failing first slide the run
    raises, the deck is left without any slide, and the two slides that
    would have rendered are never produced. *)
Lemma render_failure_is_not_skipped :
  perform (generate_enhanced_presentation (H := example_engine) plain_design
             (obj [ ("presentation_data",
                     obj [ ("slides",
                            JList [ slide_of "title_only" [ ("fail", JBool true) ];
                                    slide_of "title_only" [ ("title", JStr "Soil") ];
                                    slide_of "title_only" [ ("title", JStr "Water") ] ]) ]) ]))
    two_layout_deck = Err two_layout_deck TemplateError /\
  ~ run_completes (H := example_engine) plain_design
      (obj [ ("presentation_data",
              obj [ ("slides",
                     JList [ slide_of "title_only" [ ("fail", JBool true) ];
                             slide_of "title_only" [ ("title", JStr "Soil") ];
                             slide_of "title_only" [ ("title", JStr "Water") ] ]) ]) ])
      two_layout_deck.
Proof.
  assert (perform (generate_enhanced_presentation (H := example_engine) plain_design
             (obj [ ("presentation_data",
                     obj [ ("slides",
                            JList [ slide_of "title_only" [ ("fail", JBool true) ];
                                    slide_of "title_only" [ ("title", JStr "Soil") ];
                                    slide_of "title_only" [ ("title", JStr "Water") ] ]) ]) ]))
            two_layout_deck = Err two_layout_deck TemplateError) as Hrun
    by (vm_compute; reflexivity).
  split; [ exact Hrun | ]. intros (prs' & n & Hok). rewrite Hok in Hrun. discriminate.
Qed.

(** ** Bullet lists *)

Lemma split_without_separator (sep : ascii) (s : string) :
  ~ In sep (list_ascii_of_string s) -> split sep s = [s].
Proof.
  induction s as [|c s IH]; [ done | ]. cbn [list_ascii_of_string In split]. intros Hnot.
  destruct (Ascii.eqb_spec c sep) as [-> | _]; [ destruct Hnot; by left | ].
  rewrite IH; [ done | ]. intros Hin. apply Hnot. by right.
Qed.

#[local] Arguments hex_to_rgb : simpl never.
#[local] Arguments caught : simpl never.
#[local] Arguments split : simpl never.

#[local] Instance same_run_text_refl : Reflexive same_run_text.
Proof. by intros r. Qed.
#[local] Instance same_run_text_trans : Transitive same_run_text.
Proof. unfold same_run_text. intros r1 r2 r3 H12 H23. congruence. Qed.
#[local] Instance same_paragraph_text_refl : Reflexive same_paragraph_text.
Proof. by intros p. Qed.
#[local] Instance same_paragraph_text_trans : Transitive same_paragraph_text.
Proof. unfold same_paragraph_text. intros p1 p2 p3 [] []. split; congruence. Qed.
#[local] Instance same_text_refl : Reflexive same_text.
Proof. by intros tf. Qed.
#[local] Instance same_text_trans : Transitive same_text.
Proof. unfold same_text. intros t1 t2 t3 [] []. split; congruence. Qed.

Lemma paragraph_text_runs (p : paragraph) :
  paragraph_text p = foldr String.append "" (map run_text (runs p)).
Proof. unfold paragraph_text. induction (runs p) as [|r rs IH]; simpl; [ done | by rewrite IH ]. Qed.

Lemma insert_same_image {A B} (f : A -> B) (l : list A) (i : nat) (x x' : A) :
  l !! i = Some x -> f x' = f x -> map f (<[i := x']> l) = map f l.
Proof.
  intros Hx Hf. change (f <$> <[i := x']> l = f <$> l).
  rewrite list_fmap_insert, Hf. apply list_insert_id. by rewrite list_lookup_fmap, Hx.
Qed.

Lemma style_run_stable (family : string) (size : Z) (text_color : string) :
  stable same_run_text (style_run family size text_color).
Proof.
  unfold style_run.
  apply (stable_bind same_run_text); [ by apply stable_update | intros _ ].
  apply (stable_bind same_run_text); [ by apply stable_update | intros _ ].
  apply (stable_bind same_run_text); [ by apply stable_lift | intros rgb ].
  by apply stable_update.
Qed.

(** C7's styling pass changes fonts only. *)
Lemma _apply_font_styling_same_text (config : design_config) (font_type : string) (tf : text_frame) :
  exists tf', perform (_apply_font_styling config font_type) tf = Ok tf' tt /\ same_text tf tf'.
Proof.
  unfold _apply_font_styling. rewrite try_Exception_unit. eexists. split; [ reflexivity | ].
  revert tf. apply (stable_for_each_index same_text same_paragraph_text).
  - apply (stable_for_each_index same_paragraph_text same_run_text); [ apply style_run_stable | ].
    intros p i r r' Hr Hsame. split; [ | done ].
    rewrite !paragraph_text_runs. cbn [runs]. f_equal. by eapply insert_same_image.
  - intros tf i p p' Hp [Htext Hlevel]. split; by eapply insert_same_image.
Qed.

Lemma paragraph_text_with_text (text : string) (p : paragraph) :
  paragraph_text (with_text text p) = text.
Proof.
  unfold paragraph_text, with_text. cbn [runs].
  case_bool_decide; [ by subst | ]. cbn [foldr run_text]. apply append_empty_r.
Qed.

Lemma update_last_snoc (f : paragraph -> paragraph) (tf : text_frame) (p : paragraph) :
  update_last f (tf ++ [p]) = tf ++ [f p].
Proof. unfold update_last. by rewrite reverse_snoc, reverse_involutive. Qed.

(** The items after the first: each one new paragraph at level 0, behind
    what is there, in the order of the list. *)
Lemma bind_bullets_rest `{Collaborators} (data : json) (items : list json) : forall (i : nat)
    (texts : list string) (tf : text_frame),
  i <> 0%nat ->
  Forall2 (fun item text => process_text_with_jinja (py_str item) data = Return text) items texts ->
  perform
    (for_each_do (zip (seq i (length items)) items)
       (fun '(i, item) =>
          processed_item ← lift (process_text_with_jinja (py_str item) data);
          if bool_decide (i = 0%nat) then update (fun _ => set_text processed_item)
          else
            update add_paragraph;;
            update (update_last (with_text processed_item));;
            update (update_last (set_level 0))))
    tf = Ok (tf ++ map bullet texts) tt.
Proof.
  induction items as [|item items IH]; intros i texts tf Hi Hrendered.
  - apply Forall2_nil_inv_l in Hrendered as ->. cbn. by rewrite app_nil_r.
  - apply Forall2_cons_inv_l in Hrendered as (text & texts' & Htext & Hrest & ->).
    cbn [length seq zip zip_with for_each_do]. rewrite perform_bind.
    change (zip_with pair (seq (Datatypes.S i) (length items)) items)
      with (zip (seq (Datatypes.S i) (length items)) items).
    rewrite perform_bind, Htext. cbn [perform lift].
    rewrite bool_decide_eq_false_2 by done.
    repeat (rewrite perform_bind; cbn [perform update]).
    change (add_paragraph tf) with (tf ++ [empty_paragraph]).
    rewrite !update_last_snoc, (IH (Datatypes.S i) texts' _ (Nat.neq_succ_0 i) Hrest).
    cbn [map]. by rewrite <- app_assoc.
Qed.

(** The whole loop on a non-empty list. *)
Lemma bind_bullets_texts `{Collaborators} (data : json) (items : list json)
    (first : string) (rest : list string) (tf : text_frame) :
  Forall2 (fun item text => process_text_with_jinja (py_str item) data = Return text)
          items (first :: rest) ->
  perform (bind_bullets items data) tf = Ok (set_text first ++ map bullet rest) tt.
Proof.
  intros Hrendered. apply Forall2_cons_inv_r in Hrendered as (item & items' & Hfirst & Hrest & ->).
  unfold bind_bullets. cbn [length seq zip zip_with for_each_do]. rewrite perform_bind.
  change (zip_with pair (seq 1 (length items')) items') with (zip (seq 1 (length items')) items').
  rewrite perform_bind, Hfirst. cbn [perform lift bool_decide decide_rel]. 
  rewrite bool_decide_eq_true_2 by done. cbn [perform update].
  by apply bind_bullets_rest.
Qed.

Lemma on_placeholder_Ok {A} (idx : Z) (act : action shape A) (s : slide) (sh sh' : shape) (a : A) :
  shapes s !! idx = Some sh -> perform act sh = Ok sh' a ->
  perform (on_placeholder idx act) s =
    Ok {| slide_layout := slide_layout s; shapes := <[idx := sh']> (shapes s);
          background := background s |} a.
Proof. intros Hsh Hact. unfold on_placeholder, within. cbn [perform]. by rewrite Hsh, Hact. Qed.

Lemma on_text_frame_Ok {A} (act : action text_frame A) (tf tf' : text_frame) (a : A) :
  perform act tf = Ok tf' a ->
  perform (on_text_frame act) {| shape_text_frame := Some tf |} = Ok {| shape_text_frame := Some tf' |} a.
Proof. intros Hact. unfold on_text_frame, within. cbn [perform shape_text_frame]. by rewrite Hact. Qed.

Lemma set_text_levels (text : string) : Forall (fun p => level p = 0) (set_text text).
Proof. unfold set_text. apply Forall_map, Forall_forall. by intros line _. Qed.

Lemma set_text_texts (text : string) : map paragraph_text (set_text text) = split "010" text.
Proof.
  unfold set_text. rewrite map_map. induction (split "010" text) as [|line lines IH]; [ done | ].
  cbn [map]. by rewrite paragraph_text_with_text, IH.
Qed.

Lemma bullet_texts (texts : list string) :
  map paragraph_text (map bullet texts) = texts /\ Forall (fun p => level p = 0) (map bullet texts).
Proof.
  split.
  - induction texts as [|text texts IH]; [ done | ]. cbn [map]. rewrite IH. f_equal.
    unfold bullet, set_level, paragraph_text. cbn [runs]. apply (paragraph_text_with_text text empty_paragraph).
  - apply Forall_map, Forall_forall. by intros text _.
Qed.

(** The content update on a placeholder that has a text frame. *)
Lemma bind_content_bullets `{Collaborators} (config : design_config) (slide_data : gmap string json)
    (data : json) (items : list json) (first : string) (rest : list string) (existing : text_frame) :
  slide_data !! "content" = Some (JList items) ->
  Forall2 (fun item text => process_text_with_jinja (py_str item) data = Return text)
          items (first :: rest) ->
  exists tf,
    perform (bind_content config slide_data data) {| shape_text_frame := Some existing |} =
      Ok {| shape_text_frame := Some tf |} tt /\
    map paragraph_text tf = split "010" first ++ rest /\
    Forall (fun p => level p = 0) tf.
Proof.
  intros Hcontent Hrendered. unfold bind_content. rewrite Hcontent. cbn [default].
  rewrite perform_bind. cbn [perform read shape_text_frame].
  rewrite bool_decide_eq_true_2 by by eexists.
  destruct (_apply_font_styling_same_text config "body" (set_text first ++ map bullet rest))
    as (tf & Hstyle & Htexts & Hlevels).
  exists tf. split; [ | split ].
  - apply on_text_frame_Ok. rewrite perform_bind. cbn [perform update].
    rewrite perform_bind, (bind_bullets_texts _ _ _ _ _ Hrendered). exact Hstyle.
  - rewrite Htexts, map_app, set_text_texts. by rewrite (proj1 (bullet_texts rest)).
  - apply Forall_forall. intros p Hp.
    assert (In (level p) (map level tf)) as Hin by (apply in_map; by apply list_elem_of_In).
    rewrite Hlevels, map_app in Hin. apply in_app_or in Hin as [Hin | Hin];
      apply in_map_iff in Hin as (q & <- & Hq); apply list_elem_of_In in Hq.
    + by apply (proj1 (Forall_forall _ _) (set_text_levels first)).
    + by apply (proj1 (Forall_forall _ _) (proj2 (bullet_texts rest))).
Qed.

(** The title step of [create_enhanced_content_slide] leaves the other
    placeholders as they are. *)
Lemma title_update_Ok (config : design_config) (font_type text : string) (s : slide)
    (title_frame : text_frame) :
  shapes s !! 0 = Some {| shape_text_frame := Some title_frame |} ->
  exists title_shape,
    perform (on_placeholder 0
               (set_shape_text (Some text);; on_text_frame (_apply_font_styling config font_type))) s =
      Ok {| slide_layout := slide_layout s; shapes := <[0 := title_shape]> (shapes s);
            background := background s |} tt.
Proof.
  intros Htitle.
  destruct (_apply_font_styling_same_text config font_type (set_text text)) as (tf & Hstyle & _).
  exists {| shape_text_frame := Some tf |}. apply (on_placeholder_Ok _ _ _ _ _ _ Htitle).
  rewrite perform_bind. unfold set_shape_text.
  rewrite (on_text_frame_Ok _ title_frame (set_text text) tt).
  - by apply on_text_frame_Ok.
  - rewrite perform_bind. by cbn [perform lift update].
Qed.

(** C7. [create_enhanced_content_slide] on a content layout whose
    placeholder 1 has a text frame, with a non-empty list as content whose
    items all render: the new slide's content placeholder holds, in place
    of whatever text it had, the rendered first item (one paragraph for
    each of its lines), followed by one paragraph for each further item, in
    the order of the list; every paragraph is at level 0.  When the first
    item has no line feed the paragraphs are exactly the rendered items. *)
Theorem bullet_items_in_order `{Collaborators} (config : design_config) (prs : presentation)
    (slide_data : gmap string json) (data : json) (content_layout : layout)
    (existing : text_frame) (items : list json) (first : string) (rest : list string) :
  slide_layouts prs !! 1%nat = Some content_layout ->
  layout_shapes content_layout !! 1 = Some {| shape_text_frame := Some existing |} ->
  layout_shapes content_layout !! 0 = None \/
    (exists title_frame title_text,
       layout_shapes content_layout !! 0 = Some {| shape_text_frame := Some title_frame |} /\
       (text ← as_str (default (JStr "Slide Title") (slide_data !! "title"));
        process_text_with_jinja text data) = Return title_text) ->
  slide_data !! "content" = Some (JList items) ->
  Forall2 (fun item text => process_text_with_jinja (py_str item) data = Return text)
          items (first :: rest) ->
  exists new_slide tf,
    perform (create_enhanced_content_slide config slide_data data) prs =
      Ok {| slide_layouts := slide_layouts prs; slides := slides prs ++ [new_slide] |}
         (length (slides prs)) /\
    shapes new_slide !! 1 = Some {| shape_text_frame := Some tf |} /\
    map paragraph_text tf = split "010" first ++ rest /\
    Forall (fun p => level p = 0) tf /\
    (~ In "010"%char (list_ascii_of_string first) -> map paragraph_text tf = first :: rest).
Proof.
  intros Hlayout Hbody Htitle Hcontent Hrendered.
  destruct (bind_content_bullets config slide_data data items first rest existing Hcontent Hrendered)
    as (tf & Hbind & Htexts & Hlevels).
  destruct (_create_styled_slide_last config 1 prs content_layout Hlayout) as (bg & Hstyled & _).
  set (fresh := {| slide_layout := content_layout; shapes := layout_shapes content_layout;
                   background := bg |}) in Hstyled.
  assert (exists titled_slide,
            perform (bind_title config slide_data data (length (slides prs)))
              {| slide_layouts := slide_layouts prs; slides := slides prs ++ [fresh] |} =
              Ok {| slide_layouts := slide_layouts prs; slides := slides prs ++ [titled_slide] |} tt /\
            shapes titled_slide !! 1 = Some {| shape_text_frame := Some existing |})
    as (titled_slide & Htitled & Hbody').
  { unfold bind_title. rewrite perform_bind, has_title_last. subst fresh. cbn [shapes].
    destruct Htitle as [Hnone | (title_frame & title_text & Hsome & Hrender)].
    - rewrite Hnone, bool_decide_eq_false_2 by (by intros [? ?]). by eexists.
    - rewrite Hsome, bool_decide_eq_true_2 by (by eexists). cbv zeta.
      rewrite perform_bind, Hrender. cbn [perform lift]. rewrite on_slide_last.
      destruct (title_update_Ok config "heading" title_text
                  {| slide_layout := content_layout; shapes := layout_shapes content_layout;
                     background := bg |} title_frame Hsome) as (title_shape & ->).
      eexists. split; [ reflexivity | ]. cbn [shapes]. by rewrite lookup_insert_ne. }
  eexists. exists tf. split; [ | split; [ | split; [ exact Htexts | split; [ exact Hlevels | ] ] ] ].
  - unfold create_enhanced_content_slide.
    rewrite perform_bind, Hstyled, perform_bind, Htitled, perform_bind.
    unfold try_action. cbn [perform]. rewrite on_slide_last.
    rewrite (on_placeholder_Ok _ _ _ _ _ _ Hbody' Hbind). reflexivity.
  - cbn [shapes]. by rewrite lookup_insert_eq.
  - intros Hline. by rewrite Htexts, (split_without_separator _ _ Hline).
Qed.

(** Three benefits on the content layout of a two-layout deck. *)
Lemma bullet_items_in_order_witness :
  exists new_slide tf,
    perform
      (create_enhanced_content_slide (H := example_engine) plain_design
         (list_to_map [ ("title", JStr "Benefits");
                        ("content", JList [ JStr "Fresh food"; JStr "Less transport";
                                            JStr "Green roofs" ]) ])
         (obj []))
      two_layout_deck =
      Ok {| slide_layouts := slide_layouts two_layout_deck; slides := [new_slide] |} 0%nat /\
    shapes new_slide !! 1 = Some {| shape_text_frame := Some tf |} /\
    map paragraph_text tf = [ "Fresh food"; "Less transport"; "Green roofs" ].
Proof.
  destruct (bullet_items_in_order (H := example_engine) plain_design two_layout_deck
              (list_to_map [ ("title", JStr "Benefits");
                             ("content", JList [ JStr "Fresh food"; JStr "Less transport";
                                                 JStr "Green roofs" ]) ])
              (obj []) (nth 1 (slide_layouts two_layout_deck) {| layout_name := ""; layout_shapes := ∅ |})
              [empty_paragraph]
              [ JStr "Fresh food"; JStr "Less transport"; JStr "Green roofs" ]
              "Fresh food" [ "Less transport"; "Green roofs" ])
    as (new_slide & tf & Hrun & Hshape & _ & _ & Htexts).
  - reflexivity.
  - reflexivity.
  - right. exists [empty_paragraph], "Benefits". split; reflexivity.
  - reflexivity.
  - repeat constructor.
  - exists new_slide, tf. split; [ exact Hrun | ]. split; [ exact Hshape | ].
    apply Htexts. cbn. intros Hin. repeat (destruct Hin as [Hin | Hin]; [ discriminate Hin | ]).
    exact Hin.
Defined.

(** * More properties *)

(** ** The configuration list (template_config.py) *)

Lemma update_slide_config_cons (existing : SlideConfig) (rest : list SlideConfig) (key : string)
    (config : SlideConfig) :
  update_slide_config (existing :: rest) key config =
    if decide (slide_key existing = key) then config :: rest
    else existing :: update_slide_config rest key config.
Proof.
  unfold update_slide_config. cbn [list_find]. case_decide; [ done | ].
  destruct (list_find _ rest) as [[i found]|]; reflexivity.
Qed.

Lemma get_slide_config_cons (existing : SlideConfig) (rest : list SlideConfig) (key : string) :
  get_slide_config (existing :: rest) key =
    if decide (slide_key existing = key) then Some existing else get_slide_config rest key.
Proof.
  unfold get_slide_config. cbn [List.find].
  case_decide as Hkey.
  - apply String.eqb_eq in Hkey. by rewrite Hkey.
  - apply String.eqb_neq in Hkey. by rewrite Hkey.
Qed.

(** X1. Update, then look up: a configuration stored under its own key is the
    one found under that key, whether it replaced an entry or was added;
    every other key finds what it found before. *)
Theorem update_slide_config_then_get (slides_config : list SlideConfig) (config : SlideConfig)
    (other : string) :
  get_slide_config (update_slide_config slides_config (slide_key config) config) (slide_key config)
    = Some config /\
  (other <> slide_key config ->
   get_slide_config (update_slide_config slides_config (slide_key config) config) other
     = get_slide_config slides_config other).
Proof.
  induction slides_config as [|existing rest [IHsame IHother]].
  - unfold update_slide_config, add_slide_config. cbn [list_find app].
    rewrite !get_slide_config_cons. split; [ by rewrite decide_True | ].
    intros Hother. by rewrite decide_False.
  - rewrite update_slide_config_cons. destruct (decide (slide_key existing = slide_key config)) as [Heq|Hne].
    + rewrite !get_slide_config_cons. split; [ by rewrite decide_True | ].
      intros Hother. rewrite !decide_False; [ done | congruence | done ].
    + rewrite !get_slide_config_cons. split; [ by rewrite decide_False | ].
      intros Hother. destruct (decide (slide_key existing = other)); [ done | by apply IHother ].
Qed.


(** X3. Adding a configuration under a key that is already configured leaves
    the lookup with the earlier entry: the added one is found only when
    its key was free. *)
Theorem add_slide_config_then_get (slides_config : list SlideConfig) (config : SlideConfig)
    (key : string) :
  get_slide_config (add_slide_config slides_config config) key =
    match get_slide_config slides_config key with
    | Some earlier => Some earlier
    | None => if decide (slide_key config = key) then Some config else None
    end.
Proof.
  unfold add_slide_config. induction slides_config as [|existing rest IH].
  - cbn [app]. rewrite get_slide_config_cons. by case_decide.
  - cbn [app]. rewrite !get_slide_config_cons.
    destruct (decide (slide_key existing = key)); [ reflexivity | apply IH ].
Qed.

(** X4. Validation of a configuration with one slide added: the messages of
    the old configuration, then those of the added slide. *)
Theorem validate_after_add_slide_config (slides_config : list SlideConfig) (config : SlideConfig)
    (data : json) :
  exists errors added,
    validate_data_structure slides_config data = Return errors /\
    validate_slide data [] config = Return added /\
    validate_data_structure (add_slide_config slides_config config) data = Return (errors ++ added).
Proof.
  exists (flat_map (slide_errors data) slides_config), (slide_errors data config).
  split; [ apply validate_data_structure_flat | ].
  split; [ by rewrite validate_slide_appends | ].
  unfold add_slide_config. rewrite validate_data_structure_flat, flat_map_app. cbn [flat_map].
  by rewrite app_nil_r.
Qed.

(** ** Paths compose *)

(** X5. Looking up [a.b] is looking up [a] and then [b] in what was found;
    a miss on the way reads as None and stays None. *)
Theorem get_json_value_by_path_compose (data : json) (a b : string) :
  get_json_value_by_path data (a +:+ String "." b) =
    (found ← get_json_value_by_path data a; get_json_value_by_path found b).
Proof.
  rewrite !get_json_value_by_path_walk, split_join, walk_app.
  destruct (walk data (split "." a)) as [found|e]; cbn [mbind outcome_bind].
  - by rewrite get_json_value_by_path_walk.
  - rewrite get_json_value_by_path_walk.
    pose proof (split_not_nil "." b) as Hne.
    destruct (split "." b) as [|key keys]; [ done | reflexivity ].
Qed.

(** ** What the validation messages mean (template_config.py) *)

Lemma is_None_spec (value : json) : is_None value = true <-> value = JNull.
Proof. destruct value; split; done. Qed.

Lemma is_None_false (value : json) : is_None value = false <-> value <> JNull.
Proof. destruct value; split; done. Qed.

(** The message of one placeholder, by the branch that wrote it. *)
Lemma placeholder_errors_In (data : json) (placeholder : PlaceholderMapping) (e : string) :
  In e (placeholder_errors data placeholder) ->
  exists value,
    get_json_value_by_path data (json_path placeholder) = Return value /\
    ((value = JNull /\ e = "Missing data for path: " +:+ json_path placeholder) \/
     (value <> JNull /\ is_list value = false /\ content_type placeholder = TABLE /\
      e = "Table data must be a list: " +:+ json_path placeholder) \/
     (value <> JNull /\ is_list value = false /\ content_type placeholder = BULLET_LIST /\
      e = "Bullet list data must be a list: " +:+ json_path placeholder)).
Proof.
  unfold placeholder_errors, validate_placeholder.
  destruct (get_json_value_by_path_returns data (json_path placeholder)) as [value Hget].
  rewrite Hget. cbn [mbind outcome_bind]. intros Hin. exists value. split; [ done | ].
  destruct (is_None value) eqn:Hnone.
  { apply is_None_spec in Hnone. destruct Hin as [<- | []]. by left. }
  apply is_None_false in Hnone.
  destruct (bool_decide (content_type placeholder = TABLE) && negb (is_list value)) eqn:Htable.
  { apply andb_prop in Htable as [Hct Hlist]. apply bool_decide_eq_true in Hct.
    apply negb_true_iff in Hlist. destruct Hin as [<- | []]. right. by left. }
  destruct (bool_decide (content_type placeholder = BULLET_LIST) && negb (is_list value)) eqn:Hbullet.
  { apply andb_prop in Hbullet as [Hct Hlist]. apply bool_decide_eq_true in Hct.
    apply negb_true_iff in Hlist. destruct Hin as [<- | []]. right. by right. }
  destruct Hin.
Qed.

Lemma placeholder_errors_nil (data : json) (placeholder : PlaceholderMapping) :
  placeholder_errors data placeholder = [] <-> placeholder_valid data placeholder.
Proof.
  unfold placeholder_errors, validate_placeholder, placeholder_valid.
  destruct (get_json_value_by_path_returns data (json_path placeholder)) as [value Hget].
  rewrite Hget. cbn [mbind outcome_bind]. split.
  - intros Hnil. exists value. split; [ done | ].
    destruct (is_None value) eqn:Hnone; [ done | ]. apply is_None_false in Hnone.
    split; [ done | ]. intros Hct.
    destruct (is_list value); [ done | ].
    destruct Hct as [Hct | Hct]; rewrite Hct in Hnil; cbn in Hnil; [ done | ].
    by destruct (bool_decide (BULLET_LIST = TABLE)).
  - intros (value' & [= <-] & Hnn & Hlist). apply is_None_false in Hnn. rewrite Hnn.
    destruct (bool_decide (content_type placeholder = TABLE)) eqn:Htable.
    { apply bool_decide_eq_true in Htable. rewrite Hlist by (by left).
      cbn [negb andb]. by rewrite ?andb_false_r. }
    destruct (bool_decide (content_type placeholder = BULLET_LIST)) eqn:Hbullet.
    { apply bool_decide_eq_true in Hbullet. rewrite Hlist by (by right).
      cbn [negb andb]. by rewrite ?andb_false_r. }
    reflexivity.
Qed.

Lemma flat_map_nil {A B : Type} (f : A -> list B) (l : list A) :
  flat_map f l = [] <-> Forall (fun x => f x = []) l.
Proof.
  induction l as [|x l IH]; cbn [flat_map].
  - split; [ constructor | done ].
  - split.
    + intros [Hx Hl]%app_eq_nil. constructor; [ done | by apply IH ].
    + intros Hall. apply Forall_cons in Hall as [-> Hl]. by apply IH.
Qed.

Lemma slide_errors_nil (data : json) (slide_config : SlideConfig) :
  slide_errors data slide_config = [] <-> slide_valid data slide_config.
Proof.
  unfold slide_valid.
  destruct (get_json_value_by_path_returns data (block_path slide_config)) as [block Hblock].
  destruct (is_None block) eqn:Hnone.
  - apply is_None_spec in Hnone. subst block. rewrite (slide_errors_missing _ _ Hblock).
    split; [ done | ]. intros [(block & Hget & Hnn) _]. congruence.
  - apply is_None_false in Hnone. rewrite (slide_errors_present _ _ _ Hblock Hnone), flat_map_nil.
    split.
    + intros Hall. split; [ by exists block | ].
      eapply Forall_impl; [ exact Hall | ]. intros placeholder. apply placeholder_errors_nil.
    + intros [_ Hall]. eapply Forall_impl; [ exact Hall | ]. intros placeholder.
      apply placeholder_errors_nil.
Qed.

(** X6. The validation returns no message exactly for the records in which
    every configured slide has a block that is not None and every
    placeholder path of it leads to a value that is not None, a list for
    a table and for a bullet list. *)
Theorem validate_data_structure_empty_iff (slides_config : list SlideConfig) (data : json) :
  validate_data_structure slides_config data = Return [] <->
  Forall (slide_valid data) slides_config.
Proof.
  rewrite validate_data_structure_flat. split.
  - intros [= Hnil]. apply flat_map_nil in Hnil.
    eapply Forall_impl; [ exact Hnil | ]. intros slide_config. apply slide_errors_nil.
  - intros Hall. f_equal. apply flat_map_nil.
    eapply Forall_impl; [ exact Hall | ]. intros slide_config. apply slide_errors_nil.
Qed.

Lemma list_message_prefixes (p q : string) :
  "Table data must be a list: " +:+ p <> "Missing slide data for: " +:+ q /\
  "Table data must be a list: " +:+ p <> "Bullet list data must be a list: " +:+ q /\
  "Bullet list data must be a list: " +:+ p <> "Missing slide data for: " +:+ q /\
  ("Table data must be a list: " +:+ p = "Table data must be a list: " +:+ q -> p = q) /\
  ("Bullet list data must be a list: " +:+ p = "Bullet list data must be a list: " +:+ q -> p = q).
Proof.
  repeat split; intros H; cbv [String.append] in H; try discriminate; by simplify_eq.
Qed.

(** X7. No message without its cause: a message about a path names the path
    of a configured placeholder whose slide block is present; "Missing
    data" means the path leads to None or nowhere, and the two "must be a
    list" messages mean the placeholder has that content type and the
    path leads to something that is neither None nor a list. *)
Theorem validate_data_structure_messages_sound (slides_config : list SlideConfig) (data : json)
    (errors : list string) (path : string)
    (Hrun : validate_data_structure slides_config data = Return errors) :
  let configured (claim : PlaceholderMapping -> json -> Prop) :=
    exists slide_config placeholder value,
      In slide_config slides_config /\ In placeholder (placeholders slide_config) /\
      get_json_value_by_path data (block_path slide_config) <> Return JNull /\
      json_path placeholder = path /\
      get_json_value_by_path data path = Return value /\ claim placeholder value in
  (In ("Missing data for path: " +:+ path) errors ->
   configured (fun _ value => value = JNull)) /\
  (In ("Table data must be a list: " +:+ path) errors ->
   configured (fun placeholder value =>
     content_type placeholder = TABLE /\ value <> JNull /\ is_list value = false)) /\
  (In ("Bullet list data must be a list: " +:+ path) errors ->
   configured (fun placeholder value =>
     content_type placeholder = BULLET_LIST /\ value <> JNull /\ is_list value = false)).
Proof.
  rewrite validate_data_structure_flat in Hrun. injection Hrun as <-.
  assert (forall e, In e (flat_map (slide_errors data) slides_config) ->
            (forall key, e <> "Missing slide data for: " +:+ key) ->
            exists slide_config placeholder,
              In slide_config slides_config /\ In placeholder (placeholders slide_config) /\
              get_json_value_by_path data (block_path slide_config) <> Return JNull /\
              In e (placeholder_errors data placeholder)) as Horigin.
  { intros e (slide_config & Hslide & He)%in_flat_map Hkind.
    destruct (get_json_value_by_path_returns data (block_path slide_config)) as [block Hblock].
    destruct (is_None block) eqn:Hnone.
    - apply is_None_spec in Hnone. subst block. rewrite (slide_errors_missing _ _ Hblock) in He.
      destruct He as [<- | []]. by destruct (Hkind (slide_key slide_config)).
    - apply is_None_false in Hnone. rewrite (slide_errors_present _ _ _ Hblock Hnone) in He.
      apply in_flat_map in He as (placeholder & Hplaceholder & He).
      exists slide_config, placeholder. repeat split; [ done | done | congruence | done ]. }
  pose proof missing_data_message_inj as Hmissing.
  pose proof list_message_prefixes as Hlist.
  cbv zeta. repeat split.
  - intros Hin. destruct (Horigin _ Hin) as (slide_config & placeholder & Hs & Hp & Hb & He).
    { intros key. apply (Hmissing path key). }
    apply placeholder_errors_In in He as (value & Hget & Hcase).
    exists slide_config, placeholder, value.
    destruct Hcase as [[-> He] | [(_ & _ & _ & He) | (_ & _ & _ & He)]].
    + apply (Hmissing path) in He. by subst path.
    + by apply (Hmissing path) in He.
    + by apply (Hmissing path) in He.
  - intros Hin. destruct (Horigin _ Hin) as (slide_config & placeholder & Hs & Hp & Hb & He).
    { intros key. apply (Hlist path key). }
    apply placeholder_errors_In in He as (value & Hget & Hcase).
    exists slide_config, placeholder, value.
    destruct Hcase as [[-> He] | [(Hnn & Hl & Hct & He) | (_ & _ & _ & He)]].
    + symmetry in He. by apply (Hmissing (json_path placeholder) path) in He.
    + apply (Hlist path) in He. by subst path.
    + by apply (Hlist path) in He.
  - intros Hin. destruct (Horigin _ Hin) as (slide_config & placeholder & Hs & Hp & Hb & He).
    { intros key. apply (Hlist path key). }
    apply placeholder_errors_In in He as (value & Hget & Hcase).
    exists slide_config, placeholder, value.
    destruct Hcase as [[-> He] | [(_ & _ & _ & He) | (Hnn & Hl & Hct & He)]].
    + symmetry in He. by apply (Hmissing (json_path placeholder) path) in He.
    + symmetry in He. by apply (Hlist (json_path placeholder) path) in He.
    + apply (Hlist path) in He. by subst path.
Qed.

(** The impact slide of the default configuration with a table that is a
    string. *)
Lemma validate_data_structure_messages_sound_witness :
  exists slide_config placeholder value,
    In slide_config _create_default_config /\ In placeholder (placeholders slide_config) /\
    get_json_value_by_path string_table_record (block_path slide_config) <> Return JNull /\
    json_path placeholder = "presentation_data.impact_slide.table_data" /\
    get_json_value_by_path string_table_record "presentation_data.impact_slide.table_data"
      = Return value /\
    content_type placeholder = TABLE /\ value <> JNull /\ is_list value = false.
Proof.
  refine (proj1 (proj2 (validate_data_structure_messages_sound _create_default_config
                          string_table_record
                          (flat_map (slide_errors string_table_record) _create_default_config)
                          "presentation_data.impact_slide.table_data"
                          (validate_data_structure_flat _ _))) _).
  vm_compute. repeat (first [ left; reflexivity | right ]).
Defined.

(** ** The theme colours (template_analyzer.py) *)

Lemma for_each_app {A S : Type} (a b : list A) (body : S -> A -> outcome S) (s : S) :
  for_each (a ++ b) body s = (s' ← for_each a body s; for_each b body s').
Proof.
  revert s. induction a as [|x a IH]; intros s; cbn [app for_each]; [ done | ].
  destruct (body s x) as [s'|e]; cbn [mbind outcome_bind]; [ apply IH | done ].
Qed.

(** A split has a second piece exactly when the separator occurs. *)
Lemma split_second (sep : ascii) (s : string) :
  In sep (list_ascii_of_string s) -> exists first second rest, split sep s = first :: second :: rest.
Proof.
  induction s as [|c s IH]; cbn [list_ascii_of_string In]; [ done | ]. intros Hin.
  unfold split; fold split. destruct (Ascii.eqb_spec c sep) as [-> | Hne].
  - pose proof (split_not_nil sep s) as Hnil.
    destruct (split sep s) as [|x xs]; [ done | ]. by eexists _, _, _.
  - destruct Hin as [Heq | Hin]; [ done | ].
    destruct (IH Hin) as (first & second & rest & ->). by eexists _, _, _.
Qed.

Lemma tag_local_name_returns (e : element) :
  returns (tag_local_name e) <-> In "}"%char (list_ascii_of_string (tag e)).
Proof.
  unfold tag_local_name. split.
  - intros [name Hname].
    destruct (in_dec ascii_dec "}"%char (list_ascii_of_string (tag e))) as [Hin | Hout]; [ done | ].
    by rewrite (split_without_separator _ _ Hout) in Hname.
  - intros Hin. destruct (split_second _ _ Hin) as (first & second & rest & ->). by eexists.
Qed.

Lemma tag_local_name_raises (e : element) (err : exn) :
  tag_local_name e = Raise err -> err = IndexError.
Proof.
  unfold tag_local_name. destruct (split "}" (tag e)) as [|first [|second rest]]; congruence.
Qed.

Lemma theme_color_returns (color_scheme : gmap string (option string)) (e : element) :
  (returns (theme_color color_scheme e) <-> returns (tag_local_name e)) /\
  (forall err, theme_color color_scheme e = Raise err -> err = IndexError).
Proof.
  unfold theme_color. destruct (tag_local_name e) as [name|err] eqn:Hname; cbn [mbind outcome_bind].
  - split; [ split; intros _; by eexists | done ].
  - split; [ split; intros [? ?]; done | ]. intros err' [= <-].
    by apply (tag_local_name_raises e).
Qed.

Lemma theme_colors_return (elements : list element) (color_scheme : gmap string (option string)) :
  (returns (for_each elements theme_color color_scheme) <->
   Forall (fun e => In "}"%char (list_ascii_of_string (tag e))) elements) /\
  (forall err, for_each elements theme_color color_scheme = Raise err -> err = IndexError).
Proof.
  revert color_scheme. induction elements as [|e elements IH]; intros color_scheme; cbn [for_each].
  - split; [ split; [ constructor | by eexists ] | done ].
  - destruct (theme_color_returns color_scheme e) as [Hreturns Hraises].
    rewrite tag_local_name_returns in Hreturns.
    destruct (theme_color color_scheme e) as [color_scheme'|err] eqn:Hstep; cbn [mbind outcome_bind].
    + destruct (IH color_scheme') as [IHreturns IHraises]. split; [ | exact IHraises ].
      rewrite IHreturns. split.
      * intros Hall. constructor; [ apply Hreturns; by eexists | done ].
      * by intros [_ Hall]%Forall_cons.
    + split; [ | intros err' [= <-]; by apply Hraises ].
      split; [ by intros [? ?] | ].
      intros [Hin _]%Forall_cons. apply Hreturns in Hin as [? ?]. done.
Qed.

(** X8. The analysis of a theme fails in one way only: a child of the colour
    scheme whose tag has no namespace stops it with an IndexError, and
    then no analysis is written.  A theme without a colour scheme gives
    the empty one. *)
Theorem analyze_theme_returns (theme_root presentation_root : element) :
  match find_path theme_root drawingml "themeElements" "clrScheme" with
  | None =>
      exists analysis, analyze_theme theme_root presentation_root = Return analysis /\
        analysis_color_scheme analysis = ∅
  | Some clr_scheme_element =>
      (returns (analyze_theme theme_root presentation_root) <->
       Forall (fun e => In "}"%char (list_ascii_of_string (tag e)))
              (children clr_scheme_element)) /\
      (~ returns (analyze_theme theme_root presentation_root) ->
       analyze_theme theme_root presentation_root = Raise IndexError)
  end.
Proof.
  unfold analyze_theme, theme_color_scheme.
  destruct (find_path theme_root drawingml "themeElements" "clrScheme") as [clr|].
  - destruct (theme_colors_return (children clr) ∅) as [Hreturns Hraises].
    destruct (for_each (children clr) theme_color ∅) as [color_scheme|err];
      cbn [mbind outcome_bind].
    + split; [ | intros Hnot; destruct Hnot; by eexists ].
      rewrite <- Hreturns. split; intros _; by eexists.
    + split; [ | intros _; by rewrite (Hraises err eq_refl) ].
      rewrite <- Hreturns. split; intros [? ?]; done.
  - cbn [mbind outcome_bind]. by eexists.
Qed.

Lemma theme_colors_keep (name : string) (elements : list element)
    (color_scheme color_scheme' : gmap string (option string)) :
  Forall (fun e => tag_local_name e <> Return name) elements ->
  for_each elements theme_color color_scheme = Return color_scheme' ->
  color_scheme' !! name = color_scheme !! name.
Proof.
  intros Hall. revert color_scheme.
  induction Hall as [|e elements Hname _ IH]; intros color_scheme; cbn [for_each].
  - by intros [= <-].
  - destruct (theme_color color_scheme e) as [next|err] eqn:Hstep; cbn [mbind outcome_bind];
      [ | done ].
    intros Hrest. rewrite (IH _ Hrest). unfold theme_color in Hstep.
    destruct (tag_local_name e) as [other|err]; cbn [mbind outcome_bind] in Hstep; [ | done ].
    assert (other <> name) as Hother by congruence. injection Hstep as <-.
    destruct (find e drawingml "sysClr"), (find e drawingml "srgbClr");
      by rewrite ?lookup_insert_ne by done.
Qed.

(** X9. How a colour of the theme is read: the system colour's [lastClr]
    where the element has a system colour, also when it has an sRGB colour
    as well and also when [lastClr] is missing (the entry is then None);
    the sRGB colour's [val] otherwise.  The last element of a name
    decides. *)
Theorem theme_color_scheme_entry (root clr_scheme_element color_element : element)
    (before after : list element) (name : string) (color_scheme : gmap string (option string)) :
  find_path root drawingml "themeElements" "clrScheme" = Some clr_scheme_element ->
  children clr_scheme_element = before ++ color_element :: after ->
  tag_local_name color_element = Return name ->
  Forall (fun e => tag_local_name e <> Return name) after ->
  theme_color_scheme root = Return color_scheme ->
  (forall sys_clr, find color_element drawingml "sysClr" = Some sys_clr ->
     color_scheme !! name = Some (attrib sys_clr !! "lastClr")) /\
  (forall srgb_clr, find color_element drawingml "sysClr" = None ->
     find color_element drawingml "srgbClr" = Some srgb_clr ->
     color_scheme !! name = Some (attrib srgb_clr !! "val")).
Proof.
  intros Hclr Hchildren Hname Hafter. unfold theme_color_scheme.
  rewrite Hclr, Hchildren, for_each_app.
  destruct (for_each before theme_color ∅) as [earlier|err]; cbn [mbind outcome_bind for_each];
    [ | done ].
  destruct (theme_color earlier color_element) as [next|err] eqn:Hstep; cbn [mbind outcome_bind];
    [ | done ].
  intros Hrest. rewrite (theme_colors_keep name _ _ _ Hafter Hrest).
  unfold theme_color in Hstep. rewrite Hname in Hstep. cbn [mbind outcome_bind] in Hstep.
  injection Hstep as <-. split.
  - intros sys_clr ->. by rewrite lookup_insert_eq.
  - intros srgb_clr -> ->. by rewrite lookup_insert_eq.
Qed.

(** The dark colour of the small theme is its system colour's last value. *)
Lemma theme_color_scheme_entry_witness :
  exists sys_clr,
    find small_dark drawingml "sysClr" = Some sys_clr /\
    attrib sys_clr !! "val" = Some "windowText" /\
    (<["accent1" := Some "4472C4"]> (<["dk1" := Some "000000"]> ∅) : gmap string (option string))
      !! "dk1" = Some (attrib sys_clr !! "lastClr").
Proof.
  exists (Element (qualified drawingml "sysClr")
            (<["val" := "windowText"]> (<["lastClr" := "000000"]> ∅)) []).
  split; [ vm_compute; reflexivity | ]. split; [ vm_compute; reflexivity | ].
  apply (proj1 (theme_color_scheme_entry small_theme small_colors small_dark [] [ small_accent ]
                  "dk1" (<["accent1" := Some "4472C4"]> (<["dk1" := Some "000000"]> ∅))
                  ltac:(vm_compute; reflexivity) eq_refl ltac:(vm_compute; reflexivity)
                  ltac:(repeat constructor; vm_compute; discriminate)
                  ltac:(vm_compute; reflexivity))).
  vm_compute. reflexivity.
Defined.

(** ** Hex colours (design_properties_extractor.py, enhanced_presentation_generator.py) *)

Lemma lstrip_hash_idempotent (s : string) : lstrip_hash (lstrip_hash s) = lstrip_hash s.
Proof.
  induction s as [|c s IH]; [ done | ]. cbn [lstrip_hash].
  destruct (Ascii.eqb_spec c "#") as [-> | Hne]; [ exact IH | ].
  assert (lstrip_hash (String c s) = String c s) as Hkeep.
  { destruct c as [[] [] [] [] [] [] [] []]; try reflexivity. by destruct Hne. }
  change (match c with | "#"%char => lstrip_hash s | _ => String c s end)
    with (lstrip_hash (String c s)).
  by rewrite !Hkeep.
Qed.

Lemma substring_short (s : string) (i : nat) :
  (String.length s <= i)%nat -> String.substring i 2 s = "".
Proof.
  revert i. induction s as [|c s IH]; intros i Hlen; cbn [String.length] in Hlen.
  - by destruct i.
  - destruct i as [|i]; [ lia | ]. cbn [String.substring]. apply IH. lia.
Qed.

Lemma substring_append (s extra : string) (i n : nat) :
  (i + n <= String.length s)%nat ->
  String.substring i n (s +:+ extra) = String.substring i n s.
Proof.
  revert i n. induction s as [|c s IH]; intros i n Hlen; cbn [String.length] in Hlen.
  - assert (i = 0 /\ n = 0)%nat as [-> ->] by lia. by destruct extra.
  - change (String c s +:+ extra) with (String c (s +:+ extra)). destruct i as [|i].
    + destruct n as [|n]; [ done | ]. cbn [String.substring]. f_equal. apply IH. lia.
    + cbn [String.substring]. apply IH. lia.
Qed.

Lemma outcome_bind_Raise {A B} (m : outcome A) (f : A -> outcome B) (e : exn) :
  (forall a, f a = Raise e) -> (forall e', m = Raise e' -> e' = e) -> m ≫= f = Raise e.
Proof. intros Hf Hm. destruct m as [a|e']; cbn; [ apply Hf | by rewrite (Hm e' eq_refl) ]. Qed.

Lemma int_base16_raises (s : string) (e : exn) : int_base16 s = Raise e -> e = ValueError.
Proof.
  unfold int_base16. destruct s; [ congruence | ].
  destruct (hex_digits 0 (String a s)); congruence.
Qed.

Lemma hex_to_rgb_raises (hex_color : string) (e : exn) :
  hex_to_rgb hex_color = Raise e -> e = ValueError.
Proof.
  unfold hex_to_rgb.
  destruct (int_base16 (slice2 (lstrip_hash hex_color) 0)) as [r|e1] eqn:Hr; cbn [mbind outcome_bind];
    [ | intros [= <-]; by apply int_base16_raises in Hr ].
  destruct (int_base16 (slice2 (lstrip_hash hex_color) 2)) as [g|e2] eqn:Hg; cbn [mbind outcome_bind];
    [ | intros [= <-]; by apply int_base16_raises in Hg ].
  destruct (int_base16 (slice2 (lstrip_hash hex_color) 4)) as [b|e3] eqn:Hb; cbn [mbind outcome_bind];
    [ done | intros [= <-]; by apply int_base16_raises in Hb ].
Qed.

Lemma is_hex6_unstripped (c : string) : is_hex6 c = true -> lstrip_hash c = c /\ String.length c = 6%nat.
Proof.
  unfold is_hex6. intros [Hhex Hlen%Nat.eqb_eq]%andb_prop. split; [ | done ].
  destruct c as [|c1 rest]; [ done | ]. cbn [all_hex] in Hhex.
  destruct (hex_digit c1) eqn:H1; [ | done ].
  destruct c1 as [[] [] [] [] [] [] [] []]; try reflexivity. discriminate H1.
Qed.

(** X11. What the colour parser takes and what it does not: any number of
    leading '#' is dropped; a colour of fewer than five characters after
    that, the three-digit shorthand among them, is a ValueError, the only
    error there is; and whatever follows six digits is ignored, the alpha
    channel of an eight-digit colour for one. *)
Theorem hex_to_rgb_forms (hex_color : string) :
  hex_to_rgb (String "#" hex_color) = hex_to_rgb hex_color /\
  ((String.length (lstrip_hash hex_color) < 5)%nat -> hex_to_rgb hex_color = Raise ValueError) /\
  (forall e, hex_to_rgb hex_color = Raise e -> e = ValueError) /\
  (is_hex6 hex_color = true ->
   forall extra, hex_to_rgb (hex_color +:+ extra) = hex_to_rgb hex_color /\
                 returns (hex_to_rgb hex_color)).
Proof.
  split; [ reflexivity | ]. split; [ | split; [ apply hex_to_rgb_raises | ] ].
  - intros Hshort. unfold hex_to_rgb.
    assert (int_base16 (slice2 (lstrip_hash hex_color) 4) = Raise ValueError) as Hb.
    { unfold slice2. rewrite substring_short by lia. reflexivity. }
    apply outcome_bind_Raise; [ | apply int_base16_raises ]. intros r.
    apply outcome_bind_Raise; [ | apply int_base16_raises ]. intros g.
    by rewrite Hb.
  - intros Hhex extra. destruct (is_hex6_unstripped _ Hhex) as [Hstrip Hlen]. split.
    + unfold hex_to_rgb.
      assert (lstrip_hash (hex_color +:+ extra) = hex_color +:+ extra) as ->.
      { destruct hex_color as [|c1 rest]; [ done | ]. cbn [String.append lstrip_hash] in *.
        destruct c1 as [[] [] [] [] [] [] [] []]; try reflexivity.
        unfold is_hex6 in Hhex. cbn in Hhex. done. }
      rewrite Hstrip. unfold slice2. by rewrite !substring_append by lia.
    + destruct (hex_to_rgb_hex6 _ Hhex) as (r & g & b & _ & _ & _ & Hrgb & _). by eexists.
Qed.

(** ** The colour scheme (design_properties_extractor.py) *)

Lemma categorize_palette_color_step (lib : colorsys) (colors_by_category : gmap string (list palette_color))
    (color_info : string * Z) (next : gmap string (list palette_color)) :
  categorize_palette_color lib colors_by_category color_info = Return next ->
  exists color, analysed_as lib color_info color /\
    next = <[category (analysis color) :=
               default [] (colors_by_category !! category (analysis color)) ++ [color]]>
             colors_by_category.
Proof.
  unfold categorize_palette_color, analysed_as. destruct color_info as [hex_color frequency].
  cbn [fst snd].
  destruct (categorize_color lib hex_color) as [a|e] eqn:Ha; cbn [mbind outcome_bind]; [ | done ].
  destruct (hex_to_rgb hex_color) as [rgb|e] eqn:Hrgb; cbn [mbind outcome_bind]; [ | done ].
  intros [= <-]. by eexists {| analysis := a; hex := hex_color; frequency := frequency; rgb := rgb |}.
Qed.

Lemma categorize_color_parses (lib : colorsys) (hex_color : string) :
  returns (categorize_color lib hex_color) -> returns (hex_to_rgb hex_color).
Proof.
  unfold categorize_color. intros [a Ha].
  destruct (hex_to_rgb hex_color) as [rgb|e]; [ by eexists | done ].
Qed.

Lemma categorize_palette_color_returns (lib : colorsys)
    (colors_by_category : gmap string (list palette_color)) (color_info : string * Z) :
  returns (categorize_palette_color lib colors_by_category color_info) <->
  returns (categorize_color lib color_info.1).
Proof.
  split.
  - intros [next (color & (_ & _ & Ha & _) & _)%categorize_palette_color_step]. by eexists.
  - intros Ha. destruct (categorize_color_parses _ _ Ha) as [rgb Hrgb]. destruct Ha as [a Ha].
    unfold categorize_palette_color. destruct color_info as [hex_color frequency].
    cbn [fst] in *. rewrite Ha, Hrgb. by eexists.
Qed.

(** The buckets after the loop: every category holds its colours in
    palette order, after what it held before. *)
Lemma palette_loop_buckets (lib : colorsys) (colors : list (string * Z))
    (before after : gmap string (list palette_color)) :
  for_each colors (categorize_palette_color lib) before = Return after ->
  exists analysed, Forall2 (analysed_as lib) colors analysed /\
    forall name, after !! name =
      match of_category name analysed with
      | [] => before !! name
      | added => Some (default [] (before !! name) ++ added)
      end.
Proof.
  revert before. induction colors as [|color_info colors IH]; intros before; cbn [for_each].
  - intros [= <-]. exists []. split; [ constructor | done ].
  - destruct (categorize_palette_color lib before color_info) as [next|e] eqn:Hstep;
      cbn [mbind outcome_bind]; [ | done ].
    apply categorize_palette_color_step in Hstep as (color & Hcolor & ->).
    intros (analysed & Hall & Hbuckets)%IH. exists (color :: analysed).
    split; [ by constructor | ]. intros name. rewrite Hbuckets.
    unfold of_category. cbn [List.filter]. fold (of_category name analysed).
    destruct (String.eqb_spec (category (analysis color)) name) as [<- | Hne].
    + rewrite lookup_insert_eq. cbn [default].
      destruct (of_category _ analysed) as [|c cs]; [ done | ].
      unfold id. by rewrite <- app_assoc.
    + by rewrite lookup_insert_ne.
Qed.

Lemma palette_loop_returns (lib : colorsys) (colors : list (string * Z))
    (before : gmap string (list palette_color)) :
  returns (for_each colors (categorize_palette_color lib) before) <->
  Forall (fun color_info => returns (categorize_color lib color_info.1)) colors.
Proof.
  revert before. induction colors as [|color_info colors IH]; intros before; cbn [for_each].
  - split; [ constructor | by eexists ].
  - pose proof (categorize_palette_color_returns lib before color_info) as Hstep.
    destruct (categorize_palette_color lib before color_info) as [next|e];
      cbn [mbind outcome_bind].
    + rewrite IH. split.
      * intros Hall. constructor; [ apply Hstep; by eexists | done ].
      * by intros [_ Hall]%Forall_cons.
    + split; [ by intros [? ?] | ]. intros [[? ?]%Hstep _]%Forall_cons. done.
Qed.

Lemma first_hex_of_bucket (analysed : list palette_color)
    (colors_by_category : gmap string (list palette_color)) (name fallback : string) :
  (forall name, colors_by_category !! name =
     match of_category name analysed with [] => None | added => Some added end) ->
  first_hex colors_by_category name fallback =
    Return (default fallback (hex <$> head (of_category name analysed))).
Proof.
  intros Hbuckets. unfold first_hex. rewrite Hbuckets.
  by destruct (of_category name analysed).
Qed.

Lemma bucket_of_category (analysed : list palette_color)
    (colors_by_category : gmap string (list palette_color)) (name : string) :
  (forall name, colors_by_category !! name =
     match of_category name analysed with [] => None | added => Some added end) ->
  default [] (colors_by_category !! name) = of_category name analysed.
Proof. intros Hbuckets. rewrite Hbuckets. by destruct (of_category name analysed). Qed.

(** The loop from the empty buckets, and what the scheme is made of. *)
Lemma extract_color_scheme_run (lib : colorsys) (palette : color_palette) (scheme : extracted_colors) :
  extract_color_scheme lib palette = Return scheme ->
  exists analysed, Forall2 (analysed_as lib) (most_common_colors palette) analysed /\
    scheme =
      {| primary_colors := take 3 (of_category "primary_green" analysed);
         secondary_colors := take 3 (of_category "secondary_green" analysed);
         neutral_colors := take 3 (of_category "neutral" analysed);
         light_colors := take 3 (of_category "light" analysed);
         dark_colors := take 3 (of_category "dark" analysed);
         accent_colors := take 2 (of_category "accent" analysed);
         scheme_total_unique_colors := total_unique_colors palette;
         scheme_color_consistency := color_consistency palette;
         dominant_color_family := "green";
         brand_colors :=
           list_to_map
             [ ("primary", default "#456446" (hex <$> head (of_category "primary_green" analysed)));
               ("secondary", default "#e7f3ec" (hex <$> head (of_category "light" analysed)));
               ("accent", default "#6f8770" (hex <$> head (of_category "secondary_green" analysed))) ] |}.
Proof.
  unfold extract_color_scheme.
  destruct (for_each (most_common_colors palette) (categorize_palette_color lib) ∅)
    as [colors_by_category|e] eqn:Hloop; cbn [mbind outcome_bind]; [ | done ].
  apply palette_loop_buckets in Hloop as (analysed & Hall & Hbuckets).
  assert (forall name, colors_by_category !! name =
            match of_category name analysed with [] => None | added => Some added end) as Hb.
  { intros name. rewrite Hbuckets, lookup_empty. by destruct (of_category name analysed). }
  rewrite !(first_hex_of_bucket analysed) by done. cbn [mbind outcome_bind].
  rewrite !(bucket_of_category analysed) by done.
  intros [= <-]. by exists analysed.
Qed.

(** X12. The six buckets of the colour scheme: each holds the colours of its
    category in the order of the palette, the first three of them (two
    for the accent colours), every colour with its own analysis, hex
    string, count and bytes. *)
Theorem extract_color_scheme_buckets (lib : colorsys) (palette : color_palette)
    (scheme : extracted_colors) :
  extract_color_scheme lib palette = Return scheme ->
  exists analysed, Forall2 (analysed_as lib) (most_common_colors palette) analysed /\
    primary_colors scheme = take 3 (of_category "primary_green" analysed) /\
    secondary_colors scheme = take 3 (of_category "secondary_green" analysed) /\
    neutral_colors scheme = take 3 (of_category "neutral" analysed) /\
    light_colors scheme = take 3 (of_category "light" analysed) /\
    dark_colors scheme = take 3 (of_category "dark" analysed) /\
    accent_colors scheme = take 2 (of_category "accent" analysed).
Proof.
  intros (analysed & Hall & ->)%extract_color_scheme_run. exists analysed. by repeat split.
Qed.

(** X13. The extraction of the colours goes through exactly when every colour
    of the palette can be categorised, as every six-digit colour can, its
    '#' or not; one colour that cannot be parsed leaves no scheme at
    all. *)
Theorem extract_color_scheme_returns (lib : colorsys) (palette : color_palette) :
  (returns (extract_color_scheme lib palette) <->
   Forall (fun color_info => returns (categorize_color lib color_info.1))
          (most_common_colors palette)) /\
  (Forall (fun color_info => is_hex6 (lstrip_hash color_info.1) = true)
          (most_common_colors palette) ->
   returns (extract_color_scheme lib palette)).
Proof.
  assert (returns (extract_color_scheme lib palette) <->
          Forall (fun color_info => returns (categorize_color lib color_info.1))
                 (most_common_colors palette)) as Hiff.
  { rewrite <- (palette_loop_returns lib _ ∅). unfold extract_color_scheme.
    destruct (for_each (most_common_colors palette) (categorize_palette_color lib) ∅)
      as [colors_by_category|e] eqn:Hloop; cbn [mbind outcome_bind].
    - split; [ intros _; by eexists | intros _ ].
      apply palette_loop_buckets in Hloop as (analysed & Hall & Hbuckets).
      assert (forall name, colors_by_category !! name =
                match of_category name analysed with [] => None | added => Some added end) as Hb.
      { intros name. rewrite Hbuckets, lookup_empty. by destruct (of_category name analysed). }
      rewrite !(first_hex_of_bucket analysed) by done. by eexists.
    - split; intros [? ?]; done. }
  split; [ exact Hiff | ]. intros Hhex. apply Hiff.
  eapply Forall_impl; [ exact Hhex | ]. intros [hex_color frequency] Hc. cbn [fst] in *.
  destruct (hex_to_rgb_hex6 _ Hc) as (r & g & b & Hr & Hg & Hb & Hrgb & _).
  destruct (rgb_to_hsl_returns lib r g b Hr Hg Hb) as [[[h s] l] Hhsl].
  assert (hex_to_rgb hex_color = Return (r, g, b)) as Hrgb'.
  { unfold hex_to_rgb in *. by rewrite lstrip_hash_idempotent in Hrgb. }
  rewrite (categorize_color_of_hsl _ _ _ _ _ _ Hrgb' Hhsl). by eexists.
Qed.

(** X14. From the image palette to the brand palette: the brand's primary
    colour is the first primary green of the palette, its secondary colour
    the first light colour and its accent the first secondary green, each
    with a fixed colour to fall back on; a colour the analysis calls an
    accent never becomes the brand's accent.  The text and background
    colours are fixed. *)
Theorem brand_palette_of_image_palette (lib : colorsys) (palette : color_palette)
    (scheme : extracted_colors) :
  extract_color_scheme lib palette = Return scheme ->
  exists analysed, Forall2 (analysed_as lib) (most_common_colors palette) analysed /\
    create_brand_guidelines (brand_colors scheme) =
      list_to_map
        [ ("primary", default "#456446" (hex <$> head (of_category "primary_green" analysed)));
          ("secondary", default "#e7f3ec" (hex <$> head (of_category "light" analysed)));
          ("accent", default "#6f8770" (hex <$> head (of_category "secondary_green" analysed)));
          ("text_dark", "#2d4a2e");
          ("text_light", "#ffffff");
          ("background", "#ffffff") ].
Proof.
  intros (analysed & Hall & ->)%extract_color_scheme_run. exists analysed.
  split; [ done | ]. unfold create_brand_guidelines. cbn [brand_colors].
  repeat f_equal.
Qed.

(** The leaf palette: its pale green is the one light colour, the two
    greens are primary greens in palette order, the sea green is a
    secondary green. *)
Lemma extract_color_scheme_buckets_witness :
  exists scheme analysed,
    extract_color_scheme colorsys_3_12 leaf_palette = Return scheme /\
    map hex analysed = [ "#e7f3ec"; "#00ff00"; "#2e8b57"; "#008000" ] /\
    map hex (primary_colors scheme) = [ "#00ff00"; "#008000" ] /\
    map hex (secondary_colors scheme) = [ "#2e8b57" ] /\
    map hex (light_colors scheme) = [ "#e7f3ec" ] /\
    accent_colors scheme = take 2 (of_category "accent" analysed).
Proof.
  destruct (extract_color_scheme colorsys_3_12 leaf_palette) as [scheme|e] eqn:Hrun;
    [ | vm_compute in Hrun; discriminate Hrun ].
  destruct (extract_color_scheme_buckets colorsys_3_12 leaf_palette scheme Hrun)
    as (analysed & Hall & _ & _ & _ & _ & _ & Haccent).
  exists scheme, analysed. split; [ reflexivity | ].
  vm_compute in Hrun. injection Hrun as <-.
  split; [ | by repeat split ].
  clear Haccent. unfold leaf_palette in Hall. cbn [most_common_colors] in Hall.
  apply Forall2_cons_inv_l in Hall as (c1 & rest1 & (H1 & _) & Hall & ->).
  apply Forall2_cons_inv_l in Hall as (c2 & rest2 & (H2 & _) & Hall & ->).
  apply Forall2_cons_inv_l in Hall as (c3 & rest3 & (H3 & _) & Hall & ->).
  apply Forall2_cons_inv_l in Hall as (c4 & rest4 & (H4 & _) & Hall & ->).
  apply Forall2_nil_inv_l in Hall as ->. cbn [map]. by rewrite H1, H2, H3, H4.
Defined.

(** The brand palette of the leaf palette. *)
Lemma brand_palette_of_image_palette_witness :
  exists scheme,
    extract_color_scheme colorsys_3_12 leaf_palette = Return scheme /\
    create_brand_guidelines (brand_colors scheme) !! "primary" = Some "#00ff00" /\
    create_brand_guidelines (brand_colors scheme) !! "secondary" = Some "#e7f3ec" /\
    create_brand_guidelines (brand_colors scheme) !! "accent" = Some "#2e8b57".
Proof.
  destruct (extract_color_scheme colorsys_3_12 leaf_palette) as [scheme|e] eqn:Hrun;
    [ | vm_compute in Hrun; discriminate Hrun ].
  destruct (brand_palette_of_image_palette colorsys_3_12 leaf_palette scheme Hrun)
    as (analysed & _ & _).
  exists scheme. split; [ reflexivity | ].
  vm_compute in Hrun. injection Hrun as <-. by vm_compute.
Defined.

(** ** Typography (design_properties_extractor.py) *)

Lemma first_available_find (fonts : odict) (current : option string) :
  first_available fonts current =
    default current (List.find truthy (map (fun kv => Some kv.2) fonts)).
Proof.
  induction fonts as [|[key value] fonts IH]; [ done | ]. cbn [first_available map List.find snd].
  destruct (truthy (Some value)); [ done | exact IH ].
Qed.

Lemma find_truthy (candidates : list (option string)) (found : option string) :
  List.find truthy candidates = Some found -> truthy found = true.
Proof. intros Hfind. by apply find_some in Hfind as [_ ?]. Qed.

(** The font of one role after the fallback loop: the first candidate of
    the role that is not empty, something empty without one. *)
Lemma role_font (fonts : odict) :
  let font := py_or (odict_get "latin" fonts) (odict_get "Jpan" fonts) in
  let font := if negb (truthy font) then first_available fonts font else font in
  match List.find truthy (role_candidates fonts) with
  | Some found => font = found
  | None => truthy font = false
  end.
Proof.
  cbv zeta. unfold role_candidates, py_or. cbn [app List.find]. rewrite first_available_find.
  destruct (truthy (odict_get "latin" fonts)) eqn:Hlatin.
  { by rewrite ?Hlatin. }
  destruct (truthy (odict_get "Jpan" fonts)) eqn:Hjpan.
  { by rewrite ?Hjpan. }
  rewrite ?Hjpan. cbn [negb].
  destruct (List.find truthy (map (fun kv => Some kv.2) fonts)) as [found|] eqn:Hfind; done.
Qed.

Lemma find_app {A} (f : A -> bool) (l k : list A) :
  List.find f (l ++ k) = match List.find f l with Some x => Some x | None => List.find f k end.
Proof. induction l as [|x l IH]; [ done | ]. cbn [app List.find]. by destruct (f x). Qed.

(** The primary font by role: the font of the major role when it has
    one, else the font of the minor role, else the fallback. *)
Lemma primary_font_by_role (font_scheme : font_scheme) :
  primary_font_family (extract_typography font_scheme) =
    match List.find truthy (role_candidates (majorFont font_scheme)) with
    | Some major => major
    | None =>
        match List.find truthy (role_candidates (minorFont font_scheme)) with
        | Some minor => minor
        | None => Some "Gothic A1"
        end
    end.
Proof.
  pose proof (role_font (majorFont font_scheme)) as Hmajor.
  pose proof (role_font (minorFont font_scheme)) as Hminor.
  cbv zeta in Hmajor, Hminor. unfold extract_typography.
  set (major_font := if negb (truthy (py_or _ _)) then first_available (majorFont font_scheme) _
                     else _) in *.
  set (minor_font := if negb (truthy (py_or _ _)) then first_available (minorFont font_scheme) _
                     else _) in *.
  clearbody major_font minor_font.
  destruct (List.find truthy (role_candidates (majorFont font_scheme))) as [major|] eqn:Hfmajor.
  - subst major_font. pose proof (find_truthy _ _ Hfmajor) as Htruthy. rewrite Htruthy.
    cbn [negb andb]. destruct (truthy minor_font); cbn [negb andb];
      [ destruct (bool_decide (major = minor_font)) | ]; cbn [negb primary_font_family];
      unfold py_or; by rewrite ?Htruthy.
  - rewrite Hmajor. cbn [negb andb].
    destruct (List.find truthy (role_candidates (minorFont font_scheme))) as [minor|] eqn:Hfminor.
    + subst minor_font. pose proof (find_truthy _ _ Hfminor) as Htruthy. rewrite Htruthy.
      cbn [negb primary_font_family]. unfold py_or. by rewrite Hmajor.
    + rewrite Hminor. reflexivity.
Qed.

(** X15. The primary font is the first candidate that is not empty: of the
    major font the [latin] entry, then [Jpan], then the first entry of
    any script; the same of the minor font; and 'Gothic A1' when the
    template names no font at all. *)
Theorem extract_typography_preference (font_scheme : font_scheme) :
  List.find truthy (font_candidates font_scheme) =
    Some (primary_font_family (extract_typography font_scheme)).
Proof.
  unfold font_candidates. rewrite !find_app, primary_font_by_role.
  destruct (List.find truthy (role_candidates (majorFont font_scheme))) as [major|];
    [ reflexivity | ].
  destruct (List.find truthy (role_candidates (minorFont font_scheme))) as [minor|];
    reflexivity.
Qed.

Lemma extract_typography_names_a_font_lemma (font_scheme : font_scheme) :
  exists name, name <> "" /\ primary_font_family (extract_typography font_scheme) = Some name.
Proof.
  assert (truthy (primary_font_family (extract_typography font_scheme)) = true) as Htruthy.
  { rewrite primary_font_by_role.
    destruct (List.find truthy (role_candidates (majorFont font_scheme))) as [major|] eqn:Hmajor;
      [ by apply find_truthy in Hmajor | ].
    destruct (List.find truthy (role_candidates (minorFont font_scheme))) as [minor|] eqn:Hminor;
      [ by apply find_truthy in Hminor | done ]. }
  destruct (primary_font_family (extract_typography font_scheme)) as [[|c name]|]; try done.
  by exists (String c name).
Qed.

(** X16. Whatever the template says, the typography names a primary font: a
    string that is not empty.  The font families are that font alone or
    that font and a different second one, no family empty. *)
Theorem extract_typography_names_a_font (font_scheme : font_scheme) :
  exists name,
    name <> "" /\
    primary_font_family (extract_typography font_scheme) = Some name /\
    (font_families (extract_typography font_scheme) = [ Some name ] \/
     exists second, second <> "" /\ second <> name /\
       font_families (extract_typography font_scheme) = [ Some name; Some second ]).
Proof.
  assert (forall font, truthy font = true -> exists name, name <> "" /\ font = Some name) as Hname.
  { intros [[|c name]|]; try done. intros _. by exists (String c name). }
  unfold extract_typography.
  set (major_font := if negb (truthy (py_or _ _)) then first_available (majorFont font_scheme) _
                     else _).
  set (minor_font := if negb (truthy (py_or _ _)) then first_available (minorFont font_scheme) _
                     else _).
  clearbody major_font minor_font.
  destruct (truthy major_font) eqn:Hmajor, (truthy minor_font) eqn:Hminor; cbn [negb andb].
  - destruct (Hname _ Hmajor) as (name & Hne & ->). destruct (Hname _ Hminor) as (second & Hne' & ->).
    case_bool_decide as Hsame; cbn [negb primary_font_family font_families].
    + unfold py_or. cbn [truthy]. destruct name; [ done | ]. exists (String a name).
      split; [ done | ]. split; [ done | by left ].
    + exists name. split; [ done | ]. split; [ done | ]. right. exists second.
      split; [ done | ]. split; [ congruence | done ].
  - destruct (Hname _ Hmajor) as (name & Hne & ->). cbn [primary_font_family font_families].
    unfold py_or. rewrite Hmajor. exists name. split; [ done | ]. split; [ done | by left ].
  - destruct (Hname _ Hminor) as (name & Hne & ->). cbn [primary_font_family font_families].
    unfold py_or. rewrite Hmajor. exists name. split; [ done | ]. split; [ done | by left ].
  - cbn [primary_font_family font_families]. exists "Gothic A1".
    split; [ done | ]. split; [ done | by left ].
Qed.

(** X17. The sizes do not come from the template: five categories from title
    (44) down to caption (14), each with one entry that carries the
    primary font and its size twice, whatever fonts the template has. *)
Theorem extract_typography_hierarchy (font_scheme : font_scheme) (category : string) (size : Z) :
  let typography := extract_typography font_scheme in
  recommended_sizes typography =
    [ ("title", 44); ("heading", 32); ("subheading", 24); ("body", 18); ("caption", 14) ] /\
  total_font_variations typography = 5%nat /\
  size_range typography = (14, 44) /\
  (In (category, size) (recommended_sizes typography) ->
   font_hierarchy typography !! category =
     Some [ {| entry_name := primary_font_family typography; entry_size := size;
               entry_size_pt := size |} ]).
Proof.
  cbv zeta. unfold extract_typography.
  set (major_font := if negb (truthy (py_or _ _)) then first_available (majorFont font_scheme) _
                     else _).
  set (minor_font := if negb (truthy (py_or _ _)) then first_available (minorFont font_scheme) _
                     else _).
  clearbody major_font minor_font.
  set (choice := if negb (truthy major_font) && negb (truthy minor_font) then _ else _).
  clearbody choice. destruct choice as [primary_font families].
  cbn [fold_left recommended_sizes total_font_variations size_range font_hierarchy
       primary_font_family app length map entry_size].
  split; [ done | ]. split; [ done | ]. split; [ done | ].
  intros Hin. cbn [In] in Hin.
  destruct Hin as [[= <- <-] | [[= <- <-] | [[= <- <-] | [[= <- <-] | [[= <- <-] | []]]]]];
    vm_compute; reflexivity.
Qed.

(** ** From the theme to the typography *)

Lemma odict_get_set (key key' value : string) (d : odict) :
  odict_get key' (odict_set key value d) =
    if String.eqb key key' then Some value else odict_get key' d.
Proof.
  unfold odict_get. induction d as [|[k v] d IH]; cbn [odict_set].
  - cbn [List.find fst]. by destruct (String.eqb key key').
  - destruct (String.eqb_spec k key) as [-> | Hne]; cbn [List.find fst].
    + by destruct (String.eqb key key').
    + destruct (String.eqb_spec k key') as [-> | Hne'].
      * by destruct (String.eqb_spec key key').
      * exact IH.
Qed.

(** A font element that does not write a key leaves the entry of the key. *)
Lemma theme_fonts_keep (key : string) (fonts : list element) (d : odict) :
  Forall (fun font => attrib font !! "script" <> Some key /\
                      (key = "latin" -> attrib font !! "script" = None ->
                       ends_with "latin" (tag font) = false)) fonts ->
  odict_get key (fold_left theme_font fonts d) = odict_get key d.
Proof.
  intros Hfonts. revert d. induction Hfonts as [|font fonts [Hscript Hlatin] _ IH]; intros d;
    [ done | ].
  cbn [fold_left]. rewrite IH. unfold theme_font.
  destruct (attrib font !! "typeface") as [typeface|]; [ | done ].
  destruct (attrib font !! "script") as [script|] eqn:Hs.
  - rewrite odict_get_set. destruct (String.eqb_spec script key); [ congruence | done ].
  - destruct (ends_with "latin" (tag font)) eqn:Hends; [ | done ].
    rewrite odict_get_set. destruct (String.eqb_spec "latin" key) as [Heq | Hne]; [ | done ].
    symmetry in Heq. specialize (Hlatin Heq eq_refl). congruence.
Qed.

(** X10. The Latin typeface of the theme's major font, when it is not empty,
    is the primary font of the typography, whatever other scripts the
    theme lists and whatever its minor font is.  The Latin element is the
    one without a script attribute whose tag ends in 'latin'; a later
    element under the script 'latin' would replace it. *)
Theorem theme_latin_font_is_primary (root font_scheme_element major latin : element)
    (before after : list element) (typeface : string) :
  find_path root drawingml "themeElements" "fontScheme" = Some font_scheme_element ->
  find font_scheme_element drawingml "majorFont" = Some major ->
  children major = before ++ latin :: after ->
  ends_with "latin" (tag latin) = true ->
  attrib latin !! "script" = None ->
  attrib latin !! "typeface" = Some typeface ->
  typeface <> "" ->
  Forall (fun font => attrib font !! "script" <> Some "latin" /\
                      ends_with "latin" (tag font) = false) after ->
  odict_get "latin" (majorFont (theme_font_scheme root)) = Some typeface /\
  primary_font_family (extract_typography (theme_font_scheme root)) = Some typeface.
Proof.
  intros Hscheme Hmajor Hchildren Hends Hscript Htypeface Hne Hafter.
  assert (odict_get "latin" (majorFont (theme_font_scheme root)) = Some typeface) as Hlatin.
  { unfold theme_font_scheme. cbn [majorFont]. rewrite Hscheme. unfold theme_fonts.
    rewrite Hmajor, Hchildren, fold_left_app. cbn [fold_left].
    rewrite theme_fonts_keep.
    - unfold theme_font at 1. rewrite Htypeface, Hscript, Hends, odict_get_set.
      by rewrite String.eqb_refl.
    - eapply Forall_impl; [ exact Hafter | ]. intros font [Hs He]. by split. }
  split; [ exact Hlatin | ].
  rewrite primary_font_by_role. unfold role_candidates at 1. cbn [app List.find].
  rewrite Hlatin.
  assert (truthy (Some typeface) = true) as -> by (by destruct typeface).
  reflexivity.
Qed.

(** The small theme: 'Gothic A1' although a Japanese typeface follows. *)
Lemma theme_latin_font_is_primary_witness :
  primary_font_family (extract_typography (theme_font_scheme small_theme)) = Some "Gothic A1".
Proof.
  apply (theme_latin_font_is_primary small_theme small_fonts small_major small_latin []
           [ Element (qualified drawingml "ea") (<["typeface" := ""]> ∅) [];
             Element (qualified drawingml "font")
               (<["script" := "Jpan"]> (<["typeface" := "MS Gothic"]> ∅)) [] ]
           "Gothic A1").
  - vm_compute. reflexivity.
  - vm_compute. reflexivity.
  - reflexivity.
  - vm_compute. reflexivity.
  - vm_compute. reflexivity.
  - vm_compute. reflexivity.
  - discriminate.
  - repeat constructor; vm_compute; (discriminate || reflexivity).
Defined.

(** ** Layout templates (design_properties_extractor.py) *)

Lemma count_placeholder_types_fold (placeholders : list string) (counted : gmap string Z)
    (type : string) :
  fold_left (fun placeholder_types type => <[type := default 0 (placeholder_types !! type) + 1]>
                                             placeholder_types)
            placeholders counted !! type =
    match occurrences type placeholders with
    | O => counted !! type
    | S n => Some (default 0 (counted !! type) + Z.of_nat (S n))
    end.
Proof.
  revert counted. induction placeholders as [|placeholder placeholders IH]; intros counted;
    [ done | ].
  cbn [fold_left]. rewrite IH. unfold occurrences. cbn [List.filter].
  destruct (String.eqb_spec type placeholder) as [<- | Hne].
  - rewrite lookup_insert_eq. cbn [length].
    destruct (length (List.filter (String.eqb type) placeholders)); cbn [default]; unfold id; f_equal; lia.
  - by rewrite lookup_insert_ne.
Qed.

Lemma occurrences_In (type : string) (placeholders : list string) :
  occurrences type placeholders <> O <-> In type placeholders.
Proof.
  unfold occurrences. induction placeholders as [|placeholder placeholders IH];
    cbn [List.filter In]; [ by split | ].
  destruct (String.eqb_spec type placeholder) as [<- | Hne]; cbn [length].
  - split; [ by left | done ].
  - rewrite IH. split; [ by right | ]. by intros [? | ?].
Qed.

(** The histogram of a layout: a type has an entry when it occurs, and
    the entry is the number of its occurrences. *)
Lemma count_placeholder_types_lookup (placeholders : list string) (type : string) :
  (is_Some (count_placeholder_types placeholders !! type) <-> In type placeholders) /\
  default 0 (count_placeholder_types placeholders !! type) = Z.of_nat (occurrences type placeholders).
Proof.
  unfold count_placeholder_types. rewrite count_placeholder_types_fold, lookup_empty.
  rewrite <- occurrences_In. destruct (occurrences type placeholders) as [|n]; cbn [default].
  - split; [ | done ]. split; [ by intros [? ?] | done ].
  - split; [ | cbv [default id]; lia ]. split; [ done | by eexists ].
Qed.

(** X18. The usage pattern of a layout by the placeholders it has.  A title
    decides first, with a subtitle, a body or a picture, in this order;
    a layout is multi_content only when it has no title and at least two
    bodies, so a titled layout with two bodies is a content slide. *)
Theorem usage_pattern_of_placeholders (placeholders : list string) :
  let pattern := determine_usage_pattern (count_placeholder_types placeholders) in
  (pattern = "title_slide" <-> In "TITLE" placeholders /\ In "SUBTITLE" placeholders) /\
  (pattern = "content_slide" <->
     In "TITLE" placeholders /\ ~ In "SUBTITLE" placeholders /\ In "BODY" placeholders) /\
  (pattern = "image_slide" <->
     In "TITLE" placeholders /\ ~ In "SUBTITLE" placeholders /\ ~ In "BODY" placeholders /\
     In "PICTURE" placeholders) /\
  (pattern = "multi_content" <->
     ~ In "TITLE" placeholders /\ (2 <= occurrences "BODY" placeholders)%nat) /\
  (In "TITLE" placeholders -> (2 <= occurrences "BODY" placeholders)%nat ->
     pattern = "title_slide" \/ pattern = "content_slide").
Proof.
  cbv zeta. unfold determine_usage_pattern.
  destruct (count_placeholder_types_lookup placeholders "TITLE") as [Htitle _].
  destruct (count_placeholder_types_lookup placeholders "SUBTITLE") as [Hsubtitle _].
  destruct (count_placeholder_types_lookup placeholders "BODY") as [Hbody Hbodies].
  destruct (count_placeholder_types_lookup placeholders "PICTURE") as [Hpicture _].
  assert ((2 <= occurrences "BODY" placeholders)%nat -> In "BODY" placeholders) as Hocc.
  { intros Htwo. apply occurrences_In. lia. }
  assert (1 < Z.of_nat (occurrences "BODY" placeholders) -> In "BODY" placeholders) as Hocc'.
  { intros Htwo. apply occurrences_In. lia. }
  rewrite Hbodies.
  repeat case_bool_decide; cbn [andb];
    destruct (Z.ltb_spec 1 (Z.of_nat (occurrences "BODY" placeholders)));
    repeat match goal with
           | |- _ /\ _ => split
           | |- _ <-> _ => split
           | |- _ -> _ => intros ?
           | H : _ /\ _ |- _ => destruct H
           end;
    try discriminate; try reflexivity; try tauto; try lia;
    try (left; reflexivity); try (right; reflexivity);
    try (exfalso; tauto); try (exfalso; lia).
Qed.

Lemma layout_templates_fold (layouts : list layout_analysis)
    (layout_templates : gmap string layout_template) (name : string) :
  fold_left
    (fun layout_templates layout =>
       let placeholder_types := count_placeholder_types (analysed_placeholders layout) in
       <[analysed_name layout :=
           {| template_name := analysed_name layout;
              placeholder_count := length (analysed_placeholders layout);
              placeholder_types := placeholder_types;
              template_placeholders := analysed_placeholders layout;
              usage_pattern := determine_usage_pattern placeholder_types |}]> layout_templates)
    layouts layout_templates !! name =
  match last (List.filter (fun layout => String.eqb (analysed_name layout) name) layouts) with
  | Some layout =>
      Some {| template_name := name;
              placeholder_count := length (analysed_placeholders layout);
              placeholder_types := count_placeholder_types (analysed_placeholders layout);
              template_placeholders := analysed_placeholders layout;
              usage_pattern :=
                determine_usage_pattern (count_placeholder_types (analysed_placeholders layout)) |}
  | None => layout_templates !! name
  end.
Proof.
  revert layout_templates. induction layouts as [|layout layouts IH]; intros layout_templates;
    [ done | ].
  cbn [fold_left List.filter]. rewrite IH.
  destruct (String.eqb_spec (analysed_name layout) name) as [<- | Hne].
  - rewrite last_cons.
    destruct (last (List.filter _ layouts)); [ done | ]. by rewrite lookup_insert_eq.
  - destruct (last (List.filter _ layouts)); [ done | ]. by rewrite lookup_insert_ne.
Qed.

(** X19. The layout templates are keyed by layout name: a name has a template
    exactly when a layout has the name, and of several layouts with one
    name the last is the one described; its count is the number of its
    placeholders and its pattern the pattern of its placeholders. *)
Theorem extract_layout_templates_by_name (layouts : list layout_analysis) (name : string) :
  match last (List.filter (fun layout => String.eqb (analysed_name layout) name) layouts) with
  | None => extract_layout_templates layouts !! name = None
  | Some layout =>
      exists template, extract_layout_templates layouts !! name = Some template /\
        template_name template = name /\
        template_placeholders template = analysed_placeholders layout /\
        placeholder_count template = length (analysed_placeholders layout) /\
        (forall type, default 0 (placeholder_types template !! type)
                      = Z.of_nat (occurrences type (analysed_placeholders layout))) /\
        usage_pattern template
          = determine_usage_pattern (count_placeholder_types (analysed_placeholders layout))
  end.
Proof.
  unfold extract_layout_templates. rewrite layout_templates_fold.
  destruct (last (List.filter _ layouts)) as [layout|]; [ | done ].
  eexists. split; [ done | ]. cbn. repeat split.
  intros type. apply count_placeholder_types_lookup.
Qed.

(** ** Loops over the parts of an object *)

Lemma for_each_index_from {S T} (items : S -> list T) (put : list T -> S -> S) (body : action T unit) :
  (forall l s, items (put l s) = l) -> (forall l l' s, put l (put l' s) = put l s) ->
  (forall s, put (items s) s = s) ->
  forall (todo before : list T) (s : S),
    items s = before ++ todo ->
    perform
      (for_each_do (seq (length before) (length todo))
         (fun i => within (fun s => items s !! i) (fun t s => put (<[i := t]> (items s)) s)
                     IndexError body))
      s =
    match loop_over body todo with
    | (todo', None) => Ok (put (before ++ todo') s) tt
    | (todo', Some e) => Err (put (before ++ todo') s) e
    end.
Proof.
  intros Hget Hput Hid. induction todo as [|item todo IH]; intros before s Hitems.
  - cbn [length seq for_each_do loop_over perform mret action_ret].
    by rewrite <- Hitems, Hid.
  - cbn [length seq for_each_do loop_over]. rewrite perform_bind.
    unfold within at 1. cbn [perform]. rewrite Hitems, list_lookup_middle by done.
    assert (forall item', <[length before := item']> (before ++ item :: todo)
                          = before ++ item' :: todo) as Hinsert.
    { intros item'. replace (length before) with (length before + 0)%nat by lia.
      by rewrite insert_app_r. }
    destruct (perform body item) as [item' []|item' e]; rewrite Hinsert; [ | done ].
    specialize (IH (before ++ [item']) (put (before ++ item' :: todo) s)).
    rewrite length_app, Nat.add_1_r in IH. rewrite IH by (by rewrite Hget, <- app_assoc).
    destruct (loop_over body todo) as [todo' [e|]]; by rewrite Hput, <- app_assoc.
Qed.

(** A loop over the items of an object: the items after the loop are what
    the body made of them one after the other, and the first failure ends
    the loop with the items before it updated. *)
Lemma for_each_index_loop {S T} (items : S -> list T) (put : list T -> S -> S) (body : action T unit)
    (s : S) :
  (forall l s, items (put l s) = l) -> (forall l l' s, put l (put l' s) = put l s) ->
  (forall s, put (items s) s = s) ->
  perform (for_each_index items put body) s =
    match loop_over body (items s) with
    | (items', None) => Ok (put items' s) tt
    | (items', Some e) => Err (put items' s) e
    end.
Proof.
  intros Hget Hput Hid. unfold for_each_index. cbn [perform].
  exact (for_each_index_from items put body Hget Hput Hid (items s) [] s eq_refl).
Qed.

Lemma loop_over_all {T} (body : action T unit) (f : T -> T) (items : list T) :
  (forall item, perform body item = Ok (f item) tt) -> loop_over body items = (map f items, None).
Proof.
  intros Hbody. induction items as [|item items IH]; [ done | ].
  cbn [loop_over map]. by rewrite Hbody, IH.
Qed.


(** ** Font styling (enhanced_presentation_generator.py) *)

Lemma runs_lens :
  (forall (l : list run) (p : paragraph), runs {| runs := l; level := level p |} = l) /\
  (forall (l l' : list run) (p : paragraph),
     {| runs := l; level := level {| runs := l'; level := level p |} |} = {| runs := l; level := level p |}) /\
  (forall p : paragraph, {| runs := runs p; level := level p |} = p).
Proof. repeat split. by intros []. Qed.

(** The size [_apply_font_styling] takes for a font type. *)
Lemma font_size_of_type (sizes : gmap string Z) (font_type : string) :
  let size_map : gmap string Z :=
    list_to_map
      [ ("title", default 44 (sizes !! "title_size"));
        ("heading", default 32 (sizes !! "heading_size"));
        ("subheading", default 24 (sizes !! "subheading_size"));
        ("body", default 18 (sizes !! "body_size"));
        ("caption", default 14 (sizes !! "caption_size")) ] in
  let size := default 18 (size_map !! font_type) in
  (font_type = "title" -> size = default 44 (sizes !! "title_size")) /\
  (font_type = "heading" -> size = default 32 (sizes !! "heading_size")) /\
  (font_type = "subheading" -> size = default 24 (sizes !! "subheading_size")) /\
  (font_type = "body" -> size = default 18 (sizes !! "body_size")) /\
  (font_type = "caption" -> size = default 14 (sizes !! "caption_size")) /\
  (~ In font_type [ "title"; "heading"; "subheading"; "body"; "caption" ] -> size = 18).
Proof.
  cbv zeta.
  generalize (default 44 (sizes !! "title_size")) (default 32 (sizes !! "heading_size"))
             (default 24 (sizes !! "subheading_size")) (default 18 (sizes !! "body_size"))
             (default 14 (sizes !! "caption_size")).
  intros title heading subheading body caption.
  repeat split; try (intros ->; vm_compute; reflexivity).
  intros Hother. rewrite (not_elem_of_list_to_map_1 _ font_type); [ done | ].
  cbn [fmap list_fmap fst]. rewrite <- list_elem_of_In in Hother. exact Hother.
Qed.

Lemma style_run_parsed (family : string) (size : Z) (text_color : string) (rgb : Z * Z * Z) (r : run) :
  hex_to_rgb text_color = Return rgb ->
  perform (style_run family size text_color) r =
    Ok (styled {| font_name := Some family; font_size := Some size; font_color := Some rgb |} r) tt.
Proof.
  intros Hrgb. unfold style_run. rewrite !perform_bind. cbn [perform update].
  rewrite perform_bind, Hrgb. reflexivity.
Qed.


(** X22. With a text colour that parses, the styling pass reaches every run of
    every paragraph: each gets the configured family (Calibri without
    one), the size of the font type and the text colour ('#000000'
    without one); texts, levels and the number of paragraphs and runs
    stay.  A font type the pass does not know gets 18 points, whatever
    the configured body size. *)
Theorem _apply_font_styling_styles_every_run (config : design_config) (font_type : string)
    (tf : text_frame) (rgb : Z * Z * Z) :
  hex_to_rgb (default "#000000" (color_scheme config !! "text_dark")) = Return rgb ->
  exists size,
    perform (_apply_font_styling config font_type) tf =
      Ok (map (fun p =>
                 {| runs := map (styled {| font_name := Some (default "Calibri" (fonts_primary config));
                                           font_size := Some size; font_color := Some rgb |})
                                (runs p);
                    level := level p |}) tf) tt /\
    (font_type = "title" -> size = default 44 (fonts_sizes config !! "title_size")) /\
    (font_type = "heading" -> size = default 32 (fonts_sizes config !! "heading_size")) /\
    (font_type = "subheading" -> size = default 24 (fonts_sizes config !! "subheading_size")) /\
    (font_type = "body" -> size = default 18 (fonts_sizes config !! "body_size")) /\
    (font_type = "caption" -> size = default 14 (fonts_sizes config !! "caption_size")) /\
    (~ In font_type [ "title"; "heading"; "subheading"; "body"; "caption" ] -> size = 18).
Proof.
  intros Hrgb. unfold _apply_font_styling. rewrite try_Exception_unit. cbv zeta.
  eexists. split; [ | apply font_size_of_type ].
  destruct runs_lens as (Hget & Hput & Hid).
  rewrite for_each_index_loop by done.
  erewrite loop_over_all; [ reflexivity | ]. intros p. cbv beta.
  rewrite for_each_index_loop by done.
  erewrite loop_over_all; [ reflexivity | ]. intros r. by apply style_run_parsed.
Qed.


(** A title of one run under the empty design: Calibri, 44 points, black. *)
Lemma _apply_font_styling_styles_every_run_witness :
  perform (_apply_font_styling plain_design "title") (one_line "Soil") =
    Ok [ {| runs := [ {| run_text := "Soil";
                         run_font := {| font_name := Some "Calibri"; font_size := Some 44;
                                        font_color := Some (0, 0, 0) |} |} ];
            level := 0 |} ] tt.
Proof.
  destruct (_apply_font_styling_styles_every_run plain_design "title" (one_line "Soil") (0, 0, 0))
    as (size & Hrun & Hsize & _).
  - vm_compute. reflexivity.
  - rewrite Hrun, (Hsize eq_refl). reflexivity.
Defined.


(** ** Styled slides, all cases (enhanced_presentation_generator.py) *)


(** ** Slides from XML and the assembly loop, all cases *)

Lemma presentation_eta (prs : presentation) :
  {| slide_layouts := slide_layouts prs; slides := slides prs |} = prs.
Proof. by destruct prs. Qed.

(** What [create_slide_from_xml] does to the deck with the layout it
    settles on: one slide more on that layout, or nothing without a
    layout; never an error. *)
Lemma create_slide_from_xml_chosen `{Collaborators} (config : design_config) (prs : presentation)
    (slide_xml requested : string) :
  match List.find (fun l => String.eqb (layout_name l) requested) (slide_layouts prs) with
  | Some chosen => Some chosen
  | None => slide_layouts prs !! 0%nat
  end =
  match slide_layouts prs with
  | [] => None
  | first_layout :: _ =>
      Some (default first_layout
              (List.find (fun l => String.eqb (layout_name l) requested) (slide_layouts prs)))
  end /\
  match slide_layouts prs with
  | [] => perform (create_slide_from_xml config slide_xml requested) prs = Ok prs tt
  | first_layout :: _ =>
      exists new_slide,
        perform (create_slide_from_xml config slide_xml requested) prs =
          Ok {| slide_layouts := slide_layouts prs; slides := slides prs ++ [new_slide] |} tt /\
        slide_layout new_slide =
          default first_layout
            (List.find (fun l => String.eqb (layout_name l) requested) (slide_layouts prs))
  end.
Proof.
  unfold create_slide_from_xml. rewrite try_Exception_unit.
  rewrite perform_bind. cbn [perform read]. rewrite perform_bind.
  destruct (slide_layouts prs) as [|first_layout others] eqn:Hlayouts.
  - cbn [List.find lookup list_lookup perform lift final]. done.
  - set (found := List.find _ (first_layout :: others)).
    assert (match found with Some l => Return l
            | None => match (first_layout :: others) !! 0%nat with
                      | Some l => Return l | None => Raise IndexError end
            end = Return (default first_layout found)) as -> by (by destruct found).
    split; [ by destruct found | ].
    cbn [perform lift]. rewrite perform_bind. cbn [perform add_slide].
    rewrite perform_bind, Hlayouts.
    destruct (xml_shapes slide_xml) as [elements|e]; cbn [perform lift final].
    + destruct (bind_xml_shapes_last config (first_layout :: others) (slides prs) elements
                  {| slide_layout := default first_layout found;
                     shapes := layout_shapes (default first_layout found);
                     background := Inherited |}) as (s' & Hlayout & ->).
      by exists s'.
    + by eexists.
Qed.

Lemma find_first_named (layouts before after : list layout) (l : layout) (requested : string) :
  layouts = before ++ l :: after -> layout_name l = requested ->
  Forall (fun l => layout_name l <> requested) before ->
  List.find (fun l => String.eqb (layout_name l) requested) layouts = Some l.
Proof.
  intros -> Hname Hbefore. induction Hbefore as [|other before Hother _ IH]; cbn [app List.find].
  - by rewrite Hname, String.eqb_refl.
  - apply String.eqb_neq in Hother. by rewrite Hother.
Qed.

(** X25. The layout of a slide made from XML is the first layout of the
    template with the requested name, also when several layouts have it;
    the slide is added after the slides there are, which stay as they
    are.  On a template without any layout nothing is added, and still no
    error is raised. *)
Theorem create_slide_from_xml_named_layout `{Collaborators} (config : design_config)
    (prs : presentation) (slide_xml requested : string) :
  (slide_layouts prs = [] ->
   perform (create_slide_from_xml config slide_xml requested) prs = Ok prs tt) /\
  (forall before named after,
     slide_layouts prs = before ++ named :: after ->
     layout_name named = requested ->
     Forall (fun l => layout_name l <> requested) before ->
     exists new_slide,
       perform (create_slide_from_xml config slide_xml requested) prs =
         Ok {| slide_layouts := slide_layouts prs; slides := slides prs ++ [new_slide] |} tt /\
       slide_layout new_slide = named).
Proof.
  destruct (create_slide_from_xml_chosen config prs slide_xml requested) as [_ Hrun]. split.
  - intros Hnone. by rewrite Hnone in Hrun.
  - intros before named after Hlayouts Hname Hbefore.
    rewrite (find_first_named _ _ _ _ _ Hlayouts Hname Hbefore) in Hrun.
    destruct (slide_layouts prs) as [|first_layout others]; [ by destruct before | ].
    exact Hrun.
Qed.

Lemma create_slide_from_xml_adds `{Collaborators} (config : design_config) (prs : presentation)
    (slide_xml requested : string) :
  exists added,
    perform (create_slide_from_xml config slide_xml requested) prs =
      Ok {| slide_layouts := slide_layouts prs; slides := slides prs ++ added |} tt /\
    length added = match slide_layouts prs with [] => 0%nat | _ => 1%nat end.
Proof.
  destruct (create_slide_from_xml_chosen config prs slide_xml requested) as [_ Hrun].
  destruct (slide_layouts prs) as [|first_layout others] eqn:Hlayouts.
  - exists []. by rewrite app_nil_r, <- Hlayouts, presentation_eta.
  - destruct Hrun as (new_slide & Hrun & _). by exists [new_slide].
Qed.

Lemma slide_kind_known (slide_type : string) :
  (slide_type ∈ known_types ->
   (slide_kind (JStr slide_type)).1 <> "" /\ (slide_kind (JStr slide_type)).2 <> "") /\
  (slide_type ∉ known_types -> slide_kind (JStr slide_type) = ("", "")).
Proof.
  unfold known_types. split.
  - rewrite !elem_of_cons, elem_of_nil.
    intros [-> | [-> | [-> | [-> | [-> | [-> | [-> | [-> | []]]]]]]]]; vm_compute; split; discriminate.
  - rewrite !not_elem_of_cons. intros (H1 & H2 & H3 & H4 & H5 & H6 & H7 & H8 & _).
    unfold slide_kind.
    apply String.eqb_neq in H1, H2, H3, H4, H5, H6, H7, H8.
    by rewrite H1, H2, H3, H4, H5, H6, H7, H8.
Qed.

(** One turn of the assembly loop on a slide description that renders. *)
Lemma content_slide_counts `{Collaborators} (config : design_config) (slide_count : Z)
    (slide_info : json) (prs : presentation) :
  renders slide_info ->
  exists added,
    perform (content_slide config slide_count slide_info) prs =
      Ok {| slide_layouts := slide_layouts prs; slides := slides prs ++ added |}
         (slide_count + if has_layout slide_info then 1 else 0) /\
    length added =
      if has_layout slide_info then match slide_layouts prs with [] => 0%nat | _ => 1%nat end
      else 0%nat.
Proof.
  intros (m & -> & Hrenders). unfold content_slide, has_layout.
  rewrite perform_bind. cbn [py_get perform lift].
  assert (forall count, perform (mret count : action presentation Z) prs =
            Ok {| slide_layouts := slide_layouts prs; slides := slides prs ++ [] |} count) as Hskip.
  { intros count. by rewrite app_nil_r, presentation_eta. }
  assert (forall count,
            perform (if negb (bool_decide ("" = "")) && negb (bool_decide ("" = ""))
                     then template ← lift (get_template "");
                          slide_content ← lift (context ← getitem (JDict m) "data";
                                                render template context);
                          create_slide_from_xml config slide_content "";;
                          mret (count + 1)
                     else mret count) prs =
            Ok {| slide_layouts := slide_layouts prs; slides := slides prs ++ [] |} (count + 0))
    as Hunknown_type.
  { intros count. rewrite bool_decide_eq_true_2 by done. cbn [negb andb].
    rewrite Z.add_0_r. apply Hskip. }
  destruct (m !! "type") as [slide_type|] eqn:Htype; cbn [default id].
  - destruct slide_type as [| | | |slide_type| |];
      try (exists []; split; [ apply Hunknown_type | done ]).
    destruct (slide_kind_known slide_type) as [Hknown Hunknown].
    destruct (decide (slide_type ∈ known_types)) as [Hin|Hin].
    + rewrite (bool_decide_eq_true_2 _ Hin).
      destruct (Hknown Hin) as [Hlayout Htemplate].
      destruct (Hrenders slide_type eq_refl Hin) as
        (context & template & slide_content & Hdata & Hget & Hrender).
      destruct (slide_kind (JStr slide_type)) as [layout_name' template_name]. cbn [fst snd] in *.
      rewrite !bool_decide_eq_false_2 by done. cbn [negb andb].
      rewrite perform_bind, Hget. cbn [perform lift].
      rewrite perform_bind. cbn [getitem]. rewrite Hdata. cbn [mbind outcome_bind].
      rewrite Hrender. cbn [perform lift]. rewrite perform_bind.
      destruct (create_slide_from_xml_adds config prs slide_content layout_name')
        as (added & -> & Hadded).
      by exists added.
    + rewrite (bool_decide_eq_false_2 _ Hin), (Hunknown Hin).
      exists []. split; [ apply Hunknown_type | done ].
  - exists []. split; [ apply Hunknown_type | done ].
Qed.

Lemma assembly_loop_counts `{Collaborators} (config : design_config) (slide_infos : list json) :
  Forall renders slide_infos ->
  forall (slide_count : Z) (prs : presentation),
  exists added,
    perform (for_each_from slide_infos (content_slide config) slide_count) prs =
      Ok {| slide_layouts := slide_layouts prs; slides := slides prs ++ added |}
         (slide_count + Z.of_nat (length (List.filter has_layout slide_infos))) /\
    length added =
      match slide_layouts prs with
      | [] => 0%nat
      | _ => length (List.filter has_layout slide_infos)
      end.
Proof.
  induction 1 as [|slide_info slide_infos Hinfo _ IH]; intros slide_count prs.
  - exists []. cbn [for_each_from List.filter length].
    split; [ by rewrite Z.add_0_r, app_nil_r, presentation_eta | by destruct (slide_layouts prs) ].
  - cbn [for_each_from List.filter]. rewrite perform_bind.
    destruct (content_slide_counts config slide_count slide_info prs Hinfo)
      as (added1 & -> & Hadded1).
    destruct (IH (slide_count + if has_layout slide_info then 1 else 0)
                 {| slide_layouts := slide_layouts prs; slides := slides prs ++ added1 |})
      as (added2 & -> & Hadded2).
    cbn [slide_layouts slides] in *. exists (added1 ++ added2). rewrite <- app_assoc, length_app.
    destruct (has_layout slide_info); cbn [length]; (split; [ f_equal; lia | ]);
      destruct (slide_layouts prs); lia.
Qed.

(** X26. The count a run reports is the number of slide descriptions with a
    known type: a description without a type counts as 'content', which
    is not a known type, and adds nothing; the title slide is not
    counted; and on a template without layouts the count is the same
    while no slide is added at all.  The slides the deck had stay in
    front, as they were. *)
Theorem generate_enhanced_presentation_counts `{Collaborators} (config : design_config)
    (data presentation_data : gmap string json) (slide_infos : list json) (prs : presentation) :
  data !! "presentation_data" = Some (JDict presentation_data) ->
  presentation_data !! "slides" = Some (JList slide_infos) ->
  title_renders presentation_data ->
  Forall renders slide_infos ->
  exists added,
    perform (generate_enhanced_presentation config (JDict data)) prs =
      Ok {| slide_layouts := slide_layouts prs; slides := slides prs ++ added |}
         (Z.of_nat (length (List.filter has_layout slide_infos))) /\
    length added =
      match slide_layouts prs with
      | [] => 0%nat
      | _ => ((if bool_decide (is_Some (presentation_data !! "title_slide")) then 1 else 0)
              + length (List.filter has_layout slide_infos))%nat
      end.
Proof.
  intros Hdata Hslides Htitle Hinfos. unfold generate_enhanced_presentation.
  rewrite perform_bind. cbn [py_get perform lift]. rewrite Hdata. cbn [default id].
  rewrite perform_bind.
  assert (exists titled,
            perform (title_slide_step config (JDict presentation_data)) prs =
              Ok {| slide_layouts := slide_layouts prs; slides := slides prs ++ titled |} tt /\
            length titled =
              match slide_layouts prs with
              | [] => 0%nat
              | _ => if bool_decide (is_Some (presentation_data !! "title_slide")) then 1%nat
                     else 0%nat
              end) as (titled & -> & Htitled).
  { unfold title_slide_step. rewrite perform_bind. cbn [py_in perform lift].
    case_bool_decide as Hhas.
    - destruct Hhas as [context Hcontext].
      destruct (Htitle context Hcontext) as (template & slide_content & Hget & Hrender).
      rewrite perform_bind, Hget. cbn [perform lift].
      rewrite perform_bind. cbn [getitem]. rewrite Hcontext. cbn [mbind outcome_bind].
      rewrite Hrender. cbn [perform lift].
      apply create_slide_from_xml_adds.
    - exists []. split; [ | by destruct (slide_layouts prs) ].
      by rewrite app_nil_r, presentation_eta. }
  rewrite perform_bind. cbn [py_get]. rewrite Hslides. cbn [default id mbind outcome_bind py_iter].
  cbn [perform lift].
  destruct (assembly_loop_counts config slide_infos Hinfos 0
              {| slide_layouts := slide_layouts prs; slides := slides prs ++ titled |})
    as (added & -> & Hadded).
  cbn [slide_layouts slides] in *. exists (titled ++ added).
  rewrite <- app_assoc, length_app, Z.add_0_l. split; [ done | ].
  destruct (slide_layouts prs); lia.
Qed.


(** Two descriptions, one of them without a type: one slide, count one. *)
Lemma generate_enhanced_presentation_counts_witness :
  exists added,
    perform (generate_enhanced_presentation (H := example_engine) plain_design
               (JDict typed_and_untyped)) two_layout_deck =
      Ok {| slide_layouts := slide_layouts two_layout_deck; slides := added |} 1 /\
    length added = 1%nat.
Proof.
  destruct (generate_enhanced_presentation_counts (H := example_engine) plain_design
              typed_and_untyped
              (list_to_map
                 [ ("slides", JList [ slide_of "title_only" [ ("title", JStr "Soil") ];
                                      obj [ ("data", obj [ ("title", JStr "Water") ]) ] ]) ])
              [ slide_of "title_only" [ ("title", JStr "Soil") ];
                obj [ ("data", obj [ ("title", JStr "Water") ]) ] ]
              two_layout_deck) as (added & Hrun & Hadded).
  - vm_compute. reflexivity.
  - vm_compute. reflexivity.
  - intros context Hcontext. vm_compute in Hcontext. discriminate Hcontext.
  - constructor; [ | constructor; [ | constructor ] ].
    + eexists. split; [ reflexivity | ]. intros slide_type Htype _.
      vm_compute in Htype. injection Htype as <-.
      eexists _, _, _. split; [ vm_compute; reflexivity | ]. split; vm_compute; reflexivity.
    + eexists. split; [ reflexivity | ]. intros slide_type Htype _.
      vm_compute in Htype. discriminate Htype.
  - exists added. split; [ exact Hrun | exact Hadded ].
Defined.


(** ** Title and content slides, the other cases *)

Lemma loop_over_unchanged {T} (body : action T unit) (items : list T) :
  Forall (fun item => perform body item = Ok item tt) items -> loop_over body items = (items, None).
Proof.
  induction 1 as [|item items Hitem _ IH]; [ done | ]. cbn [loop_over]. by rewrite Hitem, IH.
Qed.

(** Styling has nothing to do on a frame without runs. *)
Lemma _apply_font_styling_no_runs (config : design_config) (font_type : string) (tf : text_frame) :
  Forall (fun p => runs p = []) tf ->
  perform (_apply_font_styling config font_type) tf = Ok tf tt.
Proof.
  intros Hempty. unfold _apply_font_styling. rewrite try_Exception_unit. cbv zeta.
  destruct runs_lens as (Hget & Hput & Hid).
  rewrite for_each_index_loop by done. rewrite loop_over_unchanged; [ done | ].
  eapply Forall_impl; [ exact Hempty | ]. intros [runs0 level0]. cbn [runs]. intros ->.
  by rewrite for_each_index_loop.
Qed.

(** A text set on a placeholder and styled: one paragraph for each line. *)
Lemma text_update_Ok (config : design_config) (font_type text : string) (frame : text_frame) :
  exists tf,
    perform (set_shape_text (Some text);; on_text_frame (_apply_font_styling config font_type))
      {| shape_text_frame := Some frame |} = Ok {| shape_text_frame := Some tf |} tt /\
    map paragraph_text tf = split "010" text.
Proof.
  destruct (_apply_font_styling_same_text config font_type (set_text text))
    as (tf & Hstyle & Htexts & _).
  exists tf. split; [ | by rewrite Htexts, set_text_texts ].
  rewrite perform_bind. unfold set_shape_text.
  rewrite (on_text_frame_Ok _ frame (set_text text) tt).
  - by apply on_text_frame_Ok.
  - rewrite perform_bind. by cbn [perform lift update].
Qed.

Lemma title_slide_text_fallback (data : gmap string json) (key fallback : string) :
  data !! "presentation_data" = None ->
  title_slide_text (JDict data) key fallback = Return (JStr fallback).
Proof.
  intros Hdata. unfold title_slide_text. cbn [py_get]. rewrite Hdata.
  cbn [default id mbind outcome_bind py_get]. by rewrite lookup_empty.
Qed.

(** X28. The title slide: a new slide on the first layout of the template,
    whose title holds the rendered title of the data, one paragraph for
    each line, and whose placeholder 1 holds the rendered subtitle; a
    layout without placeholder 1 gives the slide without a subtitle and
    no error.  Data without a [presentation_data] block give the texts
    'Presentation Title' and 'Subtitle' to render. *)
Theorem create_enhanced_title_slide_texts `{Collaborators} (config : design_config)
    (prs : presentation) (data : json) (title_layout : layout) (title_frame : text_frame)
    (title : string) :
  slide_layouts prs !! 0%nat = Some title_layout ->
  layout_shapes title_layout !! 0 = Some {| shape_text_frame := Some title_frame |} ->
  (title_text ← title_slide_text data "title" "Presentation Title";
   text ← as_str title_text;
   process_text_with_jinja text data) = Return title ->
  layout_shapes title_layout !! 1 = None \/
    (exists subtitle_frame subtitle,
       layout_shapes title_layout !! 1 = Some {| shape_text_frame := Some subtitle_frame |} /\
       (subtitle_text ← title_slide_text data "subtitle" "Subtitle";
        text ← as_str subtitle_text;
        process_text_with_jinja text data) = Return subtitle) ->
  exists new_slide title_tf,
    perform (create_enhanced_title_slide config data) prs =
      Ok {| slide_layouts := slide_layouts prs; slides := slides prs ++ [new_slide] |}
         (length (slides prs)) /\
    shapes new_slide !! 0 = Some {| shape_text_frame := Some title_tf |} /\
    map paragraph_text title_tf = split "010" title /\
    (layout_shapes title_layout !! 1 = None -> shapes new_slide !! 1 = None) /\
    (forall subtitle_frame subtitle,
       layout_shapes title_layout !! 1 = Some {| shape_text_frame := Some subtitle_frame |} ->
       (subtitle_text ← title_slide_text data "subtitle" "Subtitle";
        text ← as_str subtitle_text;
        process_text_with_jinja text data) = Return subtitle ->
       exists subtitle_tf,
         shapes new_slide !! 1 = Some {| shape_text_frame := Some subtitle_tf |} /\
         map paragraph_text subtitle_tf = split "010" subtitle) /\
    (forall d key fallback, d !! "presentation_data" = None ->
       title_slide_text (JDict d) key fallback = Return (JStr fallback)).
Proof.
  intros Hlayout Htitle Hrender Hsubtitle.
  destruct (_create_styled_slide_last config 0 prs title_layout Hlayout) as (bg & Hstyled & _).
  set (fresh := {| slide_layout := title_layout; shapes := layout_shapes title_layout;
                   background := bg |}) in Hstyled.
  destruct (text_update_Ok config "title" title title_frame) as (title_tf & Htitle_run & Htitle_texts).
  set (titled := {| slide_layout := title_layout;
                    shapes := <[0 := {| shape_text_frame := Some title_tf |}]>
                                (layout_shapes title_layout);
                    background := bg |}).
  assert (perform (on_placeholder 0
                     (set_shape_text (Some title);;
                      on_text_frame (_apply_font_styling config "title"))) fresh = Ok titled tt)
    as Htitled by (by apply (on_placeholder_Ok 0 _ fresh {| shape_text_frame := Some title_frame |})).
  unfold create_enhanced_title_slide.
  rewrite perform_bind, Hstyled, perform_bind, has_title_last. subst fresh. cbn [shapes].
  rewrite Htitle, bool_decide_eq_true_2 by (by eexists).
  rewrite perform_bind, perform_bind, Hrender. cbn [perform lift].
  rewrite on_slide_last, Htitled, perform_bind.
  unfold try_action. cbn [perform]. rewrite on_slide_last.
  destruct Hsubtitle as [Hnone | (subtitle_frame & subtitle & Hsome & Hsub)].
  - assert (perform (on_placeholder 1
                       (processed_subtitle ← lift (subtitle_text ← title_slide_text data "subtitle" "Subtitle";
                                                   text ← as_str subtitle_text;
                                                   process_text_with_jinja text data);
                        set_shape_text (Some processed_subtitle);;
                        on_text_frame (_apply_font_styling config "heading"))) titled
            = Err titled KeyError) as ->.
    { unfold on_placeholder, within. cbn [perform shapes titled].
      by rewrite lookup_insert_ne, Hnone by done. }
    change (caught [KeyError; IndexError] KeyError) with true. cbn [perform mret action_ret].
    exists titled, title_tf. split; [ done | ]. cbn [shapes titled].
    split; [ by rewrite lookup_insert_eq | ]. split; [ done | ].
    split; [ intros _; by rewrite lookup_insert_ne | ].
    split; [ intros ? ? Hsome; by rewrite Hnone in Hsome | ].
    apply title_slide_text_fallback.
  - destruct (text_update_Ok config "heading" subtitle subtitle_frame)
      as (subtitle_tf & Hsub_run & Hsub_texts).
    rewrite (on_placeholder_Ok 1 _ titled {| shape_text_frame := Some subtitle_frame |}
               {| shape_text_frame := Some subtitle_tf |} tt).
    + eexists. exists title_tf. split; [ reflexivity | ]. cbn [shapes titled].
      split; [ by rewrite lookup_insert_ne, lookup_insert_eq | ]. split; [ done | ].
      split; [ intros Hnone; by rewrite Hnone in Hsome | ].
      split; [ | apply title_slide_text_fallback ].
      intros subtitle_frame' subtitle' Hsome' Hsub'. exists subtitle_tf.
      split; [ by rewrite lookup_insert_eq | ]. congruence.
    + cbn [shapes titled]. by rewrite lookup_insert_ne.
    + rewrite perform_bind, Hsub. cbn [perform lift]. exact Hsub_run.
Qed.

(** A title and a subtitle on the two-layout deck. *)
Lemma create_enhanced_title_slide_texts_witness :
  exists new_slide title_tf subtitle_tf,
    perform (create_enhanced_title_slide (H := example_engine) plain_design title_data)
      two_layout_deck =
      Ok {| slide_layouts := slide_layouts two_layout_deck; slides := [new_slide] |} 0%nat /\
    shapes new_slide !! 0 = Some {| shape_text_frame := Some title_tf |} /\
    map paragraph_text title_tf = [ "Soil" ] /\
    shapes new_slide !! 1 = Some {| shape_text_frame := Some subtitle_tf |} /\
    map paragraph_text subtitle_tf = [ "and water" ].
Proof.
  destruct (create_enhanced_title_slide_texts (H := example_engine) plain_design two_layout_deck
              title_data
              (nth 0 (slide_layouts two_layout_deck) {| layout_name := ""; layout_shapes := ∅ |})
              [empty_paragraph] "Soil")
    as (new_slide & title_tf & Hrun & Htitle & Htexts & _ & Hsubtitle & _).
  - reflexivity.
  - reflexivity.
  - vm_compute. reflexivity.
  - right. exists [empty_paragraph], "and water". split; [ reflexivity | vm_compute; reflexivity ].
  - destruct (Hsubtitle [empty_paragraph] "and water") as (subtitle_tf & Hshape & Hsub).
    + reflexivity.
    + vm_compute. reflexivity.
    + exists new_slide, title_tf, subtitle_tf.
      split; [ exact Hrun | ]. split; [ exact Htitle | ]. split; [ exact Htexts | ].
      split; [ exact Hshape | exact Hsub ].
Defined.

(** X29. The content slide when the content is not a list of bullets.  A
    layout without placeholder 1, or with one that has no text frame,
    gives the slide with its title and no error.  Without content, or
    with an empty list, the body is cleared: the prompt text of the
    layout goes and one empty paragraph stays.  Content that is not a
    list is rendered as one text, a paragraph for each line. *)
Theorem create_enhanced_content_slide_edges `{Collaborators} (config : design_config)
    (prs : presentation) (slide_data : gmap string json) (data : json) (content_layout : layout) :
  slide_layouts prs !! 1%nat = Some content_layout ->
  layout_shapes content_layout !! 0 = None \/
    (exists title_frame title_text,
       layout_shapes content_layout !! 0 = Some {| shape_text_frame := Some title_frame |} /\
       (text ← as_str (default (JStr "Slide Title") (slide_data !! "title"));
        process_text_with_jinja text data) = Return title_text) ->
  let added new_slide :=
    perform (create_enhanced_content_slide config slide_data data) prs =
      Ok {| slide_layouts := slide_layouts prs; slides := slides prs ++ [new_slide] |}
         (length (slides prs)) in
  (layout_shapes content_layout !! 1 = None ->
   exists new_slide, added new_slide /\ shapes new_slide !! 1 = None) /\
  (layout_shapes content_layout !! 1 = Some {| shape_text_frame := None |} ->
   exists new_slide, added new_slide /\
     shapes new_slide !! 1 = Some {| shape_text_frame := None |}) /\
  (forall existing,
     layout_shapes content_layout !! 1 = Some {| shape_text_frame := Some existing |} ->
     slide_data !! "content" = None \/ slide_data !! "content" = Some (JList []) ->
     exists new_slide, added new_slide /\
       shapes new_slide !! 1 = Some {| shape_text_frame := Some (clear existing) |} /\
       map paragraph_text (clear existing) = [ "" ]) /\
  (forall existing content text,
     layout_shapes content_layout !! 1 = Some {| shape_text_frame := Some existing |} ->
     slide_data !! "content" = Some content -> is_list content = false ->
     process_text_with_jinja (py_str content) data = Return text ->
     exists new_slide tf, added new_slide /\
       shapes new_slide !! 1 = Some {| shape_text_frame := Some tf |} /\
       map paragraph_text tf = split "010" text).
Proof.
  intros Hlayout Htitle. cbv zeta.
  destruct (_create_styled_slide_last config 1 prs content_layout Hlayout) as (bg & Hstyled & _).
  set (fresh := {| slide_layout := content_layout; shapes := layout_shapes content_layout;
                   background := bg |}) in Hstyled.
  assert (exists titled_slide,
            perform (bind_title config slide_data data (length (slides prs)))
              {| slide_layouts := slide_layouts prs; slides := slides prs ++ [fresh] |} =
              Ok {| slide_layouts := slide_layouts prs; slides := slides prs ++ [titled_slide] |} tt /\
            shapes titled_slide !! 1 = layout_shapes content_layout !! 1)
    as (titled_slide & Htitled & Hbody).
  { unfold bind_title. rewrite perform_bind, has_title_last. subst fresh. cbn [shapes].
    destruct Htitle as [Hnone | (title_frame & title_text & Hsome & Hrender)].
    - rewrite Hnone, bool_decide_eq_false_2 by (by intros [? ?]). by eexists.
    - rewrite Hsome, bool_decide_eq_true_2 by (by eexists). cbv zeta.
      rewrite perform_bind, Hrender. cbn [perform lift]. rewrite on_slide_last.
      destruct (title_update_Ok config "heading" title_text
                  {| slide_layout := content_layout; shapes := layout_shapes content_layout;
                     background := bg |} title_frame Hsome) as (title_shape & ->).
      eexists. split; [ reflexivity | ]. cbn [shapes]. by rewrite lookup_insert_ne. }
  assert (forall body body',
            shapes titled_slide !! 1 = Some body ->
            perform (bind_content config slide_data data) body = Ok body' tt ->
            exists new_slide,
              perform (create_enhanced_content_slide config slide_data data) prs =
                Ok {| slide_layouts := slide_layouts prs; slides := slides prs ++ [new_slide] |}
                   (length (slides prs)) /\
              shapes new_slide !! 1 = Some body') as Hbound.
  { intros body body' Hshape Hbind. eexists. split.
    - unfold create_enhanced_content_slide.
      rewrite perform_bind, Hstyled, perform_bind, Htitled, perform_bind.
      unfold try_action. cbn [perform]. rewrite on_slide_last.
      rewrite (on_placeholder_Ok _ _ _ _ _ _ Hshape Hbind). reflexivity.
    - cbn [shapes]. by rewrite lookup_insert_eq. }
  repeat split.
  - intros Hnone. exists titled_slide. split; [ | by rewrite Hbody ].
    unfold create_enhanced_content_slide.
    rewrite perform_bind, Hstyled, perform_bind, Htitled, perform_bind.
    unfold try_action. cbn [perform]. rewrite on_slide_last.
    unfold on_placeholder, within. cbn [perform]. rewrite Hbody, Hnone.
    by change (caught [KeyError; IndexError] KeyError) with true.
  - intros Hpicture. apply (Hbound {| shape_text_frame := None |}); [ by rewrite Hbody | ].
    unfold bind_content. rewrite perform_bind. cbn [perform read shape_text_frame].
    by rewrite bool_decide_eq_false_2 by (by intros [? ?]).
  - intros existing Hframe Hcontent.
    destruct (Hbound {| shape_text_frame := Some existing |}
                {| shape_text_frame := Some (clear existing) |}) as (new_slide & Hrun & Hshape).
    + by rewrite Hbody.
    + unfold bind_content. rewrite perform_bind. cbn [perform read shape_text_frame].
      rewrite bool_decide_eq_true_2 by (by eexists). apply on_text_frame_Ok.
      rewrite perform_bind. cbn [perform update]. rewrite perform_bind.
      assert (default (JList []) (slide_data !! "content") = JList []) as ->
        by (by destruct Hcontent as [-> | ->]).
      cbn [bind_bullets length seq zip zip_with for_each_do perform mret action_ret].
      apply _apply_font_styling_no_runs. destruct existing; repeat constructor.
    + exists new_slide. split; [ done | ]. split; [ done | ]. by destruct existing.
  - intros existing content text Hframe Hcontent Hscalar Hrender.
    destruct (_apply_font_styling_same_text config "body" (set_text text))
      as (tf & Hstyle & Htexts & _).
    destruct (Hbound {| shape_text_frame := Some existing |} {| shape_text_frame := Some tf |})
      as (new_slide & Hrun & Hshape).
    + by rewrite Hbody.
    + unfold bind_content. rewrite perform_bind. cbn [perform read shape_text_frame].
      rewrite bool_decide_eq_true_2 by (by eexists). apply on_text_frame_Ok.
      rewrite perform_bind. cbn [perform update]. rewrite perform_bind, Hcontent.
      cbn [default id].
      destruct content; try discriminate Hscalar;
        (rewrite perform_bind, Hrender; cbn [perform lift update]; exact Hstyle).
    + exists new_slide, tf. split; [ done | ]. split; [ done | ].
      by rewrite Htexts, set_text_texts.
Qed.

(** A slide with a title and no content on the two-layout deck: the body
    is one empty paragraph. *)
Lemma create_enhanced_content_slide_edges_witness :
  exists new_slide,
    perform
      (create_enhanced_content_slide (H := example_engine) plain_design
         (list_to_map [ ("title", JStr "Benefits") ]) (obj []))
      two_layout_deck =
      Ok {| slide_layouts := slide_layouts two_layout_deck; slides := [new_slide] |} 0%nat /\
    shapes new_slide !! 1 = Some {| shape_text_frame := Some [empty_paragraph] |}.
Proof.
  destruct (create_enhanced_content_slide_edges (H := example_engine) plain_design two_layout_deck
              (list_to_map [ ("title", JStr "Benefits") ]) (obj [])
              (nth 1 (slide_layouts two_layout_deck) {| layout_name := ""; layout_shapes := ∅ |}))
    as (_ & _ & Hempty & _).
  - reflexivity.
  - right. exists [empty_paragraph], "Benefits". split; reflexivity.
  - destruct (Hempty [empty_paragraph]) as (new_slide & Hrun & Hshape & _).
    + reflexivity.
    + left. reflexivity.
    + exists new_slide. split; [ exact Hrun | exact Hshape ].
Defined.

(** ** The default design *)

(** X30. The design the generator falls back on when it finds no design file
    styles text and slides as an empty design does: its family, sizes
    and text colour are the ones the code takes when a key is missing,
    and it sets no background. *)
Theorem default_design_is_the_fallback (font_type : string) (tf : text_frame)
    (layout_index : nat) (prs : presentation) :
  perform (_apply_font_styling _get_default_design_config font_type) tf =
    perform (_apply_font_styling plain_design font_type) tf /\
  perform (_create_styled_slide _get_default_design_config layout_index) prs =
    perform (_create_styled_slide plain_design layout_index) prs.
Proof.
  split; [ | reflexivity ].
  unfold _apply_font_styling, _get_default_design_config, plain_design.
  cbn [fonts_primary fonts_sizes color_scheme].
  replace (default 44 ((list_to_map [ ("title_size", 44); ("heading_size", 32); ("body_size", 18) ]
                          : gmap string Z) !! "title_size")) with 44 by (vm_compute; reflexivity).
  reflexivity.
Qed.


(** ** From the analyses to the design file *)

Lemma brand_palette_entries (brand_colors : gmap string string) :
  create_brand_guidelines brand_colors !! "primary"
    = Some (default "#456446" (brand_colors !! "primary")) /\
  create_brand_guidelines brand_colors !! "secondary"
    = Some (default "#e7f3ec" (brand_colors !! "secondary")) /\
  create_brand_guidelines brand_colors !! "accent"
    = Some (default "#6f8770" (brand_colors !! "accent")) /\
  create_brand_guidelines brand_colors !! "text_dark" = Some "#2d4a2e" /\
  create_brand_guidelines brand_colors !! "text_light" = Some "#ffffff".
Proof.
  unfold create_brand_guidelines.
  generalize (default "#456446" (brand_colors !! "primary"))
             (default "#e7f3ec" (brand_colors !! "secondary"))
             (default "#6f8770" (brand_colors !! "accent")).
  intros primary secondary accent. repeat split; vm_compute; reflexivity.
Qed.

Lemma run_extraction_properties (lib : colorsys) (template_data : template_data)
    (palette : option color_palette) (design_properties : design_properties) :
  run_extraction lib template_data palette = Return design_properties ->
  (is_Some (dp_slide_dimensions design_properties) <->
   is_Some (td_slide_dimensions template_data)) /\
  dp_typography design_properties = extract_typography <$> td_font_scheme template_data /\
  dp_brand_guidelines design_properties =
    Some (brand_guidelines_of (dp_color_scheme design_properties)
                              (dp_typography design_properties)).
Proof.
  unfold run_extraction.
  destruct (td_slide_dimensions template_data) as [[width_val height_val]|].
  - destruct (extract_slide_dimensions width_val height_val) as [dimensions|e];
      cbn [mbind outcome_bind]; [ | done ].
    destruct palette as [palette|].
    + destruct (extract_color_scheme lib palette) as [scheme|e]; cbn [mbind outcome_bind];
        [ | done ].
      intros [= <-]. cbn. split; [ split; intros _; by eexists | done ].
    + cbn [mbind outcome_bind]. intros [= <-]. cbn. split; [ split; intros _; by eexists | done ].
  - cbn [mbind outcome_bind]. destruct palette as [palette|].
    + destruct (extract_color_scheme lib palette) as [scheme|e]; cbn [mbind outcome_bind];
        [ | done ].
      intros [= <-]. cbn. split; [ split; intros [? ?]; done | done ].
    + cbn [mbind outcome_bind]. intros [= <-]. cbn. split; [ split; intros [? ?]; done | done ].
Qed.

(** With slide dimensions and a font scheme there is a design file. *)
Lemma design_file_exists (lib : colorsys) (template_data : template_data)
    (palette : option color_palette) (design_properties : design_properties) :
  run_extraction lib template_data palette = Return design_properties ->
  is_Some (td_slide_dimensions template_data) -> is_Some (td_font_scheme template_data) ->
  returns (generate_python_pptx_config design_properties).
Proof.
  intros (Hdimensions & Htypography & Hbrand)%run_extraction_properties Hsize [font_scheme Hfonts].
  apply Hdimensions in Hsize as [dimensions Hsize].
  unfold generate_python_pptx_config. rewrite Hbrand, Htypography, Hsize, Hfonts.
  destruct (brand_palette_entries
              (default ∅ (brand_colors <$> dp_color_scheme design_properties)))
    as (Hp & Hs & Ha & Hd & Hl).
  cbn [entry mbind outcome_bind guide_color_palette brand_guidelines_of].
  rewrite Hp, Hs, Ha, Hd, Hl. by eexists.
Qed.

(** X20. The design file can be generated exactly from a template analysis
    that has slide dimensions and a font scheme; without either the
    generation is a KeyError, although the brand guidelines of the same
    extraction name a font to fall back on.  A missing palette and
    missing layouts are no obstacle. *)
Theorem generate_python_pptx_config_needs (lib : colorsys) (template_data : template_data)
    (palette : option color_palette) (design_properties : design_properties) :
  run_extraction lib template_data palette = Return design_properties ->
  (returns (generate_python_pptx_config design_properties) <->
   is_Some (td_slide_dimensions template_data) /\ is_Some (td_font_scheme template_data)) /\
  (forall e, generate_python_pptx_config design_properties = Raise e -> e = KeyError).
Proof.
  intros (Hdimensions & Htypography & Hbrand)%run_extraction_properties.
  unfold generate_python_pptx_config. rewrite Hbrand, Htypography.
  destruct (brand_palette_entries
              (default ∅ (brand_colors <$> dp_color_scheme design_properties)))
    as (Hp & Hs & Ha & Hd & Hl).
  destruct (dp_slide_dimensions design_properties) as [dimensions|]; cbn [entry mbind outcome_bind].
  - cbn [guide_color_palette brand_guidelines_of]. rewrite Hp, Hs, Ha, Hd, Hl.
    cbn [entry mbind outcome_bind].
    destruct (td_font_scheme template_data) as [font_scheme|]; cbn [fmap option_fmap option_map entry mbind outcome_bind].
    + split; [ | done ]. split; [ intros _; split; [ apply Hdimensions | ]; by eexists | by eexists ].
    + split; [ | by intros e [= <-] ]. split; [ by intros [? ?] | by intros [_ [? ?]] ].
  - split; [ | by intros e [= <-] ]. split; [ by intros [? ?] | ].
    intros [Hsome _]. apply Hdimensions in Hsome as [? ?]. done.
Qed.


(** The small template with the leaf palette: a design file is generated. *)
Lemma generate_python_pptx_config_needs_witness :
  exists design_properties,
    run_extraction colorsys_3_12 small_template_data (Some leaf_palette) = Return design_properties /\
    returns (generate_python_pptx_config design_properties).
Proof.
  destruct (run_extraction colorsys_3_12 small_template_data (Some leaf_palette))
    as [design_properties|e] eqn:Hrun; [ | vm_compute in Hrun; discriminate Hrun ].
  exists design_properties. split; [ reflexivity | ].
  apply (proj2 (proj1 (generate_python_pptx_config_needs colorsys_3_12 small_template_data
                         (Some leaf_palette) design_properties Hrun))).
  split; eexists; reflexivity.
Defined.

Lemma design_file_keys (dimensions colors fonts layouts : json) :
  let config := obj [ ("slide_dimensions", dimensions); ("colors", colors); ("fonts", fonts);
                      ("layouts", layouts) ] in
  entries config !! "color_scheme" = None /\ entries config !! "fonts" = Some fonts /\
  getitem config "colors" = Return colors.
Proof. cbv zeta. repeat split; vm_compute; reflexivity. Qed.

(** X21. What the generator makes of the design file the extractor writes.
    The file holds its colours under [colors] and its sizes under
    [fonts.sizes]; the generator reads [color_scheme] and
    [fonts.title_size] and the like.  So of the extracted design the font
    family alone reaches the slides: the generator's colour scheme is
    empty, with the brand's dark text colour in the file and black on the
    slides, and its sizes are the ones it falls back on. *)
Theorem extracted_design_in_the_generator (lib : colorsys) (template_data : template_data)
    (palette : option color_palette) (design_properties : design_properties) (config : json) :
  run_extraction lib template_data palette = Return design_properties ->
  generate_python_pptx_config design_properties = Return config ->
  exists family colors,
    family <> "" /\
    design_config_of config =
      {| color_scheme := ∅; fonts_primary := Some family; fonts_sizes := ∅ |} /\
    getitem config "colors" = Return colors /\
    getitem colors "text_dark" = Return (JStr "#2d4a2e").
Proof.
  intros (Hdimensions & Htypography & Hbrand)%run_extraction_properties.
  unfold generate_python_pptx_config. rewrite Hbrand, Htypography.
  destruct (brand_palette_entries
              (default ∅ (brand_colors <$> dp_color_scheme design_properties)))
    as (Hp & Hs & Ha & Hd & Hl).
  destruct (dp_slide_dimensions design_properties) as [dimensions|]; cbn [entry mbind outcome_bind];
    [ | done ].
  cbn [guide_color_palette brand_guidelines_of]. rewrite Hp, Hs, Ha, Hd, Hl.
  cbn [entry mbind outcome_bind].
  destruct (td_font_scheme template_data) as [font_scheme|];
    cbn [fmap option_fmap option_map entry mbind outcome_bind]; [ | done ].
  destruct (extract_typography_names_a_font_lemma font_scheme) as (family & Hfamily & Hprimary).
  rewrite Hprimary. intros [= <-].
  exists family. eexists. split; [ exact Hfamily | ].
  match goal with
  | |- context [ obj [ ("slide_dimensions", ?d); ("colors", ?c); ("fonts", ?f); ("layouts", ?l) ] ] =>
      destruct (design_file_keys d c f l) as (Hscheme & Hfonts & Hcolors)
  end.
  cbv zeta in Hscheme, Hfonts, Hcolors.
  split; [ | split; [ exact Hcolors | vm_compute; reflexivity ] ].
  unfold design_config_of. rewrite Hscheme, Hfonts. cbn [default id].
  reflexivity.
Qed.

(** The design file of the small template and the leaf palette, as the
    generator has it. *)
Lemma extracted_design_in_the_generator_witness :
  exists design_properties config family colors,
    run_extraction colorsys_3_12 small_template_data (Some leaf_palette) = Return design_properties /\
    generate_python_pptx_config design_properties = Return config /\
    family <> "" /\
    design_config_of config =
      {| color_scheme := ∅; fonts_primary := Some family; fonts_sizes := ∅ |} /\
    getitem config "colors" = Return colors /\
    getitem colors "text_dark" = Return (JStr "#2d4a2e").
Proof.
  destruct (run_extraction colorsys_3_12 small_template_data (Some leaf_palette))
    as [design_properties|e] eqn:Hrun; [ | vm_compute in Hrun; discriminate Hrun ].
  destruct (design_file_exists colorsys_3_12 small_template_data (Some leaf_palette)
              design_properties Hrun) as [config Hconfig]; [ eexists; reflexivity .. | ].
  destruct (extracted_design_in_the_generator colorsys_3_12 small_template_data
              (Some leaf_palette) design_properties config Hrun Hconfig)
    as (family & colors & Hfamily & Hdesign & Hcolors & Hdark).
  exists design_properties, config, family, colors. repeat split; assumption.
Defined.
